(** * authbot: the OAuth2 verification and redirection core of [main.py]

    A shallow embedding of the callback handler, the reconciler
    ([complete_verification]), the single and batched redirection
    ([add_user_to_guild_via_oauth2], [add_all_command]) and the
    correlation-state encoding, followed by the properties proved of them.

    Conventions.
    - Python [int] is [Z]; [str] is [string], a byte string.  [int_of_str]
      is [int()] on the strings of [Py.plain]: ASCII, and within CPython's
      limit of 4300 digits.  Outside them CPython also reads digits and
      white space that are not ASCII, and refuses a numeral past the
      limit; [int_of_str] does neither.
    - A table is a [dict] keyed by the user id string.  The three names
      [user_access_tokens], [pending_verifications] and [oauth2_adds_log]
      are bound at start-up by [load_json_file], whose default argument is
      one [dict] shared by every call that reads no file: a name whose
      file was not read is bound to that shared [dict], and two such names
      are the same table.  The [Machine] keeps the shared [dict] and, for
      each name, the [dict] of its own when its file was read.
    - A value of a table is a [Value]: a [str], an [int] or a list of log
      entries, the three kinds the handlers store (and so the kinds found
      in a file the script wrote), whatever the name of the table.
    - JSON objects received from the provider are [gmap string string]:
      the fields the handlers read ([access_token], [id]) are JSON strings
      in the provider's schema.
    - Everything outside the process (the provider's HTTP endpoints, the
      chat client, the clock) answers through an [Env], each answer a
      function of the [history] of effects performed so far; every effect
      is appended to that history.  Console output is not modelled.
    - A handler is run to completion on its own: the interleaving of two
      handlers at an [await] is outside this model. *)

From Stdlib Require Import ZArith String Ascii List Lia.
From stdpp Require Import base option gmap strings list pretty.

Local Open Scope Z_scope.
Local Open Scope string_scope.

(** ** Python primitives *)

Module Py.

(** [str(n)] for an [int]. *)
Definition str_of_int (n : Z) : string := pretty n.

(** [str(x)] where [x] is [None] or already a [str]. *)
Definition str_of_opt (x : option string) : string :=
  match x with
  | Some s => s
  | None => "None"
  end.

(** White space skipped by [int()] around the numeral: TAB..CR and the
    blank. *)
Definition is_space (c : ascii) : bool :=
  let n := nat_of_ascii c in
  ((9 <=? n)%nat && (n <=? 13)%nat) || (n =? 32)%nat.

Definition digit_val (c : ascii) : option Z :=
  let n := nat_of_ascii c in
  if ((48 <=? n)%nat && (n <=? 57)%nat)%bool
  then Some (Z.of_nat n - 48) else None.

Fixpoint lstrip (s : string) : string :=
  match s with
  | String c s' => if is_space c then lstrip s' else s
  | EmptyString => EmptyString
  end.

Fixpoint all_space (s : string) : bool :=
  match s with
  | String c s' => is_space c && all_space s'
  | EmptyString => true
  end.

(** The digits after the first one: a digit extends the numeral, a single
    underscore is allowed between two digits, and what follows the
    numeral must be white space up to the end. *)
Fixpoint int_digits (acc : Z) (s : string) : option Z :=
  match s with
  | EmptyString => Some acc
  | String c s' =>
      match digit_val c with
      | Some d => int_digits (10 * acc + d) s'
      | None =>
          if Ascii.eqb c "_" then
            match s' with
            | String c' s'' =>
                match digit_val c' with
                | Some d => int_digits (10 * acc + d) s''
                | None => None
                end
            | EmptyString => None
            end
          else if all_space s then Some acc else None
      end
  end.

Definition int_unsigned (s : string) : option Z :=
  match s with
  | String c s' =>
      match digit_val c with
      | Some d => int_digits d s'
      | None => None
      end
  | EmptyString => None
  end.

(** [int(s)] for a [str]; [None] stands for [ValueError]. *)
Definition int_of_str (s : string) : option Z :=
  match lstrip s with
  | String c r =>
      if Ascii.eqb c "+" then int_unsigned r
      else if Ascii.eqb c "-" then Z.opp <$> int_unsigned r
      else int_unsigned (String c r)
  | EmptyString => None
  end.

(** [s.split(sep)] for a one-character separator: one more part than
    there are separators. *)
Fixpoint split (sep : ascii) (s : string) : list string :=
  match s with
  | EmptyString => [EmptyString]
  | String c s' =>
      if Ascii.eqb c sep then EmptyString :: split sep s'
      else match split sep s' with
           | part :: parts => String c part :: parts
           | [] => [String c EmptyString]
           end
  end.

(** [c in s]. *)
Fixpoint contains (c : ascii) (s : string) : bool :=
  match s with
  | EmptyString => false
  | String a s' => Ascii.eqb a c || contains c s'
  end.

(** Truth value of an [int] that may be [None]: [None] and [0] are false. *)
Definition truthy_int (x : option Z) : bool :=
  match x with
  | Some n => negb (n =? 0)%Z
  | None => false
  end.

(** Truth value of a [str] that may be [None]. *)
Definition truthy_str (x : option string) : option string :=
  match x with
  | Some s => if String.eqb s "" then None else Some s
  | None => None
  end.

(** The strings on which [int_of_str] is [int()] of CPython 3.11: ASCII
    only, and short enough for the limit of 4300 digits. *)
Definition plain (s : string) : bool :=
  forallb (fun c => (nat_of_ascii c <? 128)%nat) (list_ascii_of_string s)
  && (String.length s <=? 4300)%nat.

(** Truth value of a [dict] that may be [None]: the empty one is false. *)
Definition truthy_dict (x : option (gmap string string))
  : option (gmap string string) :=
  match x with
  | Some d => if decide (d = ∅) then None else Some d
  | None => None
  end.

End Py.

(** ** Configuration, tables and the outside world *)

(** The settings read from the environment at start-up. [CLIENT_ID] comes
    from [os.getenv] without a default and so may be [None]. *)
Record Config := {
  TOKEN : string;
  CLIENT_ID : option string;
  CLIENT_SECRET : option string;
  REDIRECT_URI : string;
  VERIFIED_ROLE_ID : Z;
  UNVERIFIED_ROLE_ID : Z;
  TARGET_SERVER_ID : Z;
  AUTO_KICK_AFTER_ADD : bool
}.

Definition TOKENS_FILE : string := "user_tokens.json".
Definition PENDING_FILE : string := "pending_verifications.json".
Definition OAUTH2_ADDS_FILE : string := "oauth2_adds_log.json".

(** One element of [oauth2_adds_log[user_id]]. *)
Record LogEntry := {
  timestamp : string;
  guild_id : Z;
  method : string
}.

(** What a table holds under a key: a token, a guild id or the list of
    log entries of a user. *)
Inductive Value :=
| VStr (s : string)
| VInt (n : Z)
| VLog (entries : list LogEntry).

(** Truth value of [d.get(key)]: [None], [""], [0] and [[]] are false. *)
Definition truthy_value (x : option Value) : option Value :=
  match x with
  | Some (VStr s) => if String.eqb s "" then None else x
  | Some (VInt n) => if (n =? 0)%Z then None else x
  | Some (VLog []) => None
  | Some (VLog (_ :: _)) => x
  | None => None
  end.

(** Whether [v[:30]] returns: a [str] and a list can be sliced, an [int]
    raises [TypeError]. *)
Definition sliceable (v : Value) : bool :=
  match v with
  | VInt _ => false
  | _ => true
  end.

(** [len(v)]; [None] stands for the [TypeError] of an [int].  The length
    of a [str] is counted in bytes. *)
Definition value_len (v : Value) : option nat :=
  match v with
  | VStr s => Some (String.length s)
  | VLog entries => Some (length entries)
  | VInt _ => None
  end.

(** What an [aiohttp] request gives back: an exception anywhere in the
    request ([ConnError]), or a status and the body as [resp.json()] decodes
    it ([None] when decoding raises). *)
Inductive HttpReply :=
| ConnError
| Resp (status : Z) (json : option (gmap string string)).

(** Texts shown to the admin by [add_all_command]. *)
Inductive ChatMsg :=
| MsgRoleNotFound
| MsgNoUsers
| MsgStarting (total : nat)
| MsgProcessing (position total : nat)
| MsgReport (success_count fail_count no_token_count : nat).

(** The effects a handler performs, in the order it performs them. *)
Inductive Event :=
| EvPostToken (code : string)
| EvGetMe (access_token : string)
| EvPutMember (guild : Z) (user_id : string) (access_token : Value)
| EvRemoveRoles (guild member_id role : Z)
| EvAddRoles (guild member_id role : Z)
| EvSave (filename : string)
| EvSend (msg : ChatMsg)
| EvEdit (msg : ChatMsg)
| EvKick (member_id : Z)
| EvSleep.

(** The collaborators outside the process.  [put_member] answers [None]
    when the request or the reading of its body raises.  The next four
    fields are the chat client's cache: whether [bot.get_guild],
    [guild.get_member] and [guild.get_role] find their object, and whether
    a role is among [member.roles].  [role_call_ok] tells whether a
    [remove_roles] or [add_roles] returns rather than raises, [kick_ok] the
    same for a [member.kick], and [chat_ok] for a [ctx.send] or a
    [status_msg.edit]. *)
Record Env := {
  post_token : list Event -> string -> HttpReply;
  get_me : list Event -> string -> HttpReply;
  put_member : list Event -> Z -> string -> Value -> option Z;
  guild_cached : list Event -> Z -> bool;
  member_cached : list Event -> Z -> Z -> bool;
  role_cached : list Event -> Z -> Z -> bool;
  member_has_role : list Event -> Z -> Z -> Z -> bool;
  role_call_ok : list Event -> Z -> Z -> Z -> bool;
  kick_ok : list Event -> Z -> bool;
  utcnow : list Event -> string;
  chat_ok : list Event -> ChatMsg -> bool
}.

(** The names of the three tables. *)
Inductive Table := Tokens | Pending | Log.

#[global] Instance Table_eq_dec : EqDecision Table.
Proof. solve_decision. Defined.

(** The process state.  [default_dict] is the default argument of
    [load_json_file]; [tokens_dict], [pending_dict] and [log_dict] are the
    dicts read from the three files, [None] for a name bound to
    [default_dict] because its file was not read. *)
Record Machine := {
  default_dict : gmap string Value;
  tokens_dict : option (gmap string Value);
  pending_dict : option (gmap string Value);
  log_dict : option (gmap string Value);
  history : list Event
}.

Definition dict_of (t : Table) (m : Machine) : option (gmap string Value) :=
  match t with
  | Tokens => tokens_dict m
  | Pending => pending_dict m
  | Log => log_dict m
  end.

(** The dict a name is bound to. *)
Definition table (t : Table) (m : Machine) : gmap string Value :=
  default (default_dict m) (dict_of t m).

(** A change of the dict a name is bound to; every name bound to the same
    dict sees it. *)
Definition set_table (t : Table)
    (f : gmap string Value -> gmap string Value) (m : Machine) : Machine :=
  match dict_of t m with
  | None =>
      {| default_dict := f (default_dict m);
         tokens_dict := tokens_dict m;
         pending_dict := pending_dict m;
         log_dict := log_dict m;
         history := history m |}
  | Some d =>
      {| default_dict := default_dict m;
         tokens_dict :=
           match t with Tokens => Some (f d) | _ => tokens_dict m end;
         pending_dict :=
           match t with Pending => Some (f d) | _ => pending_dict m end;
         log_dict :=
           match t with Log => Some (f d) | _ => log_dict m end;
         history := history m |}
  end.

Abbreviation user_access_tokens := (table Tokens).
Abbreviation pending_verifications := (table Pending).
Abbreviation oauth2_adds_log := (table Log).
Abbreviation set_tokens := (set_table Tokens).
Abbreviation set_pending := (set_table Pending).
Abbreviation set_log := (set_table Log).

(** Whether a name has a dict of its own, and whether two names are bound
    to two dicts. *)
Definition own (d : option (gmap string Value)) : bool :=
  match d with
  | Some _ => true
  | None => false
  end.

Definition separate (t t' : Table) (m : Machine) : bool :=
  own (dict_of t m) || own (dict_of t' m).

Definition record (e : Event) (m : Machine) : Machine :=
  {| default_dict := default_dict m;
     tokens_dict := tokens_dict m;
     pending_dict := pending_dict m;
     log_dict := log_dict m;
     history := history m ++ [e] |}.

(** ** The monad of handlers: state, and exceptions that keep the state *)

Inductive Exn := TypeError | ValueError | AttributeError | HTTPException.

Inductive Res (A : Type) :=
| Ok (a : A)
| Raised (e : Exn).
Arguments Ok {A} a.
Arguments Raised {A} e.

Definition M (A : Type) : Type := Machine -> Res A * Machine.

Definition ret {A} (a : A) : M A := fun m => (Ok a, m).

Definition raise {A} (e : Exn) : M A := fun m => (Raised e, m).

Definition bind {A B} (c : M A) (k : A -> M B) : M B :=
  fun m =>
    match c m with
    | (Ok a, m') => k a m'
    | (Raised e, m') => (Raised e, m')
    end.

Definition get : M Machine := fun m => (Ok m, m).

Definition modify (f : Machine -> Machine) : M unit := fun m => (Ok tt, f m).

(** [try: c except Exception: h]. *)
Definition try_except {A} (c : M A) (h : M A) : M A :=
  fun m =>
    match c m with
    | (Ok a, m') => (Ok a, m')
    | (Raised _, m') => h m'
    end.

(** [try: c except: pass]. *)
Definition try_pass (c : M unit) : M unit := try_except c (ret tt).

Declare Scope handler_scope.
Delimit Scope handler_scope with handler.
Notation "x <- c ;; k" := (bind c (fun x => k))
  (at level 100, c at next level, right associativity) : handler_scope.
Notation "c ;;; k" := (bind c (fun _ => k))
  (at level 100, right associativity) : handler_scope.
Local Open Scope handler_scope.

(** [int(x)] where [x] is [None] or a [str]. *)
Definition int_of_opt (x : option string) : M Z :=
  match x with
  | None => raise TypeError
  | Some s =>
      match Py.int_of_str s with
      | Some n => ret n
      | None => raise ValueError
      end
  end.

(** ** The callback's HTTP surface *)

Module web.

Record Response := {
  status : Z;
  content_type : string;
  text : string
}.

(** [web.Response(text=..., content_type=...)]: the status defaults to 200
    and the content type of a text body to [text/plain]. *)
Definition mkResponse (body : string) (ctype : option string) : Response :=
  {| status := 200;
     content_type := default "text/plain" ctype;
     text := body |}.

(** The query of the request: [request.query.get('code')] and
    [request.query.get('state')]. *)
Record Request := {
  code : option string;
  state : option string
}.

End web.

(** The page returned once a token was obtained (markup abridged). *)
Definition html : string :=
  "<!DOCTYPE html><html><head><title>OAuth2 Authorization Complete</title></head></html>".

(** ** Correlation state and authorization URL ([start_verify], [verify_command]) *)

Definition state_data (member_id guild : Z) : string :=
  Py.str_of_int member_id +:+ ":" +:+ Py.str_of_int guild.

Definition oauth_url (cfg : Config) (member_id guild : Z) : string :=
  "https://discord.com/api/oauth2/authorize?client_id="
    +:+ Py.str_of_opt (CLIENT_ID cfg)
    +:+ "&redirect_uri=" +:+ REDIRECT_URI cfg
    +:+ "&response_type=code&scope=identify+guilds.join&state="
    +:+ state_data member_id guild.

(** The parse of [state] in [handle_callback]: the pair [(user_id, guild_id)]
    after the [try] block.  When the second [int()] raises, the first
    assignment has already happened. *)
Definition parse_state (state : option string) : option Z * option Z :=
  match Py.truthy_str state with
  | Some s =>
      if Py.contains ":" s then
        match Py.split ":" s with
        | [user_id_str; guild_id_str] =>
            match Py.int_of_str user_id_str with
            | Some user_id => (Some user_id, Py.int_of_str guild_id_str)
            | None => (None, None)
            end
        | _ => (None, None)
        end
      else (None, None)
  | None => (None, None)
  end.

(** ** The handlers *)

(** The four branches of the status test in [add_user_to_guild_via_oauth2];
    an exception ends in the last one. *)
Inductive Outcome := Added | AlreadyMember | Forbidden | OtherError.

Definition classify (reply : option Z) : Outcome :=
  match reply with
  | Some status =>
      if (status =? 200)%Z || (status =? 201)%Z then Added
      else if (status =? 204)%Z then AlreadyMember
      else if (status =? 403)%Z then Forbidden
      else OtherError
  | None => OtherError
  end.

Section Handlers.

Variable cfg : Config.
Variable env : Env.

Definition save_json_file (filename : string) : M unit :=
  modify (record (EvSave filename)).

Definition session_post_token (code : string) : M HttpReply :=
  fun m => (Ok (post_token env (history m) code), record (EvPostToken code) m).

Definition session_get_me (access_token : string) : M HttpReply :=
  fun m => (Ok (get_me env (history m) access_token),
            record (EvGetMe access_token) m).

Definition session_put_member (guild : Z) (user_id : string)
    (access_token : Value) : M (option Z) :=
  fun m => (Ok (put_member env (history m) guild user_id access_token),
            record (EvPutMember guild user_id access_token) m).

(** [bot.get_guild(guild_id)] with what the pending table holds.  The
    client keeps its guilds in a dict keyed by their ids: an [int] is
    looked up there, a [str] is the key of no guild, and a list cannot be
    hashed, so that the lookup raises [TypeError]. *)
Definition bot_get_guild (guild_id : Value) : M (option Z) :=
  match guild_id with
  | VInt guild =>
      fun m =>
        (Ok (if guild_cached env (history m) guild then Some guild else None), m)
  | VStr _ => ret None
  | VLog _ => raise TypeError
  end.

Definition guild_get_member (guild member_id : Z) : M bool :=
  fun m => (Ok (member_cached env (history m) guild member_id), m).

Definition guild_get_role (guild role : Z) : M bool :=
  fun m => (Ok (role_cached env (history m) guild role), m).

Definition role_in_member_roles (guild member_id role : Z) : M bool :=
  fun m => (Ok (member_has_role env (history m) guild member_id role), m).

Definition member_remove_roles (guild member_id role : Z) : M unit :=
  fun m => (if role_call_ok env (history m) guild member_id role
            then Ok tt else Raised HTTPException,
            record (EvRemoveRoles guild member_id role) m).

Definition member_add_roles (guild member_id role : Z) : M unit :=
  fun m => (if role_call_ok env (history m) guild member_id role
            then Ok tt else Raised HTTPException,
            record (EvAddRoles guild member_id role) m).

Definition datetime_utcnow : M string :=
  fun m => (Ok (utcnow env (history m)), m).

Definition ctx_send (msg : ChatMsg) : M unit :=
  fun m => (if chat_ok env (history m) msg then Ok tt else Raised HTTPException,
            record (EvSend msg) m).

Definition status_msg_edit (msg : ChatMsg) : M unit :=
  fun m => (if chat_ok env (history m) msg then Ok tt else Raised HTTPException,
            record (EvEdit msg) m).

Definition member_kick (member_id : Z) : M unit :=
  fun m => (if kick_ok env (history m) member_id
            then Ok tt else Raised HTTPException,
            record (EvKick member_id) m).

Definition asyncio_sleep : M unit := modify (record EvSleep).

Definition exchange_code_for_token (code : string)
  : M (option (gmap string string)) :=
  reply <- session_post_token code;;
  match reply with
  | Resp status body =>
      if (status =? 200)%Z then
        match body with
        | Some token_data => ret (Some token_data)
        | None => ret None
        end
      else ret None
  | ConnError => ret None
  end.

Definition get_user_info (access_token : string)
  : M (option (gmap string string)) :=
  reply <- session_get_me access_token;;
  match reply with
  | Resp status body =>
      if (status =? 200)%Z then
        match body with
        | Some user_info => ret (Some user_info)
        | None => ret None
        end
      else ret None
  | ConnError => ret None
  end.

(** The booleans stand for the objects looked up: [false] is [None]. *)
Definition verify_user_in_guild (user_id : Z) (guild_id : Value) : M bool :=
  found <- bot_get_guild guild_id;;
  match found with
  | None => ret false
  | Some guild =>
  member <- guild_get_member guild user_id;;
  if negb member then ret false else
  verified_role <- guild_get_role guild (VERIFIED_ROLE_ID cfg);;
  unverified_role <- guild_get_role guild (UNVERIFIED_ROLE_ID cfg);;
  if negb verified_role then ret false else
  try_except
    ((if unverified_role : bool then
        worn <- role_in_member_roles guild user_id (UNVERIFIED_ROLE_ID cfg);;
        if worn : bool
        then member_remove_roles guild user_id (UNVERIFIED_ROLE_ID cfg)
        else ret tt
      else ret tt);;;
     member_add_roles guild user_id (VERIFIED_ROLE_ID cfg);;;
     ret true)
    (ret false)
  end.

(** [oauth2_adds_log[user_id].append({...})], after the list was created
    when the key is missing, then the save.  What is found under the key
    may be no list (a token or a guild id, when the log is the dict of
    another table): [append] then raises [AttributeError]. *)
Definition log_add (user_id : string) (guild : Z) (tag : string) : M unit :=
  m <- get;;
  entries <-
    match oauth2_adds_log m !! user_id with
    | None => ret []
    | Some (VLog entries) => ret entries
    | Some _ => raise AttributeError
    end;;
  now <- datetime_utcnow;;
  modify (set_log
    <[user_id :=
        VLog (entries
                ++ [{| timestamp := now; guild_id := guild; method := tag |}])]>);;;
  save_json_file OAUTH2_ADDS_FILE.

(** The whole body is in a [try]: whatever raises ends in [return False].
    The token is sliced for the console before the request goes out. *)
Definition add_user_to_guild_via_oauth2
    (user_id : string) (access_token : Value) (guild : Z) : M bool :=
  try_except
    ((if sliceable access_token then ret tt else raise TypeError);;;
     reply <- session_put_member guild user_id access_token;;
     match classify reply with
     | Added => log_add user_id guild "oauth2_guilds_join";;; ret true
     | AlreadyMember => log_add user_id guild "already_member";;; ret true
     | Forbidden => ret false
     | OtherError => ret false
     end)
    (ret false).

Definition complete_verification (user_id : Z) (access_token : string)
  : M bool :=
  user_info <- get_user_info access_token;;
  match Py.truthy_dict user_info with
  | None => ret false
  | Some user_info =>
      let user_id_from_token := user_info !! "id" in
      user_id <-
        (if String.eqb (Py.str_of_int user_id) (Py.str_of_opt user_id_from_token)
         then ret user_id
         else int_of_opt user_id_from_token);;
      let user_id_str := Py.str_of_int user_id in
      m <- get;;
      match pending_verifications m !! user_id_str with
      | Some guild_id =>
          success <- verify_user_in_guild user_id guild_id;;
          if success : bool then
            modify (set_pending (delete user_id_str));;;
            save_json_file PENDING_FILE;;;
            modify (set_tokens <[user_id_str := VStr access_token]>);;;
            save_json_file TOKENS_FILE;;;
            ret true
          else ret false
      | None =>
          modify (set_tokens <[user_id_str := VStr access_token]>);;;
          save_json_file TOKENS_FILE;;;
          ret false
      end
  end.

Definition handle_callback (request : web.Request) : M web.Response :=
  match Py.truthy_str (web.code request) with
  | None => ret (web.mkResponse "No authorization code received" None)
  | Some code =>
      token_data <- exchange_code_for_token code;;
      match Py.truthy_dict token_data ≫= (.!! "access_token") with
      | None => ret (web.mkResponse "Token exchange failed" None)
      | Some access_token =>
          let '(user_id, _) := parse_state (web.state request) in
          user_id <-
            (if Py.truthy_int user_id then ret user_id
             else
               user_info <- get_user_info access_token;;
               match Py.truthy_dict user_info with
               | Some user_info =>
                   n <- int_of_opt (user_info !! "id");; ret (Some n)
               | None => ret user_id
               end);;
          match user_id with
          | Some n =>
              if negb (n =? 0)%Z
              then complete_verification n access_token;;; ret tt
              else ret tt
          | None => ret tt
          end;;;
          ret (web.mkResponse html (Some "text/html"))
      end
  end.

(** The body of the [for] loop of [add_all_command], from position [i] on;
    [total] is [len(verified_members)]. *)
Fixpoint add_all_loop (total i : nat) (members : list Z)
    (success_count fail_count no_token_count : nat) : M (nat * nat * nat) :=
  match members with
  | [] => ret (success_count, fail_count, no_token_count)
  | member :: rest =>
      let user_id_str := Py.str_of_int member in
      m <- get;;
      match truthy_value (user_access_tokens m !! user_id_str) with
      | None =>
          add_all_loop total (S i) rest
            success_count fail_count (S no_token_count)
      | Some access_token =>
          (if (i mod 3 =? 0)%nat
           then status_msg_edit (MsgProcessing (i + 1) total)
           else ret tt);;;
          success <- add_user_to_guild_via_oauth2
                       user_id_str access_token (TARGET_SERVER_ID cfg);;
          counts <-
            (if success : bool then
               (if AUTO_KICK_AFTER_ADD cfg
                then try_pass (member_kick member)
                else ret tt);;;
               ret (S success_count, fail_count)
             else ret (success_count, S fail_count));;
          asyncio_sleep;;;
          add_all_loop total (S i) rest (fst counts) (snd counts) no_token_count
      end
  end.

(** [verified_role] is the member list of the verified role, or [None]
    when [ctx.guild.get_role] finds no such role.  The value returned is
    the text last shown to the admin. *)
Definition add_all_command (verified_role : option (list Z)) : M ChatMsg :=
  match verified_role with
  | None => ctx_send MsgRoleNotFound;;; ret MsgRoleNotFound
  | Some role_members =>
      m <- get;;
      let verified_members :=
        List.filter
          (fun member =>
             bool_decide (is_Some (user_access_tokens m !! Py.str_of_int member)))
          role_members in
      match verified_members with
      | [] => ctx_send MsgNoUsers;;; ret MsgNoUsers
      | _ =>
          let total := length verified_members in
          ctx_send (MsgStarting total);;;
          counts <- add_all_loop total 0 verified_members 0 0 0;;
          let '(success_count, fail_count, no_token_count) := counts in
          let report := MsgReport success_count fail_count no_token_count in
          status_msg_edit report;;;
          ret report
      end
  end.

End Handlers.

(** ** Observations on a run *)

(** The dicts of a machine state, without the history. *)
Definition tables (m : Machine)
  : gmap string Value * option (gmap string Value)
    * option (gmap string Value) * option (gmap string Value) :=
  (default_dict m, tokens_dict m, pending_dict m, log_dict m).

(** The machine after further effects. *)
Definition after (evs : list Event) (m : Machine) : Machine :=
  {| default_dict := default_dict m;
     tokens_dict := tokens_dict m;
     pending_dict := pending_dict m;
     log_dict := log_dict m;
     history := (history m ++ evs)%list |}.

(** The member a role call is about. *)
Definition role_call_member (e : Event) : option Z :=
  match e with
  | EvRemoveRoles _ member_id _ => Some member_id
  | EvAddRoles _ member_id _ => Some member_id
  | _ => None
  end.

(** The terminal state of a reconciliation, read off what
    [complete_verification] returns: [True] is the only success. *)
Inductive Terminal := Reconciled | Failed.

Definition terminal (r : Res bool) : Terminal :=
  match r with
  | Ok true => Reconciled
  | _ => Failed
  end.

Definition is_sleep (e : Event) : bool :=
  match e with EvSleep => true | _ => false end.

Definition is_put (e : Event) : bool :=
  match e with EvPutMember _ _ _ => true | _ => false end.

(** The test of the loop of [add_all_command] on one member: is there a
    token that is not false? *)
Definition has_token (tokens : gmap string Value) (member : Z) : bool :=
  bool_decide (is_Some (truthy_value (tokens !! Py.str_of_int member))).

(** The ways in which a callback gets no access token from the exchange. *)
Inductive ExchangeFails : HttpReply -> Prop :=
| transport_error : ExchangeFails ConnError
| bad_status status body : status <> 200 -> ExchangeFails (Resp status body)
| bad_body status : ExchangeFails (Resp status None)
| no_access_token status token_data :
    token_data !! "access_token" = None ->
    ExchangeFails (Resp status (Some token_data)).

(** Every identity the provider returns carries a decimal [id]. *)
Definition identities_numbered (env : Env) : Prop :=
  forall h access_token user_info,
    get_me env h access_token = Resp 200 (Some user_info) ->
    user_info <> ∅ ->
    exists id_str n,
      user_info !! "id" = Some id_str /\ Py.int_of_str id_str = Some n.

(** No pending record holds a list in the place of the guild id (a list
    under the key of a user comes from the audit log). *)
Definition is_list (v : Value) : bool :=
  match v with
  | VLog _ => true
  | _ => false
  end.

Definition guild_ids_hashable (m : Machine) : Prop :=
  map_Forall (fun _ guild_id => is_list guild_id = false)
    (pending_verifications m).

(** ** Observations on the batch *)

(** The request [add_all_command] sends for a member holding a token. *)
Definition put_event (cfg : Config) (tokens : gmap string Value)
    (member : Z) : Event :=
  EvPutMember (TARGET_SERVER_ID cfg) (Py.str_of_int member)
    (default (VStr "") (tokens !! Py.str_of_int member)).

(** Whether the member's id is a key of the token table. *)
Definition has_key (tokens : gmap string Value) (member : Z) : bool :=
  bool_decide (is_Some (tokens !! Py.str_of_int member)).

(** Whether the loop sends a request for the member: the token is not
    false and can be sliced. *)
Definition sendable (tokens : gmap string Value) (member : Z) : bool :=
  match truthy_value (tokens !! Py.str_of_int member) with
  | Some access_token => sliceable access_token
  | None => false
  end.

(** The user a membership request is about. *)
Definition put_user (e : Event) : option string :=
  match e with
  | EvPutMember _ user_id _ => Some user_id
  | _ => None
  end.

(** Whether a value is a [str] other than the empty one. *)
Definition nonempty_str (v : Value) : bool :=
  match v with
  | VStr s => negb (String.eqb s "")
  | _ => false
  end.

(** What the loop does with the token found under a key: [None] when it
    skips the member, otherwise whether the token can be sliced. *)
Definition token_class (x : option Value) : option bool :=
  sliceable <$> truthy_value x.

(** ** Sample worlds, for the examples *)

Module Sample.

Definition cfg : Config :=
  {| TOKEN := "bot-token";
     CLIENT_ID := Some "1001";
     CLIENT_SECRET := Some "s3cret";
     REDIRECT_URI := "https://authbot.onrender.com/callback";
     VERIFIED_ROLE_ID := 71;
     UNVERIFIED_ROLE_ID := 70;
     TARGET_SERVER_ID := 900;
     AUTO_KICK_AFTER_ADD := false |}.

Definition identity : gmap string string :=
  {[ "id" := "222"; "username" := "bob" ]}.

(** The provider grants ["tok"], knows its bearer as user 222, lets 222
    and 444 join the target guild and refuses everybody else.  The chat
    client knows every guild, member and role, every member wears the
    unverified role, and the bot may change roles. *)
Definition env : Env :=
  {| post_token := fun _ _ => Resp 200 (Some {[ "access_token" := "tok" ]});
     get_me := fun _ _ => Resp 200 (Some identity);
     put_member := fun _ _ user_id _ =>
       if String.eqb user_id "222" then Some 201
       else if String.eqb user_id "444" then Some 204
       else Some 403;
     guild_cached := fun _ _ => true;
     member_cached := fun _ _ _ => true;
     role_cached := fun _ _ _ => true;
     member_has_role := fun _ _ _ role => (role =? 70)%Z;
     role_call_ok := fun _ _ _ _ => true;
     kick_ok := fun _ _ => false;
     utcnow := fun _ => "2024-05-01T12:00:00";
     chat_ok := fun _ _ => true |}.

(** The same, with the bot lacking the permission to change roles. *)
Definition env_roles_refused : Env :=
  {| post_token := post_token env;
     get_me := get_me env;
     put_member := put_member env;
     guild_cached := guild_cached env;
     member_cached := member_cached env;
     role_cached := role_cached env;
     member_has_role := member_has_role env;
     role_call_ok := fun _ _ _ _ => false;
     kick_ok := kick_ok env;
     utcnow := utcnow env;
     chat_ok := chat_ok env |}.

(** The same, with the user gone from the origin guild. *)
Definition env_member_gone : Env :=
  {| post_token := post_token env;
     get_me := get_me env;
     put_member := put_member env;
     guild_cached := guild_cached env;
     member_cached := fun _ _ _ => false;
     role_cached := role_cached env;
     member_has_role := member_has_role env;
     role_call_ok := role_call_ok env;
     kick_ok := kick_ok env;
     utcnow := utcnow env;
     chat_ok := chat_ok env |}.

(** The same, with the token endpoint answering 400. *)
Definition env_exchange_refused : Env :=
  {| post_token := fun _ _ => Resp 400 None;
     get_me := get_me env;
     put_member := put_member env;
     guild_cached := guild_cached env;
     member_cached := member_cached env;
     role_cached := role_cached env;
     member_has_role := member_has_role env;
     role_call_ok := role_call_ok env;
     kick_ok := kick_ok env;
     utcnow := utcnow env;
     chat_ok := chat_ok env |}.

(** Each of the three files was read at start-up, with these contents. *)
Definition loaded (tokens pending log : gmap string Value) : Machine :=
  {| default_dict := ∅;
     tokens_dict := Some tokens;
     pending_dict := Some pending;
     log_dict := Some log;
     history := [] |}.

Definition idle : Machine := loaded ∅ ∅ ∅.

(** User 222 pressed the button in guild 5. *)
Definition waiting : Machine := loaded ∅ {[ "222" := VInt 5 ]} ∅.

(** Three users hold a token; the one of 333 is the empty string. *)
Definition stocked : Machine :=
  loaded {[ "222" := VStr "tok"; "333" := VStr ""; "444" := VStr "tok4" ]} ∅ ∅.

(** Two users hold a token, both usable. *)
Definition ready : Machine :=
  loaded {[ "222" := VStr "tok"; "444" := VStr "tok4" ]} ∅ ∅.

(** No file was read: the three names are bound to the shared dict. *)
Definition shared (d : gmap string Value) : Machine :=
  {| default_dict := d;
     tokens_dict := None;
     pending_dict := None;
     log_dict := None;
     history := [] |}.

(** A first start, after user 222 pressed the button in guild 5. *)
Definition first_waiting : Machine := shared {[ "222" := VInt 5 ]}.

(** A first start, after the callback of user 222 stored their token. *)
Definition first_stocked : Machine := shared {[ "222" := VStr "tok" ]}.

End Sample.

(** * The rest of the script: start-up, initiation, admin commands *)

(** ** Settings from the environment ([get_env_int], [get_env_bool]) *)

Module Settings.

(** [c.lower()] on an ASCII letter; other bytes are left as they are. *)
Definition lower_char (c : ascii) : ascii :=
  let n := nat_of_ascii c in
  if ((65 <=? n)%nat && (n <=? 90)%nat)%bool then ascii_of_nat (n + 32) else c.

(** [s.lower()]. *)
Fixpoint lower (s : string) : string :=
  match s with
  | EmptyString => EmptyString
  | String c s' => String (lower_char c) (lower s')
  end.

(** [os.environ]. *)
Definition get_env_int (environ : gmap string string) (name : string) : Res Z :=
  match environ !! name with
  | None => Raised ValueError
  | Some value =>
      match Py.int_of_str value with
      | Some n => Ok n
      | None => Raised ValueError
      end
  end.

Definition get_env_bool (environ : gmap string string) (name : string)
    (default : bool) : bool :=
  match environ !! name with
  | None => default
  | Some value =>
      bool_decide (lower value ∈ ["true"; "yes"; "1"; "y"])
  end.

(** The module-level reads, in their order: [PORT], then [load_dotenv()],
    which adds the variables of the [.env] file that the environment does
    not have, then [TOKEN], the four ids of the origin guild (the channel
    id is read from [LOG_CHANNEL_ID]), the OAuth2 settings, the target
    guild and the kick switch.  The first failing read ends the start-up.
    [GUILD_ID], the channel id and [PORT] are read and checked; [PORT] is
    returned beside the configuration. *)
Definition load (environ dotenv : gmap string string) : Res (Z * Config) :=
  match
    match environ !! "PORT" with
    | None => Some 3000
    | Some value => Py.int_of_str value
    end
  with
  | None => Raised ValueError
  | Some port =>
  let environ := environ ∪ dotenv in
  match environ !! "TOKEN" with
  | None => Raised ValueError
  | Some token =>
  match get_env_int environ "GUILD_ID" with
  | Raised e => Raised e
  | Ok _ =>
  match get_env_int environ "UNVERIFIED_ROLE_ID" with
  | Raised e => Raised e
  | Ok unverified =>
  match get_env_int environ "VERIFIED_ROLE_ID" with
  | Raised e => Raised e
  | Ok verified =>
  match get_env_int environ "LOG_CHANNEL_ID" with
  | Raised e => Raised e
  | Ok _ =>
  match get_env_int environ "TARGET_SERVER_ID" with
  | Raised e => Raised e
  | Ok target =>
      Ok (port,
          {| TOKEN := token;
             CLIENT_ID := environ !! "CLIENT_ID";
             CLIENT_SECRET := environ !! "CLIENT_SECRET";
             REDIRECT_URI :=
               default "https://your-bot-name.onrender.com/callback"
                 (environ !! "REDIRECT_URI");
             VERIFIED_ROLE_ID := verified;
             UNVERIFIED_ROLE_ID := unverified;
             TARGET_SERVER_ID := target;
             AUTO_KICK_AFTER_ADD :=
               get_env_bool environ "AUTO_KICK_AFTER_ADD" false |})
  end end end end end end end.

End Settings.

(** ** The tables at start-up ([load_json_file])

    [load_json_file] has a dict as default argument: one object, made when
    the function is defined, and handed out by every call that finds no
    readable file.  So the dicts live in a heap here and the three names
    hold references.  [machine] is the [Machine] the handlers start
    from. *)

Module Startup.

(** A file that exists: [Corrupt] when [open] or [json.load] raises. *)
Inductive File :=
| Corrupt
| Holds (obj : gmap string Value).

(** The heap of dicts; a reference is a position in it. *)
Definition Heap : Type := list (gmap string Value).

Definition load_json_file (fs : gmap string File) (filename : string)
    (default : nat) (heap : Heap) : nat * Heap :=
  match fs !! filename with
  | Some (Holds obj) => (length heap, (heap ++ [obj])%list)
  | Some Corrupt => (default, heap)
  | None => (default, heap)
  end.

Record Names := {
  user_access_tokens_ref : nat;
  pending_verifications_ref : nat;
  oauth2_adds_log_ref : nat
}.

(** The three module-level loads.  Reference 0 is the default dict, empty
    when the script starts. *)
Definition boot (fs : gmap string File) : Names * Heap :=
  let '(tokens, heap1) := load_json_file fs TOKENS_FILE 0 [∅] in
  let '(pending, heap2) := load_json_file fs PENDING_FILE 0 heap1 in
  let '(log, heap3) := load_json_file fs OAUTH2_ADDS_FILE 0 heap2 in
  ({| user_access_tokens_ref := tokens;
      pending_verifications_ref := pending;
      oauth2_adds_log_ref := log |}, heap3).

(** [d[key] = value] and [key in d] through a reference. *)
Definition setitem (d : nat) (key : string) (value : Value) (heap : Heap) : Heap :=
  alter <[key := value]> d heap.

Definition contains (d : nat) (key : string) (heap : Heap) : bool :=
  bool_decide (is_Some (heap !! d ≫= (.!! key))).

Definition getitem (d : nat) (key : string) (heap : Heap) : option Value :=
  heap !! d ≫= (.!! key).

Definition readable (fs : gmap string File) (filename : string) : bool :=
  match fs !! filename with
  | Some (Holds _) => true
  | _ => false
  end.

(** What [json.load] gives for a file, if anything. *)
Definition content (fs : gmap string File) (filename : string)
  : option (gmap string Value) :=
  match fs !! filename with
  | Some (Holds obj) => Some obj
  | _ => None
  end.

(** The state in which the handlers start. *)
Definition machine (fs : gmap string File) : Machine :=
  {| default_dict := ∅;
     tokens_dict := content fs TOKENS_FILE;
     pending_dict := content fs PENDING_FILE;
     log_dict := content fs OAUTH2_ADDS_FILE;
     history := [] |}.

(** The reference a name holds after [boot]. *)
Definition ref_of (t : Table) (names : Names) : nat :=
  match t with
  | Tokens => user_access_tokens_ref names
  | Pending => pending_verifications_ref names
  | Log => oauth2_adds_log_ref names
  end.

End Startup.

(** ** Initiation and the single-user command *)

(** What the user or the admin is told. *)
Inductive Notice :=
| AlreadyVerified
| NotConfigured
| CannotAssignRoles
| CheckDMs
| EnableDMs
| RoleNotFound
| NotVerified
| NotAuthorized
| Adding
| AddSucceeded
| AddFailed
| ForceVerified
| ForceFailed.

(** How a [member.kick] ends: it returns, raises [discord.Forbidden], or
    raises something else. *)
Inductive KickResult := Kicked | KickForbidden | KickError.

(** The messaging side of the chat client, for the handlers of this part.
    A direct message, a reply and a message edit leave no trace in the
    history; their outcomes are functions of it. *)
Record Client := {
  dm_ok : list Event -> Z -> bool;
  reply_ok : list Event -> Notice -> bool;
  kick_result : list Event -> Z -> KickResult
}.

Section Commands.

Variable cfg : Config.
Variable env : Env.
Variable client : Client.

Local Open Scope handler_scope.

(** [interaction.response.send_message], [ctx.send] and [status_msg.edit]
    with one of the texts above; the value is the text shown. *)
Definition reply (notice : Notice) : M Notice :=
  fun m => (if reply_ok client (history m) notice
            then Ok notice else Raised HTTPException, m).

Definition member_send (member_id : Z) : M unit :=
  fun m => (if dm_ok client (history m) member_id
            then Ok tt else Raised HTTPException, m).

(** The end of both initiations: the link goes out by direct message. *)
Definition send_link (member_id : Z) : M Notice :=
  try_except (member_send member_id;;; reply CheckDMs) (reply EnableDMs).

(** [pending_verifications[str(member.id)] = guild.id], then the save. *)
Definition store_pending (member_id guild : Z) : M unit :=
  modify (set_pending <[Py.str_of_int member_id := VInt guild]>);;;
  save_json_file PENDING_FILE.

(** The button. *)
Definition start_verify (member_id guild : Z) : M Notice :=
  verified_role <- guild_get_role env guild (VERIFIED_ROLE_ID cfg);;
  verified <-
    (if verified_role : bool
     then role_in_member_roles env guild member_id (VERIFIED_ROLE_ID cfg)
     else ret false);;
  if verified : bool then reply AlreadyVerified else
  unverified_role <- guild_get_role env guild (UNVERIFIED_ROLE_ID cfg);;
  if negb unverified_role then reply NotConfigured else
  worn <- role_in_member_roles env guild member_id (UNVERIFIED_ROLE_ID cfg);;
  assigned <-
    (if worn : bool then ret true
     else try_except
            (member_add_roles env guild member_id (UNVERIFIED_ROLE_ID cfg);;;
             ret true)
            (ret false));;
  if negb assigned then reply CannotAssignRoles else
  store_pending member_id guild;;;
  send_link member_id.

(** [!verify]. *)
Definition verify_command (member_id guild : Z) : M Notice :=
  verified_role <- guild_get_role env guild (VERIFIED_ROLE_ID cfg);;
  verified <-
    (if verified_role : bool
     then role_in_member_roles env guild member_id (VERIFIED_ROLE_ID cfg)
     else ret false);;
  if verified : bool then reply AlreadyVerified else
  store_pending member_id guild;;;
  send_link member_id.

(** The kick of [!add]: only [discord.Forbidden] is caught. *)
Definition member_kick_forbidden (member_id : Z) : M unit :=
  fun m =>
    (match kick_result client (history m) member_id with
     | Kicked => Ok tt
     | KickForbidden => Ok tt
     | KickError => Raised HTTPException
     end,
     record (EvKick member_id) m).

(** [!add @member], in the guild [guild] where the command is given.  The
    token is sliced for the console before the first message, outside any
    [try]. *)
Definition add_user_command (guild member_id : Z) : M Notice :=
  verified_role <- guild_get_role env guild (VERIFIED_ROLE_ID cfg);;
  if negb verified_role then reply RoleNotFound else
  verified <- role_in_member_roles env guild member_id (VERIFIED_ROLE_ID cfg);;
  if negb verified then reply NotVerified else
  let user_id_str := Py.str_of_int member_id in
  m <- get;;
  match user_access_tokens m !! user_id_str with
  | None => reply NotAuthorized
  | Some access_token =>
      (if sliceable access_token then ret tt else raise TypeError);;;
      reply Adding;;;
      success <- add_user_to_guild_via_oauth2 env
                   user_id_str access_token (TARGET_SERVER_ID cfg);;
      if success : bool then
        (if AUTO_KICK_AFTER_ADD cfg
         then member_kick_forbidden member_id else ret tt);;;
        reply AddSucceeded;;;
        try_pass (member_send member_id);;;
        ret AddSucceeded
      else reply AddFailed
  end.

(** [!force_verify @member]. *)
Definition force_verify_command (guild member_id : Z) : M Notice :=
  verified_role <- guild_get_role env guild (VERIFIED_ROLE_ID cfg);;
  unverified_role <- guild_get_role env guild (UNVERIFIED_ROLE_ID cfg);;
  if negb verified_role then reply RoleNotFound else
  try_except
    ((if unverified_role : bool then
        worn <- role_in_member_roles env guild member_id (UNVERIFIED_ROLE_ID cfg);;
        if worn : bool
        then member_remove_roles env guild member_id (UNVERIFIED_ROLE_ID cfg)
        else ret tt
      else ret tt);;;
     member_add_roles env guild member_id (VERIFIED_ROLE_ID cfg);;;
     reply ForceVerified)
    (reply ForceFailed).

End Commands.

(** ** The counters of [!tokenstatus] *)

(** [len(oauth2_adds_log.get(str(member.id), []))]; [None] stands for the
    [TypeError] of [len] on an [int]. *)
Definition redirect_count (log : gmap string Value) (member_id : Z)
  : option nat :=
  match log !! Py.str_of_int member_id with
  | Some v => value_len v
  | None => Some 0%nat
  end.

(** [sum(len(v) for v in oauth2_adds_log.values())]. *)
Definition total_adds (log : gmap string Value) : option nat :=
  map_fold (fun _ v acc => n ← value_len v; a ← acc; Some (n + a)%nat)
    (Some 0%nat) log.

(** [len(oauth2_adds_log)]. *)
Definition unique_redirected (log : gmap string Value) : nat :=
  size log.

(** The log entries of a user: the list under the key, if there is one. *)
Definition entries_of (v : option Value) : list LogEntry :=
  match v with
  | Some (VLog entries) => entries
  | _ => []
  end.

Definition is_kick (e : Event) : bool :=
  match e with EvKick _ => true | _ => false end.

Definition is_get_me (e : Event) : bool :=
  match e with EvGetMe _ => true | _ => false end.

(** The effects a callback may have: the two provider requests, the role
    calls and the saves; no membership request, no kick, no pause, no
    message. *)
Definition callback_event (e : Event) : bool :=
  match e with
  | EvPostToken _ | EvGetMe _ | EvRemoveRoles _ _ _ | EvAddRoles _ _ _
  | EvSave _ => true
  | _ => false
  end.

(** What a callback may do to a machine: no key leaves the token table;
    the log, when it is bound to another dict than the two tables the
    callback writes, is as it was; pending records may only go, when the
    pending table is another dict than the token table; each name stays
    bound as it was; and the effects are those of [callback_event]. *)
Definition callback_frame (m m' : Machine) : Prop :=
  dom (user_access_tokens m) ⊆ dom (user_access_tokens m')
  /\ (separate Log Tokens m && separate Log Pending m = true ->
      oauth2_adds_log m' = oauth2_adds_log m)
  /\ (separate Pending Tokens m = true ->
      pending_verifications m' ⊆ pending_verifications m)
  /\ (forall t, own (dict_of t m') = own (dict_of t m))
  /\ exists evs,
       history m' = (history m ++ evs)%list
       /\ forallb callback_event evs = true.

(** ** More sample worlds *)

Module Cases.

(** The identity endpoint is down. *)
Definition env_identity_down : Env :=
  {| post_token := post_token Sample.env;
     get_me := fun _ _ => ConnError;
     put_member := put_member Sample.env;
     guild_cached := guild_cached Sample.env;
     member_cached := member_cached Sample.env;
     role_cached := role_cached Sample.env;
     member_has_role := member_has_role Sample.env;
     role_call_ok := role_call_ok Sample.env;
     kick_ok := kick_ok Sample.env;
     utcnow := utcnow Sample.env;
     chat_ok := chat_ok Sample.env |}.

(** The identity endpoint answers an object without [id]. *)
Definition env_anonymous : Env :=
  {| post_token := post_token Sample.env;
     get_me := fun _ _ => Resp 200 (Some {[ "username" := "bob" ]});
     put_member := put_member Sample.env;
     guild_cached := guild_cached Sample.env;
     member_cached := member_cached Sample.env;
     role_cached := role_cached Sample.env;
     member_has_role := member_has_role Sample.env;
     role_call_ok := role_call_ok Sample.env;
     kick_ok := kick_ok Sample.env;
     utcnow := utcnow Sample.env;
     chat_ok := chat_ok Sample.env |}.

(** Nobody wears a role yet. *)
Definition env_newcomers : Env :=
  {| post_token := post_token Sample.env;
     get_me := get_me Sample.env;
     put_member := put_member Sample.env;
     guild_cached := guild_cached Sample.env;
     member_cached := member_cached Sample.env;
     role_cached := role_cached Sample.env;
     member_has_role := fun _ _ _ _ => false;
     role_call_ok := role_call_ok Sample.env;
     kick_ok := kick_ok Sample.env;
     utcnow := utcnow Sample.env;
     chat_ok := chat_ok Sample.env |}.

(** Everybody wears every role. *)
Definition env_all_verified : Env :=
  {| post_token := post_token Sample.env;
     get_me := get_me Sample.env;
     put_member := put_member Sample.env;
     guild_cached := guild_cached Sample.env;
     member_cached := member_cached Sample.env;
     role_cached := role_cached Sample.env;
     member_has_role := fun _ _ _ _ => true;
     role_call_ok := role_call_ok Sample.env;
     kick_ok := kick_ok Sample.env;
     utcnow := utcnow Sample.env;
     chat_ok := chat_ok Sample.env |}.

(** The status message of the batch was deleted: editing it raises. *)
Definition env_message_gone : Env :=
  {| post_token := post_token Sample.env;
     get_me := get_me Sample.env;
     put_member := put_member Sample.env;
     guild_cached := guild_cached Sample.env;
     member_cached := member_cached Sample.env;
     role_cached := role_cached Sample.env;
     member_has_role := member_has_role Sample.env;
     role_call_ok := role_call_ok Sample.env;
     kick_ok := kick_ok Sample.env;
     utcnow := utcnow Sample.env;
     chat_ok := fun _ msg =>
       match msg with
       | MsgProcessing _ _ => false
       | _ => true
       end |}.

(** The sample configuration with the kick after a redirection. *)
Definition cfg_kicking : Config :=
  {| TOKEN := TOKEN Sample.cfg;
     CLIENT_ID := CLIENT_ID Sample.cfg;
     CLIENT_SECRET := CLIENT_SECRET Sample.cfg;
     REDIRECT_URI := REDIRECT_URI Sample.cfg;
     VERIFIED_ROLE_ID := VERIFIED_ROLE_ID Sample.cfg;
     UNVERIFIED_ROLE_ID := UNVERIFIED_ROLE_ID Sample.cfg;
     TARGET_SERVER_ID := TARGET_SERVER_ID Sample.cfg;
     AUTO_KICK_AFTER_ADD := true |}.

(** Only the token file was read at start-up: the pending table and the
    audit log are one dict.  User 222 holds a token. *)
Definition tokens_only : Machine :=
  {| default_dict := ∅;
     tokens_dict := Some {[ "222" := VStr "tok" ]};
     pending_dict := None;
     log_dict := None;
     history := [] |}.

End Cases.

Module Clients.

(** Every message goes through and every kick works. *)
Definition obliging : Client :=
  {| dm_ok := fun _ _ => true;
     reply_ok := fun _ _ => true;
     kick_result := fun _ _ => Kicked |}.

(** The member has closed their direct messages. *)
Definition dm_closed : Client :=
  {| dm_ok := fun _ _ => false;
     reply_ok := fun _ _ => true;
     kick_result := fun _ _ => Kicked |}.

End Clients.

(** * Properties *)

(** ** [str] and [int] on decimal numerals *)

Section Numerals.

Local Open Scope N_scope.

Lemma digit_val_pretty_N_char (d : N) :
  d < 10 -> Py.digit_val (pretty_N_char d) = Some (Z.of_N d).
Proof.
  intros Hd.
  assert (d = 0 \/ d = 1 \/ d = 2 \/ d = 3 \/ d = 4 \/ d = 5
          \/ d = 6 \/ d = 7 \/ d = 8 \/ d = 9) as Hcases by lia.
  repeat (destruct Hcases as [-> | Hcases]; [reflexivity |]).
  subst d. reflexivity.
Qed.

Lemma digit_not_space (c : ascii) (d : Z) :
  Py.digit_val c = Some d -> Py.is_space c = false.
Proof.
  unfold Py.digit_val, Py.is_space.
  destruct (48 <=? nat_of_ascii c)%nat eqn:Hlo; [| discriminate].
  destruct (nat_of_ascii c <=? 57)%nat eqn:Hhi; [| discriminate].
  intros _.
  apply Nat.leb_le in Hlo.
  assert ((nat_of_ascii c <=? 13)%nat = false) as -> by (apply Nat.leb_gt; lia).
  assert ((nat_of_ascii c =? 32)%nat = false) as -> by (apply Nat.eqb_neq; lia).
  by rewrite andb_false_r.
Qed.

Lemma digit_not_char (c a : ascii) (d : Z) :
  Py.digit_val c = Some d -> Py.digit_val a = None -> Ascii.eqb c a = false.
Proof.
  intros Hc Ha. destruct (Ascii.eqb_spec c a) as [-> |]; [congruence | done].
Qed.

(** The numeral of [x] read after [acc]: the digits shift [acc] left. *)
Lemma int_digits_pretty_N_go (x : N) :
  exists k : Z, (0 <= k)%Z /\
    forall s acc,
      Py.int_digits acc (pretty_N_go x s)
      = Py.int_digits (acc * 10 ^ k + Z.of_N x)%Z s.
Proof.
  induction (N.lt_wf_0 x) as [x _ IH].
  destruct (decide (x = 0)) as [-> | Hx].
  - exists 0%Z. split; [lia |]. intros s acc.
    rewrite pretty_N_go_0. f_equal. rewrite Z.pow_0_r. cbn. lia.
  - destruct (IH (x `div` 10)) as (k & Hk & IHk).
    { apply N.div_lt; lia. }
    exists (k + 1)%Z. split; [lia |]. intros s acc.
    rewrite pretty_N_go_step by lia. rewrite IHk. cbn [Py.int_digits].
    rewrite digit_val_pretty_N_char by (apply N.mod_lt; lia).
    f_equal.
    rewrite Z.pow_add_r, Z.pow_1_r by lia.
    pose proof (N.div_mod' x 10) as Hdm.
    apply (f_equal Z.of_N) in Hdm.
    rewrite N2Z.inj_add, N2Z.inj_mul in Hdm. change (Z.of_N 10) with 10%Z in Hdm.
    lia.
Qed.

(** A positive number prints with a digit in front. *)
Lemma pretty_N_go_head (x : N) (s : string) :
  0 < x ->
  exists c r d, pretty_N_go x s = String c r /\ Py.digit_val c = Some d.
Proof.
  revert s. induction (N.lt_wf_0 x) as [x _ IH]. intros s Hx.
  rewrite pretty_N_go_step by done.
  destruct (decide (x `div` 10 = 0)) as [-> | Hq].
  - rewrite pretty_N_go_0. eexists _, _, _. split; [done |].
    apply digit_val_pretty_N_char, N.mod_lt. lia.
  - apply IH; [apply N.div_lt; lia | by apply N.neq_0_lt_0].
Qed.

Lemma contains_pretty_N_go (a : ascii) (x : N) (s : string) :
  Py.digit_val a = None ->
  Py.contains a (pretty_N_go x s) = Py.contains a s.
Proof.
  intros Ha. revert s. induction (N.lt_wf_0 x) as [x _ IH]. intros s.
  destruct (decide (x = 0)) as [-> | Hx]; [by rewrite pretty_N_go_0 |].
  rewrite pretty_N_go_step by lia. rewrite IH by (apply N.div_lt; lia).
  cbn [Py.contains].
  erewrite digit_not_char; [done | | done].
  apply digit_val_pretty_N_char, N.mod_lt. lia.
Qed.

Lemma int_unsigned_pretty_N (x : N) :
  Py.int_unsigned (pretty x) = Some (Z.of_N x).
Proof.
  unfold pretty, pretty_N. case_decide as Hx; [by subst |].
  destruct (pretty_N_go_head x "") as (c & r & d & Hpr & Hd); [lia |].
  destruct (int_digits_pretty_N_go x) as (k & _ & Hk).
  specialize (Hk "" 0%Z). rewrite Hpr in *.
  cbn [Py.int_unsigned Py.int_digits] in *. rewrite Hd in *.
  rewrite Z.mul_0_r, Z.add_0_l in Hk. rewrite Hk. by rewrite Z.mul_0_l.
Qed.

Lemma pretty_N_head (x : N) :
  exists c r d, pretty x = String c r /\ Py.digit_val c = Some d.
Proof.
  unfold pretty, pretty_N. case_decide as Hx.
  - by eexists _, _, _.
  - apply pretty_N_go_head. lia.
Qed.

Lemma contains_pretty_N (a : ascii) (x : N) :
  Py.digit_val a = None -> Py.contains a (pretty x) = false.
Proof.
  intros Ha. unfold pretty, pretty_N. case_decide.
  - cbn [Py.contains]. by rewrite (digit_not_char "0" a 0%Z).
  - by rewrite contains_pretty_N_go.
Qed.

End Numerals.

Lemma int_of_str_unsigned (s : string) (c : ascii) (r : string) (d : Z) :
  s = String c r -> Py.digit_val c = Some d ->
  Py.int_of_str s = Py.int_unsigned s.
Proof.
  intros -> Hd. unfold Py.int_of_str. cbn [Py.lstrip].
  rewrite (digit_not_space c d Hd).
  by rewrite (digit_not_char c "+" d), (digit_not_char c "-" d).
Qed.

(** [int(str(n)) == n]. *)
Lemma int_of_str_of_int (n : Z) : Py.int_of_str (Py.str_of_int n) = Some n.
Proof.
  unfold Py.str_of_int. destruct n as [| p | p].
  - reflexivity.
  - change (pretty (Z.pos p)) with (pretty (N.pos p)).
    destruct (pretty_N_head (N.pos p)) as (c & r & d & Hpr & Hd).
    rewrite (int_of_str_unsigned _ c r d Hpr Hd).
    by rewrite int_unsigned_pretty_N.
  - change (pretty (Z.neg p)) with (String "-" (pretty (N.pos p))).
    unfold Py.int_of_str. cbn [Py.lstrip]. cbn [Py.is_space]. 
    change (Py.is_space "-") with false. cbv iota.
    change (Ascii.eqb "-" "+") with false. change (Ascii.eqb "-" "-") with true.
    cbv iota. by rewrite int_unsigned_pretty_N.
Qed.

Lemma str_of_int_inj (a b : Z) : Py.str_of_int a = Py.str_of_int b -> a = b.
Proof. apply pretty_Z_inj. Qed.

Lemma contains_str_of_int (a : ascii) (n : Z) :
  Py.digit_val a = None -> Ascii.eqb "-" a = false ->
  Py.contains a (Py.str_of_int n) = false.
Proof.
  intros Ha Hdash. unfold Py.str_of_int. destruct n as [| p | p].
  - change (pretty 0%Z) with "0". cbn [Py.contains].
    by rewrite (digit_not_char "0" a 0%Z).
  - change (pretty (Z.pos p)) with (pretty (N.pos p)). by apply contains_pretty_N.
  - change (pretty (Z.neg p)) with (String "-" (pretty (N.pos p))).
    cbn [Py.contains]. rewrite Hdash. by apply contains_pretty_N.
Qed.

(** ** [split] *)

Lemma append_cons (x : ascii) (a b : string) :
  String x a +:+ b = String x (a +:+ b).
Proof. reflexivity. Qed.

Lemma split_no_sep (sep : ascii) (s : string) :
  Py.contains sep s = false -> Py.split sep s = [s].
Proof.
  induction s as [| c s IH]; [done |]. cbn [Py.contains Py.split].
  destruct (Ascii.eqb c sep); [done |]. intros Hs. by rewrite IH.
Qed.

Lemma split_app_sep (sep : ascii) (a b : string) :
  Py.contains sep a = false ->
  Py.split sep (a +:+ String sep b) = a :: Py.split sep b.
Proof.
  induction a as [| c a IH].
  - intros _. change ("" +:+ String sep b) with (String sep b). simpl.
    by rewrite Ascii.eqb_refl.
  - rewrite append_cons. simpl.
    destruct (Ascii.eqb c sep); [done |]. intros Ha. by rewrite IH.
Qed.

Lemma append_assoc (a b c : string) : (a +:+ b) +:+ c = a +:+ b +:+ c.
Proof.
  induction a as [| x a IH]; [done |]. rewrite !append_cons. by rewrite IH.
Qed.

Lemma contains_app (c : ascii) (a b : string) :
  Py.contains c (a +:+ b) = Py.contains c a || Py.contains c b.
Proof.
  induction a as [| x a IH]; [done |].
  rewrite append_cons. simpl. rewrite IH. by rewrite orb_assoc.
Qed.

(** ** The correlation state *)

Lemma state_data_parts (member_id guild : Z) :
  Py.split ":" (state_data member_id guild)
  = [Py.str_of_int member_id; Py.str_of_int guild].
Proof.
  unfold state_data. change (":" +:+ ?s) with (String ":" s).
  rewrite split_app_sep by (by apply contains_str_of_int).
  by rewrite split_no_sep by (by apply contains_str_of_int).
Qed.

Lemma state_data_has_colon (member_id guild : Z) :
  Py.contains ":" (state_data member_id guild) = true.
Proof.
  unfold state_data. rewrite contains_app.
  change (":" +:+ ?s) with (String ":" s). simpl. by rewrite orb_true_r.
Qed.

(** C8: the authorization URL is a fixed text of the configuration followed
    by the state, and the state built for a user and a guild is split and
    converted back by the callback to that same user and guild. *)
Theorem state_round_trip (cfg : Config) (member_id guild : Z) :
  oauth_url cfg member_id guild
  = ("https://discord.com/api/oauth2/authorize?client_id="
       +:+ Py.str_of_opt (CLIENT_ID cfg)
       +:+ "&redirect_uri=" +:+ REDIRECT_URI cfg
       +:+ "&response_type=code&scope=identify+guilds.join&state=")
    +:+ state_data member_id guild
  /\ parse_state (Some (state_data member_id guild))
     = (Some member_id, Some guild).
Proof.
  split.
  - unfold oauth_url. by rewrite !append_assoc.
  - unfold parse_state, Py.truthy_str.
    pose proof (state_data_has_colon member_id guild) as Hcolon.
    destruct (String.eqb_spec (state_data member_id guild) "") as [Hnil | _].
    { rewrite Hnil in Hcolon. discriminate. }
    rewrite Hcolon, state_data_parts. by rewrite !int_of_str_of_int.
Qed.


(** ** The dicts behind the three names *)

Lemma table_set_same (t : Table) (f : gmap string Value -> gmap string Value)
    (m : Machine) :
  table t (set_table t f m) = f (table t m).
Proof. unfold table, set_table. by destruct t, m as [? [] [] [] ?]. Qed.

Lemma table_set_separate (t t' : Table)
    (f : gmap string Value -> gmap string Value) (m : Machine) :
  t <> t' -> separate t t' m = true ->
  table t' (set_table t f m) = table t' m.
Proof.
  unfold table, set_table, separate.
  by destruct t, t', m as [? [] [] [] ?].
Qed.

Lemma table_set_shared (t t' : Table)
    (f : gmap string Value -> gmap string Value) (m : Machine) :
  separate t t' m = false ->
  table t' (set_table t f m) = f (table t' m).
Proof.
  unfold table, set_table, separate.
  by destruct t, t', m as [? [] [] [] ?].
Qed.

Lemma table_shared (t t' : Table) (m : Machine) :
  separate t t' m = false -> table t m = table t' m.
Proof. unfold table, separate. by destruct t, t', m as [? [] [] [] ?]. Qed.

(** A write through one name changes, in every table, at most what it
    changes in a dict. *)
Lemma table_set_lookup (t t' : Table)
    (f : gmap string Value -> gmap string Value) (m : Machine) (k : string) :
  (forall d, f d !! k = d !! k) ->
  table t' (set_table t f m) !! k = table t' m !! k.
Proof.
  intros Hf. unfold table, set_table.
  destruct t, t', m as [? [] [] [] ?]; cbn; by rewrite ?Hf.
Qed.

Lemma own_set_table (t t' : Table)
    (f : gmap string Value -> gmap string Value) (m : Machine) :
  own (dict_of t' (set_table t f m)) = own (dict_of t' m).
Proof. unfold set_table. by destruct t, t', m as [? [] [] [] ?]. Qed.

Lemma separate_set_table (a b t : Table)
    (f : gmap string Value -> gmap string Value) (m : Machine) :
  separate a b (set_table t f m) = separate a b m.
Proof. unfold separate. by rewrite !own_set_table. Qed.

Lemma separate_sym (a b : Table) (m : Machine) :
  separate a b m = separate b a m.
Proof. unfold separate. apply orb_comm. Qed.

Lemma history_set_table (t : Table)
    (f : gmap string Value -> gmap string Value) (m : Machine) :
  history (set_table t f m) = history m.
Proof. unfold set_table. by destruct t, m as [? [] [] [] ?]. Qed.

Lemma set_table_record (t : Table)
    (f : gmap string Value -> gmap string Value) (e : Event) (m : Machine) :
  set_table t f (record e m) = record e (set_table t f m).
Proof. unfold set_table, record. by destruct t, m as [? [] [] [] ?]. Qed.

(** The history of a machine reached through writes and effects. *)
Ltac histories :=
  repeat first
    [ rewrite history_set_table
    | progress cbn [record after history app] ].

Lemma tables_set_table (t : Table)
    (f : gmap string Value -> gmap string Value) (m1 m2 : Machine) :
  tables m1 = tables m2 ->
  tables (set_table t f m1) = tables (set_table t f m2).
Proof.
  unfold tables, set_table.
  destruct m1 as [? ? ? ? ?], m2 as [? ? ? ? ?]. cbn. intros [= -> -> -> ->].
  by destruct t; cbn; repeat case_match.
Qed.

Lemma tables_table (t : Table) (m1 m2 : Machine) :
  tables m1 = tables m2 -> table t m1 = table t m2.
Proof.
  unfold tables, table.
  destruct m1 as [? ? ? ? ?], m2 as [? ? ? ? ?]. cbn. intros [= -> -> -> ->].
  by destruct t.
Qed.

Lemma tables_separate (a b : Table) (m1 m2 : Machine) :
  tables m1 = tables m2 -> separate a b m1 = separate a b m2.
Proof.
  unfold tables, separate.
  destruct m1 as [? ? ? ? ?], m2 as [? ? ? ? ?]. cbn. intros [= -> -> -> ->].
  by destruct a, b.
Qed.

Lemma tables_own (t : Table) (m1 m2 : Machine) :
  tables m1 = tables m2 -> own (dict_of t m1) = own (dict_of t m2).
Proof.
  unfold tables.
  destruct m1 as [? ? ? ? ?], m2 as [? ? ? ? ?]. cbn. intros [= -> -> -> ->].
  by destruct t.
Qed.

(** ** The reconciler *)

Section Reconciler.

Variable cfg : Config.
Variable env : Env.

Lemma truthy_dict_lookup (d : gmap string string) (k v : string) :
  d !! k = Some v -> Py.truthy_dict (Some d) = Some d.
Proof.
  intros Hk. unfold Py.truthy_dict. case_decide as Hd; [| done].
  subst d. by rewrite lookup_empty in Hk.
Qed.

Lemma get_user_info_run (access_token : string) (m : Machine) :
  get_user_info env access_token m
  = (Ok match get_me env (history m) access_token with
        | Resp status body => if (status =? 200)%Z then body else None
        | ConnError => None
        end,
     record (EvGetMe access_token) m).
Proof.
  unfold get_user_info, bind, session_get_me.
  destruct (get_me env (history m) access_token) as [| status [d |]];
    [done | | ]; by destruct (status =? 200)%Z.
Qed.

Lemma after_nil (m : Machine) : after [] m = m.
Proof. destruct m. unfold after. cbn. by rewrite app_nil_r. Qed.

Lemma after_record (e : Event) (evs : list Event) (m : Machine) :
  record e (after evs m) = after (evs ++ [e]) m.
Proof. unfold record, after. cbn. by rewrite app_assoc. Qed.

(** [verify_user_in_guild] leaves the tables alone and calls the roles of
    nobody but [user_id].  The failures of the role calls are caught: it
    raises only on a guild id that is a list, before any effect. *)
Lemma verify_user_in_guild_run (user_id : Z) (guild_id : Value) (m : Machine) :
  exists r evs,
    verify_user_in_guild cfg env user_id guild_id m = (r, after evs m)
    /\ Forall (fun e => role_call_member e = Some user_id) evs
    /\ match r with
       | Ok _ => forall entries, guild_id <> VLog entries
       | Raised e => evs = [] /\ exists entries, guild_id = VLog entries
       end.
Proof.
  unfold verify_user_in_guild, bind, bot_get_guild, guild_get_member,
    guild_get_role, try_except, role_in_member_roles,
    member_remove_roles, member_add_roles, ret, raise.
  destruct guild_id as [s | guild | entries];
    [exists (Ok false), []; by rewrite after_nil | |
     exists (Raised TypeError), []; rewrite after_nil; by eauto].
  destruct (guild_cached env (history m) guild);
    [| exists (Ok false), []; by rewrite after_nil].
  destruct (member_cached env (history m) guild user_id); cbn [negb];
    [| exists (Ok false), []; by rewrite after_nil].
  destruct (role_cached env (history m) guild (VERIFIED_ROLE_ID cfg));
    cbn [negb]; [| exists (Ok false), []; by rewrite after_nil].
  destruct (role_cached env (history m) guild (UNVERIFIED_ROLE_ID cfg)).
  - destruct (member_has_role env (history m) guild user_id (UNVERIFIED_ROLE_ID cfg)).
    + destruct (role_call_ok env (history m) guild user_id (UNVERIFIED_ROLE_ID cfg)).
      * cbn [record history].
        destruct (role_call_ok env _ guild user_id (VERIFIED_ROLE_ID cfg));
          eexists (Ok _), [EvRemoveRoles _ _ _; EvAddRoles _ _ _];
          (split; [unfold record, after; cbn; by rewrite <- app_assoc |]);
          (split; [by repeat constructor | done]).
      * eexists (Ok _), [EvRemoveRoles _ _ _]. split; [done |].
        split; [by repeat constructor | done].
    + destruct (role_call_ok env (history m) guild user_id (VERIFIED_ROLE_ID cfg));
        eexists (Ok _), [EvAddRoles _ _ _]; (split; [done |]);
        (split; [by repeat constructor | done]).
  - destruct (role_call_ok env (history m) guild user_id (VERIFIED_ROLE_ID cfg));
      eexists (Ok _), [EvAddRoles _ _ _]; (split; [done |]);
      (split; [by repeat constructor | done]).
Qed.

(** What [complete_verification] does once the provider names the bearer
    of the token: every table access and the role change go through [n],
    the id in the identity, whatever [user_id] the caller passed. *)
Lemma complete_verification_run
    (user_id : Z) (access_token : string) (m : Machine)
    (user_info : gmap string string) (id_str : string) (n : Z) :
  get_me env (history m) access_token = Resp 200 (Some user_info) ->
  user_info !! "id" = Some id_str ->
  Py.int_of_str id_str = Some n ->
  complete_verification cfg env user_id access_token m
  = let m1 := record (EvGetMe access_token) m in
    let key := Py.str_of_int n in
    match pending_verifications m !! key with
    | Some guild_id =>
        match verify_user_in_guild cfg env n guild_id m1 with
        | (Ok true, m2) =>
            (Ok true,
             record (EvSave TOKENS_FILE)
               (set_tokens <[key := VStr access_token]>
                  (record (EvSave PENDING_FILE)
                     (set_pending (delete key) m2))))
        | (Ok false, m2) => (Ok false, m2)
        | (Raised e, m2) => (Raised e, m2)
        end
    | None =>
        (Ok false,
         record (EvSave TOKENS_FILE)
           (set_tokens <[key := VStr access_token]> m1))
    end.
Proof.
  intros Hme Hid Hint.
  unfold complete_verification. unfold bind at 1.
  rewrite get_user_info_run, Hme. cbn [Z.eqb Pos.eqb].
  rewrite (truthy_dict_lookup _ _ _ Hid), Hid. cbn [Py.str_of_opt].
  assert ((if String.eqb (Py.str_of_int user_id) id_str
           then ret user_id else int_of_opt (Some id_str)) = ret n) as ->.
  { destruct (String.eqb_spec (Py.str_of_int user_id) id_str) as [Heq | _].
    - subst id_str. rewrite int_of_str_of_int in Hint. congruence.
    - unfold int_of_opt. by rewrite Hint. }
  unfold bind at 1, ret at 1. unfold bind at 1, get.
  change (pending_verifications (record (EvGetMe access_token) m))
    with (pending_verifications m).
  cbn zeta.
  destruct (pending_verifications m !! Py.str_of_int n) as [guild_id |]; [| done].
  unfold bind at 1.
  destruct (verify_user_in_guild cfg env n guild_id _) as [[[|] | e] m2]; done.
Qed.

(** The tables after [complete_verification], once the provider names the
    bearer of the token: those of [m] after the two writes when the role
    change succeeds, after the one write when there is no pending record,
    and those of [m] otherwise.  The run raises only out of the role
    change. *)
Lemma complete_verification_tables
    (user_id : Z) (access_token : string) (m : Machine)
    (user_info : gmap string string) (id_str : string) (n : Z) :
  get_me env (history m) access_token = Resp 200 (Some user_info) ->
  user_info !! "id" = Some id_str ->
  Py.int_of_str id_str = Some n ->
  let key := Py.str_of_int n in
  exists r m' evs,
    complete_verification cfg env user_id access_token m = (r, m')
    /\ history m' = (history m ++ EvGetMe access_token :: evs)%list
    /\ Forall (fun e => role_call_member e = None \/ role_call_member e = Some n) evs
    /\ forallb callback_event evs = true
    /\ match pending_verifications m !! key with
       | Some guild_id =>
           fst (verify_user_in_guild cfg env n guild_id
                  (record (EvGetMe access_token) m)) = r
           /\ tables m'
              = tables match r with
                       | Ok true =>
                           set_tokens <[key := VStr access_token]>
                             (set_pending (delete key) m)
                       | _ => m
                       end
       | None =>
           r = Ok false
           /\ tables m' = tables (set_tokens <[key := VStr access_token]> m)
       end.
Proof.
  intros Hme Hid Hint key.
  rewrite (complete_verification_run _ _ _ _ _ _ Hme Hid Hint).
  cbn zeta. fold key.
  destruct (pending_verifications m !! key) as [guild_id |].
  - destruct (verify_user_in_guild_run n guild_id
                (record (EvGetMe access_token) m))
      as (r & evs & -> & Hevs & _).
    assert (forallb callback_event evs = true) as Hevs2.
    { clear -Hevs. induction Hevs as [| e evs' He _ IH]; [done |].
      cbn [forallb]. rewrite IH. by destruct e. }
    assert (Forall (fun e => role_call_member e = None \/ role_call_member e = Some n)
              evs) as Hevs1.
    { eapply Forall_impl; [exact Hevs |]. cbn. tauto. }
    destruct r as [[|] | e].
    + eexists (Ok true), _, (evs ++ [EvSave PENDING_FILE; EvSave TOKENS_FILE])%list.
      split; [done |].
      split.
      { histories. by rewrite <- !app_assoc. }
      split; [apply Forall_app; split; [done | by repeat constructor] |].
      split; [rewrite forallb_app, Hevs2; done |].
      split; [done |].
      change (tables (record ?e ?m0)) with (tables m0).
      apply tables_set_table. change (tables (record ?e ?m0)) with (tables m0).
      by apply tables_set_table.
    + eexists (Ok false), _, evs.
      split; [done |]. split; [histories; by rewrite <- !app_assoc |].
      by repeat split.
    + eexists (Raised e), _, evs.
      split; [done |]. split; [histories; by rewrite <- !app_assoc |].
      by repeat split.
  - eexists (Ok false), _, [EvSave TOKENS_FILE].
    split; [done |].
    split; [histories; by rewrite <- !app_assoc |].
    split; [by repeat constructor |]. split; [done |]. split; [done |].
    change (tables (record ?e ?m0)) with (tables m0).
    by apply tables_set_table.
Qed.

End Reconciler.

(** C1: when the identity behind the token names a user other than the one
    parsed from the state, the pending record is looked up, the role change
    made, the pending record deleted and the token stored under the id of
    the identity, whichever dicts the names are bound to; every role call
    is for that id, and in every table the entry of the user named by the
    state is left as it was. *)
Theorem identity_overrides_state
    (cfg : Config) (env : Env) (state_user_id : Z) (access_token : string)
    (m : Machine) (user_info : gmap string string) (id_str : string) (n : Z) :
  get_me env (history m) access_token = Resp 200 (Some user_info) ->
  user_info !! "id" = Some id_str ->
  Py.int_of_str id_str = Some n ->
  n <> state_user_id ->
  let key := Py.str_of_int n in
  let stale := Py.str_of_int state_user_id in
  exists r m' evs,
    complete_verification cfg env state_user_id access_token m = (r, m')
    /\ tables m'
       = tables
           match pending_verifications m !! key with
           | Some guild_id =>
               match fst (verify_user_in_guild cfg env n guild_id
                            (record (EvGetMe access_token) m)) with
               | Ok true =>
                   set_tokens <[key := VStr access_token]>
                     (set_pending (delete key) m)
               | _ => m
               end
           | None => set_tokens <[key := VStr access_token]> m
           end
    /\ history m' = (history m ++ evs)%list
    /\ Forall (fun e => role_call_member e = None \/ role_call_member e = Some n) evs
    /\ Forall (fun e => role_call_member e <> Some state_user_id) evs
    /\ forall t, table t m' !! stale = table t m !! stale.
Proof.
  intros Hme Hid Hint Hne key stale.
  assert (key <> stale) as Hkeys.
  { intros Heq. by apply str_of_int_inj in Heq. }
  destruct (complete_verification_tables cfg env state_user_id _ _ _ _ _
              Hme Hid Hint)
    as (r & m' & evs & Hrun & Hhist & Hcalls & _ & Hcase).
  fold key in Hcase.
  assert (Forall (fun e => role_call_member e = None \/ role_call_member e = Some n)
            (EvGetMe access_token :: evs)) as Hall.
  { constructor; [by left | done]. }
  assert (tables m'
          = tables
              match pending_verifications m !! key with
              | Some guild_id =>
                  match fst (verify_user_in_guild cfg env n guild_id
                               (record (EvGetMe access_token) m)) with
                  | Ok true =>
                      set_tokens <[key := VStr access_token]>
                        (set_pending (delete key) m)
                  | _ => m
                  end
              | None => set_tokens <[key := VStr access_token]> m
              end) as Htables.
  { destruct (pending_verifications m !! key) as [guild_id |].
    - by destruct Hcase as [-> ->].
    - by destruct Hcase as [_ ->]. }
  exists r, m', (EvGetMe access_token :: evs).
  split; [done |]. split; [done |]. split; [done |]. split; [done |].
  split.
  { eapply Forall_impl; [exact Hall |]. intros e [-> | ->]; congruence. }
  intros t. rewrite (tables_table t _ _ Htables).
  destruct (pending_verifications m !! key) as [guild_id |].
  - destruct (fst _) as [[|] | e]; [| done | done].
    rewrite table_set_lookup
      by (intros d; by apply lookup_insert_ne).
    apply table_set_lookup. intros d. by apply lookup_delete_ne.
  - apply table_set_lookup. intros d. by apply lookup_insert_ne.
Qed.

Lemma identity_overrides_state_witness :
  exists r m' evs,
    complete_verification Sample.cfg Sample.env 111 "tok" Sample.waiting = (r, m')
    /\ tables m' = tables (Sample.loaded {[ "222" := VStr "tok" ]} ∅ ∅)
    /\ history m' = ([] ++ evs)%list
    /\ Forall (fun e => role_call_member e = None \/ role_call_member e = Some 222) evs
    /\ Forall (fun e => role_call_member e <> Some 111) evs
    /\ forall t, table t m' !! "111" = table t Sample.waiting !! "111".
Proof.
  destruct (identity_overrides_state Sample.cfg Sample.env 111 "tok"
              Sample.waiting Sample.identity "222" 222)
    as (r & m' & evs & Hrun & Htables & Hhist & Hcalls & Hnone & Hstale);
    [reflexivity | reflexivity | reflexivity | lia |].
  exists r, m', evs. split; [exact Hrun |].
  split; [rewrite Htables; by vm_compute |].
  split; [exact Hhist |]. split; [exact Hcalls |]. split; [exact Hnone |].
  exact Hstale.
Defined.

(** With a pending record for the user and the role change succeeding, the
    reconciliation returns [True]; the key of the user is deleted through
    the name [pending_verifications] and then set to the token through the
    name [user_access_tokens].  When the two names are bound to two dicts,
    the pending record is gone and the token stored. *)
Lemma reconciled_tables
    (cfg : Config) (env : Env) (user_id : Z) (access_token : string)
    (m : Machine) (user_info : gmap string string) (id_str : string)
    (n : Z) (guild_id : Value) :
  get_me env (history m) access_token = Resp 200 (Some user_info) ->
  user_info !! "id" = Some id_str ->
  Py.int_of_str id_str = Some n ->
  pending_verifications m !! Py.str_of_int n = Some guild_id ->
  fst (verify_user_in_guild cfg env n guild_id (record (EvGetMe access_token) m))
  = Ok true ->
  let key := Py.str_of_int n in
  exists m',
    complete_verification cfg env user_id access_token m = (Ok true, m')
    /\ tables m'
       = tables (set_tokens <[key := VStr access_token]>
                   (set_pending (delete key) m))
    /\ user_access_tokens m' !! key = Some (VStr access_token)
    /\ (separate Tokens Pending m = true ->
        pending_verifications m' = delete key (pending_verifications m)
        /\ user_access_tokens m'
           = <[key := VStr access_token]> (user_access_tokens m)).
Proof.
  intros Hme Hid Hint Hpending Hroles key.
  destruct (complete_verification_tables cfg env user_id _ _ _ _ _
              Hme Hid Hint)
    as (r & m' & evs & Hrun & _ & _ & _ & Hcase).
  fold key in Hcase. fold key in Hpending. rewrite Hpending in Hcase.
  destruct Hcase as [Hfst Htables]. rewrite Hroles in Hfst. subst r.
  exists m'. split; [done |]. split; [done |].
  rewrite !(tables_table _ _ _ Htables). rewrite !table_set_same.
  split; [by rewrite lookup_insert_eq |].
  intros Hsep. split.
  - rewrite table_set_separate; [by rewrite table_set_same | done |].
    by rewrite separate_set_table.
  - f_equal. apply table_set_separate; [done |].
    by rewrite separate_sym.
Qed.

(** C2, on a start that read neither the token file nor the pending file:
    the two names are bound to the one default dict, and the token is
    written to the dict the pending record was just deleted from.  The run
    returns [True] and the user is again a key of the pending table, with
    the token in the place of the guild id. *)
Theorem pending_key_survives_on_shared_dict
    (cfg : Config) (env : Env) (user_id : Z) (access_token : string)
    (m : Machine) (user_info : gmap string string) (id_str : string)
    (n : Z) (guild_id : Value) :
  separate Tokens Pending m = false ->
  get_me env (history m) access_token = Resp 200 (Some user_info) ->
  user_info !! "id" = Some id_str ->
  Py.int_of_str id_str = Some n ->
  pending_verifications m !! Py.str_of_int n = Some guild_id ->
  fst (verify_user_in_guild cfg env n guild_id (record (EvGetMe access_token) m))
  = Ok true ->
  exists r m',
    complete_verification cfg env user_id access_token m = (r, m')
    /\ r = Ok true
    /\ terminal r = Reconciled
    /\ pending_verifications m'
       = <[Py.str_of_int n := VStr access_token]> (pending_verifications m)
    /\ pending_verifications m' !! Py.str_of_int n = Some (VStr access_token)
    /\ user_access_tokens m' = pending_verifications m'.
Proof.
  intros Hshared Hme Hid Hint Hpending Hroles.
  destruct (reconciled_tables cfg env user_id _ _ _ _ _ _
              Hme Hid Hint Hpending Hroles)
    as (m' & Hrun & Htables & _ & _).
  exists (Ok true), m'. split; [done |]. split; [done |]. split; [done |].
  assert (pending_verifications m'
          = <[Py.str_of_int n := VStr access_token]> (pending_verifications m))
    as Hp.
  { rewrite (tables_table _ _ _ Htables).
    rewrite table_set_shared by (by rewrite separate_set_table).
    rewrite table_set_same. apply insert_delete_eq. }
  split; [done |]. split; [by rewrite Hp, lookup_insert_eq |].
  apply table_shared. rewrite (tables_separate _ _ _ _ Htables).
  by rewrite !separate_set_table.
Qed.

Lemma pending_key_survives_on_shared_dict_witness :
  exists r m',
    complete_verification Sample.cfg Sample.env 222 "tok" Sample.first_waiting
    = (r, m')
    /\ r = Ok true
    /\ terminal r = Reconciled
    /\ pending_verifications m'
       = <["222" := VStr "tok"]> (pending_verifications Sample.first_waiting)
    /\ pending_verifications m' !! "222" = Some (VStr "tok")
    /\ user_access_tokens m' = pending_verifications m'.
Proof.
  apply (pending_key_survives_on_shared_dict Sample.cfg Sample.env 222 "tok"
           Sample.first_waiting Sample.identity "222" 222 (VInt 5));
    reflexivity.
Defined.

(** C3: with a pending record for the user and the role change failing, the
    reconciliation ends in [Failed] and the three tables are what they
    were: the pending record stays and no token is stored. *)
Theorem failed_role_change_keeps_tables
    (cfg : Config) (env : Env) (user_id : Z) (access_token : string)
    (m : Machine) (user_info : gmap string string) (id_str : string)
    (n : Z) (guild_id : Value) :
  get_me env (history m) access_token = Resp 200 (Some user_info) ->
  user_info !! "id" = Some id_str ->
  Py.int_of_str id_str = Some n ->
  pending_verifications m !! Py.str_of_int n = Some guild_id ->
  fst (verify_user_in_guild cfg env n guild_id (record (EvGetMe access_token) m))
  = Ok false ->
  exists r m',
    complete_verification cfg env user_id access_token m = (r, m')
    /\ r = Ok false
    /\ terminal r = Failed
    /\ tables m' = tables m
    /\ pending_verifications m' !! Py.str_of_int n = Some guild_id
    /\ user_access_tokens m' !! Py.str_of_int n
       = user_access_tokens m !! Py.str_of_int n.
Proof.
  intros Hme Hid Hint Hpending Hroles.
  rewrite (complete_verification_run cfg env _ _ _ _ _ _ Hme Hid Hint).
  cbn zeta. rewrite Hpending.
  destruct (verify_user_in_guild_run cfg env n guild_id
              (record (EvGetMe access_token) m))
    as (r & evs & Hrun & _).
  rewrite Hrun in Hroles |- *. cbn [fst] in Hroles. subst r.
  by eexists _, _.
Qed.

Lemma failed_role_change_keeps_tables_witness :
  exists r m',
    complete_verification Sample.cfg Sample.env_roles_refused 222 "tok"
      Sample.waiting
    = (r, m')
    /\ r = Ok false
    /\ terminal r = Failed
    /\ tables m' = tables Sample.waiting
    /\ pending_verifications m' !! "222" = Some (VInt 5)
    /\ user_access_tokens m' !! "222"
       = user_access_tokens Sample.waiting !! "222".
Proof.
  apply (failed_role_change_keeps_tables Sample.cfg Sample.env_roles_refused
           222 "tok" Sample.waiting Sample.identity "222" 222 (VInt 5));
    reflexivity.
Defined.

(** The role change fails in particular when the user has left the guild
    or the bot may not change roles; it never raises. *)
Lemma role_change_outcomes (cfg : Config) (env : Env) (user_id guild : Z)
    (m : Machine) :
  (member_cached env (history m) guild user_id = false ->
   fst (verify_user_in_guild cfg env user_id (VInt guild) m) = Ok false)
  /\ ((forall h role, role_call_ok env h guild user_id role = false) ->
      fst (verify_user_in_guild cfg env user_id (VInt guild) m) = Ok false)
  /\ exists success,
       fst (verify_user_in_guild cfg env user_id (VInt guild) m) = Ok success.
Proof.
  split; [| split].
  - intros Hgone. unfold verify_user_in_guild, bind, bot_get_guild,
      guild_get_member, ret.
    destruct (guild_cached env (history m) guild); [| done]. cbn [negb].
    by rewrite Hgone.
  - intros Hrefused.
    unfold verify_user_in_guild, bind, bot_get_guild, guild_get_member,
      guild_get_role, try_except, role_in_member_roles,
      member_remove_roles, member_add_roles, ret.
    destruct (guild_cached env (history m) guild); [| done]. cbn [negb].
    destruct (member_cached env (history m) guild user_id); [| done]. cbn [negb].
    destruct (role_cached env (history m) guild (VERIFIED_ROLE_ID cfg));
      [| done]. cbn [negb].
    destruct (role_cached env (history m) guild (UNVERIFIED_ROLE_ID cfg));
      [destruct (member_has_role env (history m) guild user_id _) |];
      by rewrite ?Hrefused.
  - destruct (verify_user_in_guild_run cfg env user_id (VInt guild) m)
      as ([success | e] & evs & -> & _ & Hr).
    + by exists success.
    + by destruct Hr as (_ & entries & ?).
Qed.

(** C4, as the code has it: without a pending record for the user, the
    token is stored for the user and [complete_verification] answers
    [False], the answer it also gives when the role change fails: the run
    does not end in [Reconciled].  The pending table is not touched when it
    is another dict than the token table, and so for the log. *)
Theorem token_kept_without_pending
    (cfg : Config) (env : Env) (user_id : Z) (access_token : string)
    (m : Machine) (user_info : gmap string string) (id_str : string) (n : Z) :
  get_me env (history m) access_token = Resp 200 (Some user_info) ->
  user_info !! "id" = Some id_str ->
  Py.int_of_str id_str = Some n ->
  pending_verifications m !! Py.str_of_int n = None ->
  exists r m',
    complete_verification cfg env user_id access_token m = (r, m')
    /\ r = Ok false
    /\ terminal r = Failed
    /\ user_access_tokens m'
       = <[Py.str_of_int n := VStr access_token]> (user_access_tokens m)
    /\ (separate Tokens Pending m = true ->
        pending_verifications m' = pending_verifications m)
    /\ (separate Tokens Log m = true ->
        oauth2_adds_log m' = oauth2_adds_log m).
Proof.
  intros Hme Hid Hint Hpending.
  destruct (complete_verification_tables cfg env user_id _ _ _ _ _
              Hme Hid Hint)
    as (r & m' & evs & Hrun & _ & _ & _ & Hcase).
  rewrite Hpending in Hcase. destruct Hcase as [-> Htables].
  exists (Ok false), m'. split; [done |]. split; [done |]. split; [done |].
  rewrite !(tables_table _ _ _ Htables).
  split; [by rewrite table_set_same |].
  split; intros Hsep; by apply table_set_separate.
Qed.

Lemma token_kept_without_pending_witness :
  exists r m',
    complete_verification Sample.cfg Sample.env 222 "tok" Sample.idle = (r, m')
    /\ r = Ok false
    /\ terminal r = Failed
    /\ user_access_tokens m'
       = <["222" := VStr "tok"]> (user_access_tokens Sample.idle)
    /\ (separate Tokens Pending Sample.idle = true ->
        pending_verifications m' = pending_verifications Sample.idle)
    /\ (separate Tokens Log Sample.idle = true ->
        oauth2_adds_log m' = oauth2_adds_log Sample.idle).
Proof.
  apply (token_kept_without_pending Sample.cfg Sample.env 222 "tok" Sample.idle
           Sample.identity "222" 222); reflexivity.
Defined.

(** C4 as stated fails: each table was read from its file, user 222 has no
    pending record, the token is stored, and the run does not end in
    [Reconciled]. *)
Lemma lenient_fallback_not_reconciled :
  pending_verifications Sample.idle !! "222" = None
  /\ user_access_tokens
       (snd (complete_verification Sample.cfg Sample.env 222 "tok" Sample.idle))
       !! "222"
     = Some (VStr "tok")
  /\ fst (complete_verification Sample.cfg Sample.env 222 "tok" Sample.idle)
     = Ok false
  /\ terminal
       (fst (complete_verification Sample.cfg Sample.env 222 "tok" Sample.idle))
     <> Reconciled.
Proof. vm_compute. repeat split; discriminate. Qed.
(** ** The callback endpoint *)

Section Callback.

Variable cfg : Config.
Variable env : Env.

Lemma exchange_code_for_token_run (code : string) (m : Machine) :
  exchange_code_for_token env code m
  = (Ok match post_token env (history m) code with
        | Resp status body => if (status =? 200)%Z then body else None
        | ConnError => None
        end,
     record (EvPostToken code) m).
Proof.
  unfold exchange_code_for_token, bind, session_post_token.
  destruct (post_token env (history m) code) as [| status [d |]];
    [done | | ]; by destruct (status =? 200)%Z.
Qed.

Lemma truthy_str_nonempty (s : string) :
  s <> "" -> Py.truthy_str (Some s) = Some s.
Proof.
  intros Hs. unfold Py.truthy_str. by destruct (String.eqb_spec s "").
Qed.

Lemma truthy_str_Some (x : option string) (s : string) :
  Py.truthy_str x = Some s -> x = Some s /\ s <> "".
Proof.
  destruct x as [s' |]; [| done]. unfold Py.truthy_str.
  destruct (String.eqb_spec s' ""); [done |]. by intros [= <-].
Qed.

(** The token a reply of the token endpoint leaves [handle_callback]
    with, after both tests. *)
Lemma exchange_fails_no_token (reply : HttpReply) :
  ExchangeFails reply ->
  Py.truthy_dict match reply with
                 | Resp status body => if (status =? 200)%Z then body else None
                 | ConnError => None
                 end ≫= (.!! "access_token") = None.
Proof.
  intros [| status body Hstatus | status | status d Hd]; [done | | | ].
  - by destruct (Z.eqb_spec status 200).
  - by destruct (status =? 200)%Z.
  - destruct (status =? 200)%Z; [| done]. unfold Py.truthy_dict.
    by case_decide.
Qed.

Lemma exchange_fails_or_grants (reply : HttpReply) :
  ExchangeFails reply
  \/ exists d access_token,
       reply = Resp 200 (Some d) /\ d !! "access_token" = Some access_token.
Proof.
  destruct reply as [| status [d |]];
    [left; apply transport_error | | left; apply bad_body].
  destruct (Z.eqb_spec status 200) as [-> | Hstatus];
    [| left; by apply bad_status].
  destruct (d !! "access_token") as [access_token |] eqn:Hd.
  - right. by exists d, access_token.
  - left. by apply no_access_token.
Qed.

Hypothesis Hids : identities_numbered env.

Lemma complete_verification_returns
    (user_id : Z) (access_token : string) (m : Machine) :
  guild_ids_hashable m ->
  exists b m', complete_verification cfg env user_id access_token m = (Ok b, m').
Proof.
  intros Hhashable.
  destruct (get_me env (history m) access_token) as [| status [d |]] eqn:Hme.
  2: destruct (Z.eqb_spec status 200) as [-> | Hstatus].
  2: destruct (decide (d = ∅)) as [-> | Hd].
  3: { destruct (Hids _ _ _ Hme Hd) as (id_str & n & Hid & Hint).
       rewrite (complete_verification_run cfg env _ _ _ _ _ _ Hme Hid Hint).
       cbn zeta.
       destruct (pending_verifications m !! _) as [guild_id |] eqn:Hpending;
         [| by eexists _, _].
       destruct (verify_user_in_guild_run cfg env n guild_id
                   (record (EvGetMe access_token) m))
         as ([[|] | e] & evs & -> & _ & Hr); [by eexists _, _ .. |].
       destruct Hr as (_ & entries & ->).
       by specialize (Hhashable _ _ Hpending). }
  all: unfold complete_verification; unfold bind at 1;
    rewrite get_user_info_run, Hme; eexists _, _.
  - done.
  - cbn [Z.eqb Pos.eqb]. unfold Py.truthy_dict. by case_decide.
  - by destruct (Z.eqb_spec status 200).
  - by destruct (status =? 200)%Z.
Qed.

(** The fall-back of [handle_callback] on the identity, when the state
    gave no user id. *)
Lemma identity_fallback_returns
    (user_id : option Z) (access_token : string) (m : Machine) :
  exists r m',
    bind (get_user_info env access_token)
      (fun user_info =>
         match Py.truthy_dict user_info with
         | Some user_info =>
             bind (int_of_opt (user_info !! "id")) (fun n => ret (Some n))
         | None => ret user_id
         end) m
    = (Ok r, m')
    /\ tables m' = tables m.
Proof.
  unfold bind at 1. rewrite get_user_info_run.
  destruct (get_me env (history m) access_token) as [| status [d |]] eqn:Hme;
    [by eexists _, _ | | ].
  - destruct (Z.eqb_spec status 200) as [-> | Hstatus]; [| by eexists _, _].
    unfold Py.truthy_dict. case_decide as Hd; [by eexists _, _ |].
    destruct (Hids _ _ _ Hme Hd) as (id_str & n & Hid & Hint).
    rewrite Hid. unfold int_of_opt, bind, ret. rewrite Hint. by eexists _, _.
  - destruct (status =? 200)%Z; by eexists _, _.
Qed.

End Callback.

(** C5: when the exchange of the code yields no access token (transport
    error, a status other than 200, an undecodable body, or a body without
    [access_token]), the callback answers and the three tables are what
    they were; the only effect is the request to the token endpoint. *)
Theorem failed_exchange_keeps_tables
    (cfg : Config) (env : Env) (request : web.Request) (code : string)
    (m : Machine) :
  web.code request = Some code ->
  code <> "" ->
  ExchangeFails (post_token env (history m) code) ->
  exists resp m',
    handle_callback cfg env request m = (Ok resp, m')
    /\ tables m' = tables m
    /\ user_access_tokens m' = user_access_tokens m
    /\ pending_verifications m' = pending_verifications m
    /\ history m' = (history m ++ [EvPostToken code])%list
    /\ resp = web.mkResponse "Token exchange failed" None.
Proof.
  intros Hcode Hne Hfails.
  unfold handle_callback. rewrite Hcode, (truthy_str_nonempty _ Hne).
  unfold bind at 1. rewrite exchange_code_for_token_run.
  rewrite (exchange_fails_no_token _ Hfails).
  by eexists _, _.
Qed.

Lemma failed_exchange_keeps_tables_witness :
  exists resp m',
    handle_callback Sample.cfg Sample.env_exchange_refused
      {| web.code := Some "c0de"; web.state := Some "222:5" |} Sample.waiting
    = (Ok resp, m')
    /\ tables m' = tables Sample.waiting
    /\ user_access_tokens m' = user_access_tokens Sample.waiting
    /\ pending_verifications m' = pending_verifications Sample.waiting
    /\ history m' = (history Sample.waiting ++ [EvPostToken "c0de"])%list
    /\ resp = web.mkResponse "Token exchange failed" None.
Proof.
  apply (failed_exchange_keeps_tables Sample.cfg Sample.env_exchange_refused
           {| web.code := Some "c0de"; web.state := Some "222:5" |} "c0de"
           Sample.waiting).
  - reflexivity.
  - discriminate.
  - apply bad_status. lia.
Defined.

(** C9, as the code has it: provided every identity the provider returns
    carries a decimal id, and no pending record holds a list in the place
    of the guild id, the callback always answers with status 200; the
    content type is [text/html] once the exchange gave an access token,
    whatever the reconciliation then does, and [text/plain] when the code
    is missing or the exchange gave no token. *)
Theorem callback_response
    (cfg : Config) (env : Env) (request : web.Request) (m : Machine) :
  identities_numbered env ->
  guild_ids_hashable m ->
  exists resp m',
    handle_callback cfg env request m = (Ok resp, m')
    /\ web.status resp = 200
    /\ ((Py.truthy_str (web.code request) = None
         /\ web.content_type resp = "text/plain")
        \/ (exists code,
              Py.truthy_str (web.code request) = Some code
              /\ ExchangeFails (post_token env (history m) code)
              /\ web.content_type resp = "text/plain")
        \/ (exists code token_data access_token,
              Py.truthy_str (web.code request) = Some code
              /\ post_token env (history m) code = Resp 200 (Some token_data)
              /\ token_data !! "access_token" = Some access_token
              /\ web.content_type resp = "text/html")).
Proof.
  intros Hids Hhashable. unfold handle_callback.
  destruct (Py.truthy_str (web.code request)) as [code |] eqn:Hcode.
  2: { eexists _, _. split; [done |]. split; [done |]. by left. }
  unfold bind at 1. rewrite exchange_code_for_token_run.
  destruct (exchange_fails_or_grants (post_token env (history m) code))
    as [Hfails | (d & access_token & Hreply & Htoken)].
  { rewrite (exchange_fails_no_token _ Hfails).
    eexists _, _. split; [done |]. split; [done |]. right; left. by exists code. }
  rewrite Hreply. cbn [Z.eqb Pos.eqb].
  rewrite (truthy_dict_lookup _ _ _ Htoken). cbn [mbind option_bind].
  rewrite Htoken.
  destruct (parse_state (web.state request)) as [user_id guild].
  set (m1 := record (EvPostToken code) m).
  assert (exists r m2,
            (if Py.truthy_int user_id then ret user_id
             else bind (get_user_info env access_token)
                    (fun user_info =>
                       match Py.truthy_dict user_info with
                       | Some user_info =>
                           bind (int_of_opt (user_info !! "id"))
                             (fun n => ret (Some n))
                       | None => ret user_id
                       end)) m1 = (Ok r, m2)
            /\ tables m2 = tables m) as (r & m2 & Hfallback & Htables).
  { destruct (Py.truthy_int user_id); [by eexists _, _ |].
    destruct (identity_fallback_returns env Hids user_id access_token m1)
      as (r & m2 & Hrun & Htables).
    by exists r, m2. }
  assert (guild_ids_hashable m2) as Hhashable2.
  { unfold guild_ids_hashable. by rewrite (tables_table _ _ _ Htables). }
  unfold bind at 1. rewrite Hfallback.
  assert (exists m3,
            match r with
            | Some n =>
                if negb (n =? 0)%Z
                then bind (complete_verification cfg env n access_token)
                       (fun _ => ret tt)
                else ret tt
            | None => ret tt
            end m2 = (Ok tt, m3)) as (m3 & Hreconcile).
  { destruct r as [n |]; [| by eexists].
    destruct (negb (n =? 0)%Z); [| by eexists].
    destruct (complete_verification_returns cfg env Hids n access_token m2
                Hhashable2)
      as (b & m3 & Hrun).
    unfold bind. rewrite Hrun. by eexists. }
  unfold bind at 1. rewrite Hreconcile.
  eexists _, _. split; [done |]. split; [done |]. right; right.
  by exists code, d, access_token.
Qed.

Lemma sample_identities_numbered : identities_numbered Sample.env.
Proof.
  intros h access_token user_info [= <-] _.
  exists "222", 222. split; reflexivity.
Qed.

Lemma callback_response_witness :
  exists resp m',
    handle_callback Sample.cfg Sample.env
      {| web.code := Some "c0de"; web.state := Some "222:5" |} Sample.waiting
    = (Ok resp, m')
    /\ web.status resp = 200
    /\ web.content_type resp = "text/html".
Proof.
  destruct (callback_response Sample.cfg Sample.env
              {| web.code := Some "c0de"; web.state := Some "222:5" |}
              Sample.waiting sample_identities_numbered)
    as (resp & m' & Hrun & Hstatus & _).
  { apply (bool_decide_unpack _). by vm_compute. }
  exists resp, m'. split; [exact Hrun |]. split; [exact Hstatus |].
  vm_compute in Hrun. injection Hrun as <- _. reflexivity.
Defined.

(** C9 as stated fails: a callback without [code] is answered with status
    200 and content type [text/plain], not [text/html]. *)
Lemma plain_text_without_code :
  exists resp m',
    handle_callback Sample.cfg Sample.env
      {| web.code := None; web.state := Some "222:5" |} Sample.waiting
    = (Ok resp, m')
    /\ web.status resp = 200
    /\ web.content_type resp = "text/plain"
    /\ web.content_type resp <> "text/html".
Proof. eexists _, _. vm_compute. repeat split. discriminate. Qed.

(** ** Redirection of one user *)

Lemma add_user_to_guild_via_oauth2_run
    (env : Env) (user_id : string) (access_token : Value) (guild : Z)
    (m : Machine) :
  add_user_to_guild_via_oauth2 env user_id access_token guild m
  = if sliceable access_token then
      let m1 := record (EvPutMember guild user_id access_token) m in
      let entry tag :=
        {| timestamp := utcnow env (history m1); guild_id := guild;
           method := tag |} in
      let logged tag :=
        match oauth2_adds_log m !! user_id with
        | None =>
            (Ok true,
             record (EvSave OAUTH2_ADDS_FILE)
               (set_log <[user_id := VLog [entry tag]]> m1))
        | Some (VLog entries) =>
            (Ok true,
             record (EvSave OAUTH2_ADDS_FILE)
               (set_log <[user_id := VLog (entries ++ [entry tag])]> m1))
        | Some _ => (Ok false, m1)
        end in
      match classify (put_member env (history m) guild user_id access_token) with
      | Added => logged "oauth2_guilds_join"
      | AlreadyMember => logged "already_member"
      | Forbidden => (Ok false, m1)
      | OtherError => (Ok false, m1)
      end
    else (Ok false, m).
Proof.
  unfold add_user_to_guild_via_oauth2, try_except, bind, session_put_member.
  destruct (sliceable access_token); [| done]. unfold ret at 1.
  destruct (classify _); try done;
    unfold log_add, bind, get;
    change (oauth2_adds_log (record ?e m)) with (oauth2_adds_log m);
    by destruct (oauth2_adds_log m !! user_id) as [[| |] |].
Qed.

(** The status of the membership request decides the branch; when what the
    log holds for the user is a list or nothing, it also decides the result
    and the log: 200, 201 and 204 succeed and append one entry with their
    tag, the others fail and leave the log alone. *)
Lemma redirect_one_logged
    (env : Env) (user_id : string) (access_token : Value) (guild : Z)
    (m : Machine) :
  sliceable access_token = true ->
  (forall v, oauth2_adds_log m !! user_id = Some v -> exists entries, v = VLog entries) ->
  let reply := put_member env (history m) guild user_id access_token in
  let before := entries_of (oauth2_adds_log m !! user_id) in
  exists r m' evs,
    add_user_to_guild_via_oauth2 env user_id access_token guild m = (r, m')
    /\ history m'
       = (history m ++ EvPutMember guild user_id access_token :: evs)%list
    /\ match classify reply with
       | Added =>
           r = Ok true /\ evs = [EvSave OAUTH2_ADDS_FILE]
           /\ exists entry,
                tables m'
                = tables (set_log <[user_id := VLog (before ++ [entry])]> m)
                /\ method entry = "oauth2_guilds_join"
                /\ guild_id entry = guild
       | AlreadyMember =>
           r = Ok true /\ evs = [EvSave OAUTH2_ADDS_FILE]
           /\ exists entry,
                tables m'
                = tables (set_log <[user_id := VLog (before ++ [entry])]> m)
                /\ method entry = "already_member"
                /\ guild_id entry = guild
       | Forbidden => r = Ok false /\ evs = [] /\ tables m' = tables m
       | OtherError => r = Ok false /\ evs = [] /\ tables m' = tables m
       end.
Proof.
  intros Hslice Hlist reply before.
  rewrite add_user_to_guild_via_oauth2_run, Hslice. cbn zeta. fold reply.
  set (m1 := record (EvPutMember guild user_id access_token) m).
  assert (forall entry,
            exists m',
              match oauth2_adds_log m !! user_id with
              | None =>
                  (Ok true,
                   record (EvSave OAUTH2_ADDS_FILE)
                     (set_log <[user_id := VLog [entry]]> m1))
              | Some (VLog entries) =>
                  (Ok true,
                   record (EvSave OAUTH2_ADDS_FILE)
                     (set_log <[user_id := VLog (entries ++ [entry])]> m1))
              | Some _ => (Ok false, m1)
              end = (Ok true, m')
              /\ history m'
                 = (history m
                      ++ [EvPutMember guild user_id access_token;
                          EvSave OAUTH2_ADDS_FILE])%list
              /\ tables m'
                 = tables (set_log <[user_id := VLog (before ++ [entry])]> m))
    as Hlogged.
  { intros entry. subst before m1.
    destruct (oauth2_adds_log m !! user_id) as [v |] eqn:Hlog.
    - destruct (Hlist v eq_refl) as [entries ->].
      eexists. split; [done |].
      split; [histories; by rewrite <- app_assoc |].
      change (tables (record ?e ?m0)) with (tables m0).
      by apply tables_set_table.
    - eexists. split; [done |].
      split; [histories; by rewrite <- app_assoc |].
      change (tables (record ?e ?m0)) with (tables m0).
      by apply tables_set_table. }
  destruct (classify reply).
  - destruct (Hlogged {| timestamp := utcnow env (history m1); guild_id := guild;
                         method := "oauth2_guilds_join" |})
      as (m' & Hrun & Hh & Ht).
    rewrite Hrun. eexists _, _, _. split; [done |]. split; [exact Hh |].
    split; [done |]. split; [done |]. by eexists.
  - destruct (Hlogged {| timestamp := utcnow env (history m1); guild_id := guild;
                         method := "already_member" |})
      as (m' & Hrun & Hh & Ht).
    rewrite Hrun. eexists _, _, _. split; [done |]. split; [exact Hh |].
    split; [done |]. split; [done |]. by eexists.
  - eexists _, _, []. by subst m1.
  - eexists _, _, []. by subst m1.
Qed.

(** C6, on a start that read neither the token file nor the log file: the
    two names are bound to the one default dict, so what the log holds for
    a user with a token is that token, a [str].  The request goes out, and
    whatever it answers, 200, 201 and 204 included, the call returns
    [False] and no entry is appended: [append] raised and the [except] of
    the function caught it. *)
Theorem redirect_not_logged_on_shared_dict
    (env : Env) (user_id s : string) (guild : Z) (m : Machine) :
  separate Log Tokens m = false ->
  user_access_tokens m !! user_id = Some (VStr s) ->
  exists r m',
    add_user_to_guild_via_oauth2 env user_id (VStr s) guild m = (r, m')
    /\ r = Ok false
    /\ tables m' = tables m
    /\ oauth2_adds_log m' !! user_id = Some (VStr s)
    /\ history m' = (history m ++ [EvPutMember guild user_id (VStr s)])%list.
Proof.
  intros Hshared Htoken.
  rewrite add_user_to_guild_via_oauth2_run. cbn [sliceable]. cbn zeta.
  rewrite (table_shared _ _ _ Hshared), Htoken.
  eexists _, _.
  split; [by destruct (classify _) |].
  split; [done |]. split; [done |].
  split; [| done].
  change (oauth2_adds_log (record ?e m)) with (oauth2_adds_log m).
  by rewrite (table_shared _ _ _ Hshared).
Qed.

Lemma redirect_not_logged_on_shared_dict_witness :
  put_member Sample.env (history Sample.first_stocked) 900 "222" (VStr "tok")
  = Some 201
  /\ exists r m',
       add_user_to_guild_via_oauth2 Sample.env "222" (VStr "tok") 900
         Sample.first_stocked
       = (r, m')
       /\ r = Ok false
       /\ tables m' = tables Sample.first_stocked
       /\ oauth2_adds_log m' !! "222" = Some (VStr "tok")
       /\ history m'
          = (history Sample.first_stocked
               ++ [EvPutMember 900 "222" (VStr "tok")])%list.
Proof.
  split; [reflexivity |].
  apply (redirect_not_logged_on_shared_dict Sample.env "222" "tok" 900
           Sample.first_stocked); reflexivity.
Defined.

(** ** Batched redirection *)

Lemma truthy_value_Some (x : option Value) (v : Value) :
  truthy_value x = Some v -> x = Some v.
Proof.
  destruct x as [[s | n | [| entry entries]] |]; cbn; try done.
  - by destruct (String.eqb s "").
  - by destruct (n =? 0)%Z.
Qed.

Lemma has_token_class (tokens : gmap string Value) (member : Z) :
  has_token tokens member
  = match token_class (tokens !! Py.str_of_int member) with
    | Some _ => true
    | None => false
    end.
Proof.
  unfold has_token, token_class. by destruct (truthy_value _) as [v |].
Qed.

Lemma has_token_truthy (tokens : gmap string Value) (member : Z) :
  has_token tokens member
  = match truthy_value (tokens !! Py.str_of_int member) with
    | Some _ => true
    | None => false
    end.
Proof. unfold has_token. by destruct (truthy_value _) as [v |]. Qed.

Lemma sendable_truthy (tokens : gmap string Value) (member : Z) :
  sendable tokens member
  = match truthy_value (tokens !! Py.str_of_int member) with
    | Some access_token => sliceable access_token
    | None => false
    end.
Proof. reflexivity. Qed.

Lemma sendable_class (tokens : gmap string Value) (member : Z) :
  sendable tokens member
  = match token_class (tokens !! Py.str_of_int member) with
    | Some b => b
    | None => false
    end.
Proof. unfold sendable, token_class. by destruct (truthy_value _). Qed.

(** A token that is a non-empty [str] is not false and can be sliced. *)
Lemma nonempty_str_truthy (v : Value) :
  nonempty_str v = true ->
  truthy_value (Some v) = Some v /\ sliceable v = true
  /\ forall entries, v <> VLog entries.
Proof.
  destruct v as [s | n | entries]; [| done | done]. cbn.
  by destruct (String.eqb s "").
Qed.

Section Batch.

Local Open Scope nat_scope.

Variable cfg : Config.
Variable env : Env.

(** One request of the loop, for a member whose token is not false: it
    returns, sends the request when the token can be sliced, and leaves
    every token as usable as it was.  The token table itself changes only
    when it is the dict of the log and the token is a list. *)
Lemma add_user_step (user_id : string) (access_token : Value) (guild : Z)
    (m : Machine) :
  truthy_value (user_access_tokens m !! user_id) = Some access_token ->
  exists success m' evs,
    add_user_to_guild_via_oauth2 env user_id access_token guild m
    = (Ok success, m')
    /\ history m' = (history m ++ evs)%list
    /\ List.filter is_put evs
       = (if sliceable access_token
          then [EvPutMember guild user_id access_token] else [])
    /\ List.filter is_sleep evs = []
    /\ (forall key,
          token_class (user_access_tokens m' !! key)
          = token_class (user_access_tokens m !! key))
    /\ ((forall entries, access_token <> VLog entries) ->
        user_access_tokens m' = user_access_tokens m).
Proof.
  intros Htruthy. pose proof (truthy_value_Some _ _ Htruthy) as Htoken.
  rewrite add_user_to_guild_via_oauth2_run.
  destruct (sliceable access_token) eqn:Hslice.
  2: { exists false, m, []. by rewrite app_nil_r. }
  cbn zeta.
  set (m1 := record (EvPutMember guild user_id access_token) m).
  assert (forall entry,
            exists success m',
              match oauth2_adds_log m !! user_id with
              | None =>
                  (Ok true,
                   record (EvSave OAUTH2_ADDS_FILE)
                     (set_log <[user_id := VLog [entry]]> m1))
              | Some (VLog entries) =>
                  (Ok true,
                   record (EvSave OAUTH2_ADDS_FILE)
                     (set_log <[user_id := VLog (entries ++ [entry])]> m1))
              | Some _ => (Ok false, m1)
              end = (Ok success, m')
              /\ (exists evs,
                    history m'
                    = (history m
                         ++ EvPutMember guild user_id access_token :: evs)%list
                    /\ List.filter is_put evs = []
                    /\ List.filter is_sleep evs = [])
              /\ (forall key,
                    token_class (user_access_tokens m' !! key)
                    = token_class (user_access_tokens m !! key))
              /\ ((forall entries, access_token <> VLog entries) ->
                  user_access_tokens m' = user_access_tokens m)) as Hlogged.
  { intros entry. subst m1.
    destruct (separate Log Tokens m) eqn:Hsep.
    - (* the log is a dict of its own: no token changes *)
      assert (forall f,
                user_access_tokens
                  (record (EvSave OAUTH2_ADDS_FILE)
                     (set_log f (record (EvPutMember guild user_id access_token) m)))
                = user_access_tokens m) as Hsame.
      { intros f. change (table Tokens (record ?e ?m0)) with (table Tokens m0).
        rewrite set_table_record.
        change (table Tokens (record ?e ?m0)) with (table Tokens m0).
        by apply table_set_separate. }
      destruct (oauth2_adds_log m !! user_id) as [[s | n | entries] |];
        eexists _, _; (split; [done |]); rewrite ?Hsame;
        (split; [| done]);
        first [ by exists [] | exists [EvSave OAUTH2_ADDS_FILE] ];
        (split; [histories; by rewrite <- app_assoc | done]).
    - (* the log is the dict of the tokens *)
      rewrite (table_shared _ _ _ Hsep), Htoken.
      destruct access_token as [s | n | entries]; [| done |].
      + eexists _, _. split; [done |]. split; [by exists [] | done].
      + eexists _, _. split; [done |].
        split.
        { exists [EvSave OAUTH2_ADDS_FILE].
          split; [histories; by rewrite <- app_assoc | done]. }
        split; [| intros Hno; by destruct (Hno entries)].
        intros key.
        change (table Tokens (record ?e ?m0)) with (table Tokens m0).
        rewrite set_table_record.
        change (table Tokens (record ?e ?m0)) with (table Tokens m0).
        rewrite table_set_shared by done.
        destruct (decide (key = user_id)) as [-> | Hkey].
        * rewrite lookup_insert_eq, Htoken. rewrite Htoken in Htruthy.
          by destruct entries as [| e0 entries].
        * by rewrite lookup_insert_ne. }
  destruct (classify _).
  1: destruct (Hlogged {| timestamp := utcnow env (history m1); guild_id := guild;
                          method := "oauth2_guilds_join" |})
       as (success & m' & Hrun & (evs & Hh & Hp & Hs) & Hclass & Hsame).
  2: destruct (Hlogged {| timestamp := utcnow env (history m1); guild_id := guild;
                          method := "already_member" |})
       as (success & m' & Hrun & (evs & Hh & Hp & Hs) & Hclass & Hsame).
  1, 2: rewrite Hrun;
    exists success, m', (EvPutMember guild user_id access_token :: evs);
    split; [done |]; split; [done |];
    cbn [List.filter is_put is_sleep]; rewrite Hp, Hs; done.
  all: exists false, m1, [EvPutMember guild user_id access_token]; by subst m1.
Qed.

Hypothesis Hchat : forall h msg, chat_ok env h msg = true.

Lemma status_msg_edit_run (msg : ChatMsg) (m : Machine) :
  status_msg_edit env msg m = (Ok tt, record (EvEdit msg) m).
Proof. unfold status_msg_edit. by rewrite Hchat. Qed.

Lemma ctx_send_run (msg : ChatMsg) (m : Machine) :
  ctx_send env msg m = (Ok tt, record (EvSend msg) m).
Proof. unfold ctx_send. by rewrite Hchat. Qed.

(** The loop from any position and any counters: it returns, the skipped
    members go to the third counter and the others to the first two, with
    one pause each and one request for each token that can be sliced, in
    the order of the sequence; every token stays as usable as it was.
    When every token is a non-empty [str], the token table is unchanged
    and every member with a token gets its request, with that token. *)
Lemma add_all_loop_run (total : nat) (members : list Z) :
  forall (i success_count fail_count no_token_count : nat) (m : Machine),
    let tokens := user_access_tokens m in
    exists success_count' fail_count' m' evs,
      add_all_loop cfg env total i members
        success_count fail_count no_token_count m
      = (Ok (success_count', fail_count',
             no_token_count
             + length (List.filter (fun x => negb (has_token tokens x)) members)),
         m')
      /\ history m' = (history m ++ evs)%list
      /\ (forall key,
            token_class (user_access_tokens m' !! key)
            = token_class (tokens !! key))
      /\ success_count' + fail_count'
         = success_count + fail_count
           + length (List.filter (has_token tokens) members)
      /\ omap put_user evs
         = List.map Py.str_of_int (List.filter (sendable tokens) members)
      /\ length (List.filter is_sleep evs)
         = length (List.filter (has_token tokens) members)
      /\ ((forall key v, tokens !! key = Some v -> nonempty_str v = true) ->
          user_access_tokens m' = tokens
          /\ List.filter is_put evs
             = List.map (put_event cfg tokens)
                 (List.filter (has_token tokens) members)).
Proof.
  induction members as [| member rest IH];
    intros i success_count fail_count no_token_count m tokens.
  { exists success_count, fail_count, m, []. cbn.
    split; [unfold ret; do 3 f_equal; lia |].
    split; [by rewrite app_nil_r |]. split; [done |]. split; [lia | done]. }
  cbn [add_all_loop List.filter]. unfold bind at 1, get.
  rewrite (has_token_truthy tokens member), (sendable_truthy tokens member).
  fold tokens.
  destruct (truthy_value (tokens !! Py.str_of_int member))
    as [access_token |] eqn:Htoken; cbn [negb].
  2: { destruct (IH (S i) success_count fail_count (S no_token_count) m)
         as (s' & f' & m' & evs & Hrun & Hrest).
       exists s', f', m', evs. fold tokens in Hrun, Hrest.
       rewrite Hrun. cbn [length].
       split; [do 3 f_equal; lia | done]. }
  (* the progress edit *)
  assert (exists evs1,
            (if (i mod 3 =? 0)%nat
             then status_msg_edit env (MsgProcessing (i + 1) total)
             else ret tt) m = (Ok tt, after evs1 m)
            /\ omap put_user evs1 = []
            /\ List.filter is_put evs1 = []
            /\ List.filter is_sleep evs1 = [])
    as (evs1 & Hedit & Hput1 & Hputs1 & Hsleeps1).
  { destruct (i mod 3 =? 0)%nat.
    - rewrite status_msg_edit_run. by exists [EvEdit (MsgProcessing (i + 1) total)].
    - exists []. by rewrite after_nil. }
  unfold bind at 1. rewrite Hedit.
  (* the request *)
  destruct (add_user_step (Py.str_of_int member) access_token
              (TARGET_SERVER_ID cfg) (after evs1 m) Htoken)
    as (success & m2 & evs2 & Hadd & Hhist2 & Hputs2 & Hsleeps2 & Hclass2 & Hsame2).
  change (user_access_tokens (after evs1 m)) with tokens in Hclass2, Hsame2.
  unfold bind at 1. rewrite Hadd.
  (* the counters and the kick *)
  assert (exists evs3,
            (if success
             then bind (if AUTO_KICK_AFTER_ADD cfg
                        then try_pass (member_kick env member) else ret tt)
                    (fun _ => ret (S success_count, fail_count))
             else ret (success_count, S fail_count)) m2
            = (Ok (if success then (S success_count, fail_count)
                   else (success_count, S fail_count)), after evs3 m2)
            /\ List.filter is_put evs3 = []
            /\ List.filter is_sleep evs3 = [])
    as (evs3 & Hcount & Hputs3 & Hsleeps3).
  { destruct success.
    - destruct (AUTO_KICK_AFTER_ADD cfg).
      + exists [EvKick member].
        unfold bind, try_pass, try_except, member_kick, ret.
        by destruct (kick_ok env (history m2) member).
      + exists []. by rewrite after_nil.
    - exists []. by rewrite after_nil. }
  unfold bind at 1. rewrite Hcount.
  unfold bind at 1, asyncio_sleep, modify.
  set (counts := if success then (S success_count, fail_count)
                 else (success_count, S fail_count)).
  set (m4 := record EvSleep (after evs3 m2)).
  destruct (IH (S i) (fst counts) (snd counts) no_token_count m4)
    as (s' & f' & m' & evs & Hrun & Hhist & Hclass & Hsum & Hput & Hsleeps & Hfull).
  change (user_access_tokens m4) with (user_access_tokens m2)
    in Hrun, Hclass, Hsum, Hput, Hsleeps, Hfull.
  assert (forall x, has_token (user_access_tokens m2) x = has_token tokens x)
    as Hhas.
  { intros x. by rewrite !has_token_class, Hclass2. }
  assert (forall x, sendable (user_access_tokens m2) x = sendable tokens x)
    as Hsend.
  { intros x. by rewrite !sendable_class, Hclass2. }
  rewrite (List.filter_ext _ _ Hhas) in Hsum, Hsleeps.
  rewrite (List.filter_ext _ _ Hsend) in Hput.
  rewrite (List.filter_ext (fun x => negb (has_token (user_access_tokens m2) x))
             (fun x => negb (has_token tokens x))) in Hrun
    by (intros x; by rewrite Hhas).
  exists s', f', m', (evs1 ++ evs2 ++ evs3 ++ [EvSleep] ++ evs)%list.
  rewrite Hrun. split; [done |].
  split.
  { rewrite Hhist. subst m4. cbn [record after history]. rewrite Hhist2.
    cbn [after history]. by rewrite <- !app_assoc. }
  split; [intros key; by rewrite Hclass, Hclass2 |].
  split.
  { subst counts. cbn [length]. destruct success; cbn [fst snd] in Hsum; lia. }
  assert (omap put_user evs2
          = if sliceable access_token then [Py.str_of_int member] else [])
    as Hput2.
  { transitivity (omap put_user (List.filter is_put evs2)).
    - clear. induction evs2 as [| e evs2 IH2]; [done |].
      destruct e; cbn; by rewrite ?IH2.
    - rewrite Hputs2. by destruct (sliceable access_token). }
  assert (omap put_user evs3 = []) as Hput3.
  { transitivity (omap put_user (List.filter is_put evs3)).
    - clear. induction evs3 as [| e evs3 IH3]; [done |].
      destruct e; cbn; by rewrite ?IH3.
    - by rewrite Hputs3. }
  split.
  { rewrite !omap_app, Hput1, Hput2, Hput3, Hput. cbn [omap app].
    by destruct (sliceable access_token). }
  split.
  { rewrite !List.filter_app, !length_app.
    rewrite Hsleeps1, Hsleeps2, Hsleeps3, Hsleeps. by cbn. }
  intros Hstr.
  pose proof (truthy_value_Some _ _ Htoken) as Hlookup.
  destruct (nonempty_str_truthy _ (Hstr _ _ Hlookup)) as (_ & Hslice & Hnolist).
  specialize (Hsame2 Hnolist). rewrite Hsame2 in Hfull.
  destruct (Hfull Hstr) as [Hsame Hputs].
  split; [done |].
  rewrite !List.filter_app, Hputs1, Hputs2, Hputs3, Hputs, Hslice.
  cbn [List.filter is_put app map]. unfold put_event at 2.
  by rewrite Hlookup.
Qed.

Lemma filter_idem {A} (p : A -> bool) (l : list A) :
  List.filter p (List.filter p l) = List.filter p l.
Proof.
  induction l as [| x l IH]; [done |]. cbn.
  destruct (p x) eqn:Hp; [| done]. cbn. by rewrite Hp, IH.
Qed.

Lemma filter_negb_filter {A} (p : A -> bool) (l : list A) :
  List.filter (fun x => negb (p x)) (List.filter p l) = [].
Proof.
  induction l as [| x l IH]; [done |]. cbn.
  destruct (p x) eqn:Hp; [| done]. cbn. by rewrite Hp.
Qed.

(** The command on a role that exists: the sequence handed to the loop
    is the members whose id is a key of the token table, and the report is
    the last thing shown. *)
Lemma add_all_command_run (role_members : list Z) (m : Machine) :
  let tokens := user_access_tokens m in
  let verified_members := List.filter (has_key tokens) role_members in
  exists msg m' evs,
    add_all_command cfg env (Some role_members) m = (Ok msg, m')
    /\ history m' = (history m ++ evs)%list
    /\ match verified_members with
       | [] => msg = MsgNoUsers /\ evs = [EvSend MsgNoUsers]
       | _ =>
           exists success_count fail_count,
             msg = MsgReport success_count fail_count
                     (length (List.filter (fun x => negb (has_token tokens x))
                                verified_members))
             /\ success_count + fail_count
                = length (List.filter (has_token tokens) verified_members)
             /\ omap put_user evs
                = List.map Py.str_of_int
                    (List.filter (sendable tokens) verified_members)
             /\ length (List.filter is_sleep evs)
                = length (List.filter (has_token tokens) verified_members)
             /\ last evs = Some (EvEdit msg)
             /\ ((forall key v, tokens !! key = Some v -> nonempty_str v = true) ->
                 List.filter is_put evs
                 = List.map (put_event cfg tokens)
                     (List.filter (has_token tokens) verified_members))
       end.
Proof.
  intros tokens verified_members.
  unfold add_all_command. unfold bind at 1, get.
  change (List.filter _ role_members) with verified_members.
  destruct verified_members as [| member rest].
  { unfold bind. rewrite ctx_send_run.
    eexists _, _, [EvSend MsgNoUsers]. by split. }
  cbv iota. set (vm := member :: rest).
  unfold bind at 1. rewrite ctx_send_run.
  set (m1 := record (EvSend (MsgStarting (length vm))) m).
  destruct (add_all_loop_run (length vm) vm 0 0 0 0 m1)
    as (s' & f' & m2 & evs & Hrun & Hhist & _ & Hsum & Hput & Hsleeps & Hfull).
  change (user_access_tokens m1) with tokens in Hrun, Hsum, Hput, Hsleeps, Hfull.
  unfold bind at 1. rewrite Hrun. cbn [Nat.add].
  unfold bind at 1. rewrite status_msg_edit_run.
  set (k := length (List.filter (fun x => negb (has_token tokens x)) vm)).
  eexists _, _,
    (EvSend (MsgStarting (length vm)) :: evs ++ [EvEdit (MsgReport s' f' k)])%list.
  split; [done |].
  split.
  { cbn [record history]. rewrite Hhist. subst m1. cbn [record history].
    by rewrite <- !app_assoc. }
  exists s', f'. split; [done |]. split; [lia |].
  split.
  { change (EvSend ?x :: ?l) with ([EvSend x] ++ l)%list.
    rewrite !omap_app, Hput.
    change (omap put_user [EvSend ?x]) with (@nil string).
    change (omap put_user [EvEdit ?x]) with (@nil string).
    by rewrite app_nil_r. }
  split.
  { cbn [List.filter is_sleep]. rewrite List.filter_app, length_app, Hsleeps.
    cbn. lia. }
  split.
  { rewrite app_comm_cons. by rewrite last_snoc. }
  intros Hstr. destruct (Hfull Hstr) as [_ Hputs].
  cbn [List.filter is_put]. rewrite List.filter_app, Hputs. cbn.
  by rewrite app_nil_r.
Qed.

End Batch.




(** C10: [add_all_command] iterates over the role members whose id is a
    key of the token table, and over no others: each of them, in order,
    gets its request when every stored token is a non-empty string.  The
    test for a missing token inside the loop then never fires: the reported
    count of skipped members is zero and the successes and failures add up
    to the length of the filtered sequence.  The calls of the chat client
    are taken to return. *)
Theorem no_skips_after_filter
    (cfg : Config) (env : Env) (verified_role : option (list Z)) (m : Machine) :
  (forall h msg, chat_ok env h msg = true) ->
  (forall key access_token,
     user_access_tokens m !! key = Some access_token ->
     nonempty_str access_token = true) ->
  let tokens := user_access_tokens m in
  let verified_members :=
    List.filter (has_key tokens) (default [] verified_role) in
  exists msg m' evs,
    add_all_command cfg env verified_role m = (Ok msg, m')
    /\ history m' = (history m ++ evs)%list
    /\ List.filter is_put evs = List.map (put_event cfg tokens) verified_members
    /\ (msg = MsgRoleNotFound
        \/ msg = MsgNoUsers
        \/ exists success_count fail_count,
             msg = MsgReport success_count fail_count 0
             /\ (success_count + fail_count = length verified_members)%nat)
    /\ forall success_count fail_count no_token_count,
         msg = MsgReport success_count fail_count no_token_count ->
         no_token_count = 0%nat.
Proof.
  intros Hchat Hfull tokens verified_members. subst verified_members.
  destruct verified_role as [role_members |]; cbn [default from_option]; unfold id.
  2: { unfold add_all_command, bind. rewrite ctx_send_run by done.
       eexists _, _, [EvSend MsgRoleNotFound].
       repeat split; [by left | done]. }
  destruct (add_all_command_run cfg env Hchat role_members m)
    as (msg & m' & evs & Hrun & Hhist & Hcases).
  cbn zeta in Hcases. fold tokens in Hcases.
  set (verified_members := List.filter (has_key tokens) role_members) in *.
  exists msg, m', evs. split; [done |]. split; [done |].
  assert (forall x, has_token tokens x = has_key tokens x) as Hkey.
  { intros x. rewrite has_token_truthy. unfold has_key.
    destruct (tokens !! Py.str_of_int x) as [v |] eqn:Hx; [| done].
    by destruct (nonempty_str_truthy _ (Hfull _ _ Hx)) as (-> & _). }
  assert (List.filter (has_token tokens) verified_members = verified_members)
    as Hall.
  { rewrite (List.filter_ext _ _ Hkey). apply filter_idem. }
  assert (List.filter (fun x => negb (has_token tokens x)) verified_members = [])
    as Hnone.
  { rewrite (List.filter_ext (fun x => negb (has_token tokens x))
               (fun x => negb (has_key tokens x))).
    - apply filter_negb_filter.
    - intros x. by rewrite Hkey. }
  rewrite Hall, Hnone in Hcases. cbn [length] in Hcases.
  destruct verified_members as [| member rest].
  - destruct Hcases as (-> & ->). repeat split; [by right; left | done].
  - destruct Hcases as (s' & f' & -> & Hsum & _ & _ & _ & Hputs).
    specialize (Hputs Hfull).
    repeat split; [done | | by intros ? ? ? [= _ _ <-]].
    right; right. by exists s', f'.
Qed.

Lemma no_skips_after_filter_witness :
  exists msg m' evs,
    add_all_command Sample.cfg Sample.env (Some [111; 222; 444]) Sample.ready
    = (Ok msg, m')
    /\ history m' = (history Sample.ready ++ evs)%list
    /\ List.filter is_put evs
       = [EvPutMember 900 "222" (VStr "tok"); EvPutMember 900 "444" (VStr "tok4")]
    /\ (msg = MsgRoleNotFound
        \/ msg = MsgNoUsers
        \/ exists success_count fail_count,
             msg = MsgReport success_count fail_count 0
             /\ (success_count + fail_count = 2)%nat)
    /\ forall success_count fail_count no_token_count,
         msg = MsgReport success_count fail_count no_token_count ->
         no_token_count = 0%nat.
Proof.
  apply (no_skips_after_filter Sample.cfg Sample.env (Some [111; 222; 444])
           Sample.ready (fun _ _ => eq_refl)).
  change (map_Forall (fun (_ : string) access_token =>
                        nonempty_str access_token = true)
            (user_access_tokens Sample.ready)).
  apply (bool_decide_unpack _). vm_compute. exact I.
Defined.

(** * Further properties *)

(** ** What the state parser accepts *)

Lemma split_nonempty (sep : ascii) (s : string) : Py.split sep s <> [].
Proof.
  destruct s as [| c s]; [done |]. simpl.
  destruct (Ascii.eqb c sep); [done |]. by destruct (Py.split sep s).
Qed.

Lemma split_one (sep : ascii) (s x : string) :
  Py.split sep s = [x] -> x = s /\ Py.contains sep s = false.
Proof.
  revert x. induction s as [| c s IH]; intros x; simpl.
  - by intros [= <-].
  - destruct (Ascii.eqb c sep) eqn:Hc.
    + intros [= _ Hrest]. exfalso. by eapply split_nonempty.
    + destruct (Py.split sep s) as [| part parts] eqn:Hs;
        [exfalso; by eapply split_nonempty |].
      intros [= <- ->]. by destruct (IH part eq_refl) as [-> Hs'].
Qed.

Lemma split_two (sep : ascii) (s a b : string) :
  Py.split sep s = [a; b] ->
  s = a +:+ String sep b
  /\ Py.contains sep a = false /\ Py.contains sep b = false.
Proof.
  revert a. induction s as [| c s IH]; intros a; simpl; [done |].
  destruct (Ascii.eqb_spec c sep) as [-> | Hc].
  - intros [= <- Hrest]. destruct (split_one _ _ _ Hrest) as [-> Hb]. done.
  - destruct (Py.split sep s) as [| part parts] eqn:Hs;
      [exfalso; by eapply split_nonempty |].
    intros [= <- ->]. destruct (IH part eq_refl) as (-> & Ha & Hb).
    rewrite append_cons. simpl.
    destruct (Ascii.eqb_spec c sep); [done |]. done.
Qed.


(** For a state of ASCII characters within the digit limit of [int()]: the
    state is accepted with a user id exactly when it has one colon and an
    integer numeral in front of it; the guild id is whatever [int()] makes
    of the rest, and a rest that is no numeral does not undo the user
    id. *)
Theorem parse_state_accepts (state : option string) (user_id : Z)
    (guild : option Z) :
  (forall s, state = Some s -> Py.plain s = true) ->
  parse_state state = (Some user_id, guild)
  <-> exists a b,
        state = Some (a +:+ ":" +:+ b)
        /\ Py.contains ":" a = false
        /\ Py.contains ":" b = false
        /\ Py.int_of_str a = Some user_id
        /\ guild = Py.int_of_str b.
Proof.
  intros _. split.
  - unfold parse_state.
    destruct (Py.truthy_str state) as [s |] eqn:Hstate; [| done].
    apply truthy_str_Some in Hstate as [-> _].
    destruct (Py.contains ":" s); [| done].
    destruct (Py.split ":" s) as [| a [| b [| ? ?]]] eqn:Hsplit; try done.
    destruct (Py.int_of_str a) as [u |] eqn:Ha; [| done].
    intros [= <- <-]. apply split_two in Hsplit as (-> & Hna & Hnb).
    by exists a, b.
  - intros (a & b & -> & Hna & Hnb & Ha & ->).
    unfold parse_state, Py.truthy_str.
    assert (Py.contains ":" (a +:+ ":" +:+ b) = true) as Hcolon.
    { rewrite contains_app. change (":" +:+ b) with (String ":" b).
      simpl. by rewrite orb_true_r. }
    destruct (String.eqb_spec (a +:+ ":" +:+ b) "") as [Hnil | _].
    { rewrite Hnil in Hcolon. discriminate. }
    rewrite Hcolon. change (":" +:+ b) with (String ":" b).
    rewrite split_app_sep by done. rewrite split_no_sep by done.
    by rewrite Ha.
Qed.

Lemma parse_state_accepts_witness :
  parse_state (Some " 2_22 :x") = (Some 222, None)
  /\ parse_state (Some (String (ascii_of_nat 28) "222:5")) = (None, None).
Proof.
  split; [| reflexivity].
  apply (parse_state_accepts (Some " 2_22 :x") 222 None).
  - intros s [= <-]. reflexivity.
  - exists " 2_22 ", "x". by repeat split.
Defined.
(** ** The reconciler beyond the claimed branches *)

Lemma str_of_int_not_None (n : Z) : Py.str_of_int n <> "None".
Proof.
  intros Heq.
  pose proof (contains_str_of_int "N" n eq_refl eq_refl) as Hn.
  rewrite Heq in Hn. discriminate.
Qed.

(** A failed identity lookup (transport error, a status other than 200, an
    undecodable or empty body) ends the reconciliation with [False]: the
    lookup is the only effect, no table changes and no role is touched. *)
Theorem identity_failure_keeps_tables
    (cfg : Config) (env : Env) (user_id : Z) (access_token : string)
    (m : Machine) :
  (forall user_info,
     get_me env (history m) access_token = Resp 200 (Some user_info) ->
     user_info = ∅) ->
  complete_verification cfg env user_id access_token m
  = (Ok false, record (EvGetMe access_token) m).
Proof.
  intros Hfail. unfold complete_verification. unfold bind at 1.
  rewrite get_user_info_run.
  destruct (get_me env (history m) access_token) as [| status [d |]] eqn:Hme;
    [done | | by destruct (status =? 200)%Z].
  destruct (Z.eqb_spec status 200) as [-> | _]; [| done].
  rewrite (Hfail d eq_refl). done.
Qed.

Lemma identity_failure_keeps_tables_witness :
  complete_verification Sample.cfg Cases.env_identity_down 222 "tok"
    Sample.waiting
  = (Ok false, record (EvGetMe "tok") Sample.waiting).
Proof.
  apply identity_failure_keeps_tables. intros user_info Hme. discriminate Hme.
Defined.

(** An identity that is a non-empty object without [id] makes
    [complete_verification] raise [TypeError] ([int(None)]) right after the
    lookup, whatever user id the state gave; no table has changed. *)
Theorem identity_without_id_raises
    (cfg : Config) (env : Env) (user_id : Z) (access_token : string)
    (m : Machine) (user_info : gmap string string) :
  get_me env (history m) access_token = Resp 200 (Some user_info) ->
  user_info <> ∅ ->
  user_info !! "id" = None ->
  complete_verification cfg env user_id access_token m
  = (Raised TypeError, record (EvGetMe access_token) m).
Proof.
  intros Hme Hne Hid. unfold complete_verification. unfold bind at 1.
  rewrite get_user_info_run, Hme. cbn [Z.eqb Pos.eqb].
  unfold Py.truthy_dict. case_decide; [done |]. rewrite Hid.
  cbn [Py.str_of_opt].
  destruct (String.eqb_spec (Py.str_of_int user_id) "None") as [Heq | _];
    [by destruct (str_of_int_not_None user_id) |].
  done.
Qed.

Lemma identity_without_id_raises_witness :
  complete_verification Sample.cfg Cases.env_anonymous 222 "tok" Sample.waiting
  = (Raised TypeError, record (EvGetMe "tok") Sample.waiting).
Proof.
  apply (identity_without_id_raises Sample.cfg Cases.env_anonymous 222 "tok"
           Sample.waiting {[ "username" := "bob" ]}).
  - reflexivity.
  - apply (bool_decide_unpack _). by vm_compute.
  - reflexivity.
Defined.

(** ** What a callback never does *)

Lemma set_table_after (t : Table)
    (f : gmap string Value -> gmap string Value) (evs : list Event)
    (m : Machine) :
  set_table t f (after evs m) = after evs (set_table t f m).
Proof. unfold set_table, after. by destruct t, m as [? [] [] [] ?]. Qed.

Section Frame.

Variable cfg : Config.
Variable env : Env.

Lemma callback_frame_refl (m : Machine) : callback_frame m m.
Proof.
  split; [done |]. split; [done |]. split; [done |]. split; [done |].
  exists []. by rewrite app_nil_r.
Qed.

Lemma callback_frame_trans (m1 m2 m3 : Machine) :
  callback_frame m1 m2 -> callback_frame m2 m3 -> callback_frame m1 m3.
Proof.
  intros (Ht1 & Hl1 & Hp1 & Ho1 & evs1 & Hh1 & He1)
         (Ht2 & Hl2 & Hp2 & Ho2 & evs2 & Hh2 & He2).
  assert (forall a b, separate a b m2 = separate a b m1) as Hsep.
  { intros a b. unfold separate. by rewrite !Ho1. }
  rewrite (Hsep Log Tokens), (Hsep Log Pending) in Hl2.
  rewrite (Hsep Pending Tokens) in Hp2.
  split; [by etrans |].
  split; [intros Hs; by rewrite (Hl2 Hs), (Hl1 Hs) |].
  split; [intros Hs; etrans; [by apply Hp2 | by apply Hp1] |].
  split; [intros t; by rewrite Ho2, Ho1 |].
  exists (evs1 ++ evs2)%list. rewrite Hh2, Hh1, app_assoc. split; [done |].
  rewrite forallb_app. by rewrite He1, He2.
Qed.

Lemma callback_frame_record (e : Event) (m : Machine) :
  callback_event e = true -> callback_frame m (record e m).
Proof.
  intros He. split; [done |]. split; [done |]. split; [done |].
  split; [done |]. exists [e]. split; [done |].
  cbn. by rewrite He.
Qed.

Lemma callback_frame_after (evs : list Event) (m : Machine) :
  Forall (fun e => is_Some (role_call_member e)) evs ->
  callback_frame m (after evs m).
Proof.
  intros Hevs. split; [done |]. split; [done |]. split; [done |].
  split; [done |]. exists evs. split; [done |].
  induction Hevs as [| e evs' [member He] _ IH]; [done |].
  cbn. rewrite IH. by destruct e.
Qed.

(** The token stored under a key. *)
Lemma callback_frame_store (key : string) (access_token : Value) (m : Machine) :
  callback_frame m (set_tokens <[key := access_token]> m).
Proof.
  split; [rewrite table_set_same, dom_insert_L; set_solver |].
  split.
  { intros [Hlt _]%andb_true_iff. apply table_set_separate; [done |].
    by rewrite separate_sym. }
  split.
  { intros Hpt. rewrite table_set_separate; [done | done |].
    by rewrite separate_sym. }
  split; [intros t; apply own_set_table |].
  exists []. by rewrite history_set_table, app_nil_r.
Qed.

(** The pending record deleted and the token stored under the same key:
    the key stays in the token table also when the two are one dict. *)
Lemma callback_frame_settle (key : string) (access_token : Value) (m : Machine) :
  callback_frame m
    (set_tokens <[key := access_token]> (set_pending (delete key) m)).
Proof.
  split.
  { rewrite table_set_same, dom_insert_L.
    destruct (separate Pending Tokens m) eqn:Hsep.
    - rewrite table_set_separate by done. set_solver.
    - rewrite table_set_shared by done. rewrite dom_delete_L.
      intros k Hk. destruct (decide (k = key)) as [-> |]; set_solver. }
  split.
  { intros [Hlt Hlp]%andb_true_iff.
    rewrite table_set_separate;
      [| done | by rewrite separate_set_table, separate_sym].
    apply table_set_separate; [done | by rewrite separate_sym]. }
  split.
  { intros Hpt.
    rewrite table_set_separate;
      [| done | by rewrite separate_set_table, separate_sym].
    rewrite table_set_same. apply delete_subseteq. }
  split; [intros t; by rewrite !own_set_table |].
  exists []. by rewrite !history_set_table, app_nil_r.
Qed.

(** From the pending lookup on, for whatever user id was settled on. *)
Lemma reconcile_frame (user_id : Z) (access_token : string) (m : Machine) :
  callback_frame m
    (snd (bind get
            (fun m0 =>
               match pending_verifications m0 !! Py.str_of_int user_id with
               | Some guild_id =>
                   bind (verify_user_in_guild cfg env user_id guild_id)
                     (fun success =>
                        if success : bool then
                          bind (modify (set_pending (delete (Py.str_of_int user_id))))
                            (fun _ =>
                               bind (save_json_file PENDING_FILE)
                                 (fun _ =>
                                    bind (modify (set_tokens
                                                    <[Py.str_of_int user_id
                                                      := VStr access_token]>))
                                      (fun _ =>
                                         bind (save_json_file TOKENS_FILE)
                                           (fun _ => ret true))))
                        else ret false)
               | None =>
                   bind (modify (set_tokens
                                   <[Py.str_of_int user_id := VStr access_token]>))
                     (fun _ => bind (save_json_file TOKENS_FILE) (fun _ => ret false))
               end) m)).
Proof.
  unfold bind at 1, get.
  destruct (pending_verifications m !! Py.str_of_int user_id) as [guild_id |].
  - unfold bind at 1.
    destruct (verify_user_in_guild_run cfg env user_id guild_id m)
      as (r & evs & -> & Hevs & _).
    assert (Forall (fun e => is_Some (role_call_member e)) evs) as Hroles.
    { eapply Forall_impl; [exact Hevs |]. intros e ->. by eexists. }
    destruct r as [[|] | e];
      [| by apply callback_frame_after | by apply callback_frame_after].
    unfold bind, save_json_file, modify, ret. cbn [snd].
    rewrite set_table_after, set_table_record, set_table_after.
    eapply callback_frame_trans; [apply callback_frame_settle |].
    eapply callback_frame_trans; [by apply callback_frame_after |].
    eapply callback_frame_trans;
      [by apply (callback_frame_record (EvSave PENDING_FILE)) |].
    by apply (callback_frame_record (EvSave TOKENS_FILE)).
  - unfold bind, save_json_file, modify, ret. cbn [snd].
    eapply callback_frame_trans; [apply callback_frame_store |].
    by apply (callback_frame_record (EvSave TOKENS_FILE)).
Qed.

Lemma complete_verification_frame
    (user_id : Z) (access_token : string) (m : Machine) :
  callback_frame m (snd (complete_verification cfg env user_id access_token m)).
Proof.
  unfold complete_verification. unfold bind at 1. rewrite get_user_info_run.
  assert (callback_frame m (record (EvGetMe access_token) m)) as Hlookup
    by (by apply callback_frame_record).
  destruct (Py.truthy_dict _) as [user_info |]; [| done].
  unfold bind at 1.
  destruct (String.eqb _ _).
  - unfold ret at 1. eapply callback_frame_trans; [exact Hlookup |].
    apply reconcile_frame.
  - unfold int_of_opt. destruct (user_info !! "id") as [id_str |]; [| done].
    destruct (Py.int_of_str id_str) as [n |]; [| done].
    unfold ret at 1. eapply callback_frame_trans; [exact Hlookup |].
    apply reconcile_frame.
Qed.

End Frame.

(** Whatever the request and whatever the provider and the chat client
    answer, also when the handler raises: no key leaves the token table;
    the audit log, when it is another dict than the token and pending
    tables, is left alone; no pending record is added, when the pending
    table is another dict than the token table; and the effects are the
    two provider requests, role calls and saves: a callback sends no
    membership request, kicks nobody and never pauses. *)
Theorem callback_never
    (cfg : Config) (env : Env) (request : web.Request) (m : Machine) :
  let m' := snd (handle_callback cfg env request m) in
  dom (user_access_tokens m) ⊆ dom (user_access_tokens m')
  /\ (separate Log Tokens m && separate Log Pending m = true ->
      oauth2_adds_log m' = oauth2_adds_log m)
  /\ (separate Pending Tokens m = true ->
      pending_verifications m' ⊆ pending_verifications m)
  /\ exists evs,
       history m' = (history m ++ evs)%list
       /\ forallb callback_event evs = true
       /\ List.filter is_put evs = []
       /\ List.filter is_kick evs = []
       /\ List.filter is_sleep evs = [].
Proof.
  assert (callback_frame m (snd (handle_callback cfg env request m))) as Hframe.
  { unfold handle_callback.
    destruct (Py.truthy_str (web.code request)) as [code |];
      [| apply callback_frame_refl].
    unfold bind at 1. rewrite exchange_code_for_token_run.
    assert (callback_frame m (record (EvPostToken code) m)) as Hpost
      by (by apply callback_frame_record).
    destruct (Py.truthy_dict _ ≫= _) as [access_token |]; [| done].
    destruct (parse_state (web.state request)) as [user_id guild].
    eapply callback_frame_trans; [exact Hpost |].
    generalize (record (EvPostToken code) m). clear Hpost. intros m1.
    unfold bind at 1.
    assert (forall (r : Res (option Z)) (m2 : Machine),
              callback_frame m1 m2 ->
              callback_frame m1
                (snd match r with
                     | Ok a =>
                         bind match a with
                              | Some n =>
                                  if negb (n =? 0)%Z
                                  then bind (complete_verification cfg env n access_token)
                                         (fun _ => ret tt)
                                  else ret tt
                              | None => ret tt
                              end
                           (fun _ => ret (web.mkResponse html (Some "text/html"))) m2
                     | Raised e => (Raised e, m2)
                     end)) as Hrest.
    { intros [[n |] | e] m2 Hm2; [| done | done].
      unfold bind at 1. destruct (negb (n =? 0)%Z); [| done].
      unfold bind at 1.
      pose proof (complete_verification_frame cfg env n access_token m2) as Hcv.
      destruct (complete_verification cfg env n access_token m2) as [[b | e] m3];
        cbn [snd] in *; by eapply callback_frame_trans. }
    destruct (Py.truthy_int user_id).
    - exact (Hrest (Ok user_id) m1 (callback_frame_refl m1)).
    - unfold bind at 1. rewrite get_user_info_run.
      assert (callback_frame m1 (record (EvGetMe access_token) m1)) as Hlookup
        by (by apply callback_frame_record).
      destruct (Py.truthy_dict _) as [user_info |];
        [| exact (Hrest (Ok user_id) _ Hlookup)].
      unfold bind at 1, int_of_opt.
      destruct (user_info !! "id") as [id_str |];
        [| exact (Hrest (Raised TypeError) _ Hlookup)].
      destruct (Py.int_of_str id_str) as [n |];
        [| exact (Hrest (Raised ValueError) _ Hlookup)].
      exact (Hrest (Ok (Some n)) _ Hlookup). }
  destruct Hframe as (Htokens & Hlog & Hpending & _ & evs & Hhist & Hevs).
  cbn zeta. split; [done |]. split; [done |]. split; [done |].
  exists evs. split; [done |]. split; [done |].
  clear Hhist. induction evs as [| e evs IH]; [done |].
  cbn in Hevs. apply andb_true_iff in Hevs as [He Hevs].
  destruct (IH Hevs) as (Hp & Hk & Hs).
  by destruct e; cbn in *.
Qed.

(** ** Callbacks without a usable state, and repeated callbacks *)

Lemma set_table_twice (t : Table)
    (f g : gmap string Value -> gmap string Value) (m : Machine) :
  set_table t f (set_table t g m) = set_table t (fun d => f (g d)) m.
Proof. unfold set_table. by destruct t, m as [? [] [] [] ?]. Qed.

Lemma set_table_ext (t : Table)
    (f g : gmap string Value -> gmap string Value) (m : Machine) :
  (forall d, f d = g d) -> set_table t f m = set_table t g m.
Proof.
  intros Hfg. unfold set_table.
  destruct t, m as [? [] [] [] ?]; cbn; by rewrite Hfg.
Qed.

(** Without a user id from the state (no state, no colon, more than one
    colon, no numeral, or the id 0; the state being ASCII within the digit
    limit of [int()]) the callback asks the provider who the bearer is and
    reconciles under that id: with no pending record for it the token is
    stored, and that is the one write.  The identity is then looked up
    twice. *)
Theorem stateless_callback_stores_token
    (cfg : Config) (env : Env) (request : web.Request) (code : string)
    (m : Machine) (token_data user_info : gmap string string)
    (access_token id_str : string) (n : Z) :
  Py.truthy_str (web.code request) = Some code ->
  post_token env (history m) code = Resp 200 (Some token_data) ->
  token_data !! "access_token" = Some access_token ->
  (forall s, web.state request = Some s -> Py.plain s = true) ->
  Py.truthy_int (fst (parse_state (web.state request))) = false ->
  (forall h, get_me env h access_token = Resp 200 (Some user_info)) ->
  user_info !! "id" = Some id_str ->
  Py.int_of_str id_str = Some n ->
  n <> 0 ->
  pending_verifications m !! Py.str_of_int n = None ->
  exists m',
    handle_callback cfg env request m
    = (Ok (web.mkResponse html (Some "text/html")), m')
    /\ tables m'
       = tables (set_tokens <[Py.str_of_int n := VStr access_token]> m)
    /\ user_access_tokens m'
       = <[Py.str_of_int n := VStr access_token]> (user_access_tokens m)
    /\ history m'
       = (history m
            ++ [EvPostToken code; EvGetMe access_token; EvGetMe access_token;
                EvSave TOKENS_FILE])%list.
Proof.
  intros Hcode Hpost Htoken _ Hstate Hme Hid Hint Hn Hpending.
  unfold handle_callback. rewrite Hcode.
  unfold bind at 1. rewrite exchange_code_for_token_run, Hpost.
  cbn [Z.eqb Pos.eqb]. rewrite (truthy_dict_lookup _ _ _ Htoken).
  cbn [mbind option_bind]. rewrite Htoken.
  destruct (parse_state (web.state request)) as [user_id guild].
  cbn [fst] in Hstate. rewrite Hstate.
  unfold bind at 1. unfold bind at 1. rewrite get_user_info_run, Hme.
  cbn [Z.eqb Pos.eqb]. rewrite (truthy_dict_lookup _ _ _ Hid), Hid.
  unfold int_of_opt. rewrite Hint. unfold bind at 1, ret at 1, ret at 1.
  destruct (Z.eqb_spec n 0) as [-> | _]; [done |]. cbn [negb].
  unfold bind at 1. unfold bind at 1.
  rewrite (complete_verification_run cfg env n access_token _ user_info id_str n
             (Hme _) Hid Hint).
  cbn zeta.
  change (pending_verifications (record ?e (record ?e' m)))
    with (pending_verifications m).
  rewrite Hpending.
  eexists. split; [done |].
  assert (tables
            (record (EvSave TOKENS_FILE)
               (set_tokens <[Py.str_of_int n := VStr access_token]>
                  (record (EvGetMe access_token)
                     (record (EvGetMe access_token)
                        (record (EvPostToken code) m)))))
          = tables (set_tokens <[Py.str_of_int n := VStr access_token]> m))
    as Htables.
  { change (tables (record ?e ?m0)) with (tables m0).
    by apply tables_set_table. }
  split; [done |].
  split; [by rewrite (tables_table _ _ _ Htables), table_set_same |].
  histories. by rewrite <- !app_assoc.
Qed.

Lemma stateless_callback_stores_token_witness :
  exists m',
    handle_callback Sample.cfg Sample.env
      {| web.code := Some "c0de"; web.state := Some "no-colon" |} Sample.idle
    = (Ok (web.mkResponse html (Some "text/html")), m')
    /\ tables m' = tables (set_tokens <["222" := VStr "tok"]> Sample.idle)
    /\ user_access_tokens m'
       = <["222" := VStr "tok"]> (user_access_tokens Sample.idle)
    /\ history m'
       = (history Sample.idle
            ++ [EvPostToken "c0de"; EvGetMe "tok"; EvGetMe "tok";
                EvSave TOKENS_FILE])%list.
Proof.
  apply (stateless_callback_stores_token Sample.cfg Sample.env
           {| web.code := Some "c0de"; web.state := Some "no-colon" |} "c0de"
           Sample.idle {[ "access_token" := "tok" ]} Sample.identity
           "tok" "222" 222); try reflexivity.
  - intros s [= <-]. reflexivity.
  - lia.
Defined.

(** Where the token and pending tables are two dicts: a second callback
    for the same user after a successful reconciliation finds no pending
    record, replaces the stored token by the newer one and answers
    [False]: the last token wins and the pending record stays deleted. *)
Theorem repeated_callback_last_token_wins
    (cfg : Config) (env : Env) (user_id1 user_id2 : Z)
    (token1 token2 : string) (m : Machine)
    (user_info : gmap string string) (id_str : string) (n : Z)
    (guild_id : Value) :
  separate Tokens Pending m = true ->
  (forall h, get_me env h token1 = Resp 200 (Some user_info)) ->
  (forall h, get_me env h token2 = Resp 200 (Some user_info)) ->
  user_info !! "id" = Some id_str ->
  Py.int_of_str id_str = Some n ->
  pending_verifications m !! Py.str_of_int n = Some guild_id ->
  fst (verify_user_in_guild cfg env n guild_id (record (EvGetMe token1) m))
  = Ok true ->
  let first := complete_verification cfg env user_id1 token1 m in
  let second := complete_verification cfg env user_id2 token2 (snd first) in
  fst first = Ok true
  /\ fst second = Ok false
  /\ tables (snd second)
     = tables (set_tokens <[Py.str_of_int n := VStr token2]>
                 (set_pending (delete (Py.str_of_int n)) m))
  /\ user_access_tokens (snd second)
     = <[Py.str_of_int n := VStr token2]> (user_access_tokens m)
  /\ pending_verifications (snd second)
     = delete (Py.str_of_int n) (pending_verifications m).
Proof.
  intros Hsep Hme1 Hme2 Hid Hint Hpending Hroles first second.
  subst second first.
  destruct (reconciled_tables cfg env user_id1 token1 m user_info id_str n
              guild_id (Hme1 _) Hid Hint Hpending Hroles)
    as (m1 & Hrun1 & Htables1 & _ & Hsep1).
  destruct (Hsep1 Hsep) as [Hpending1 Htokens1].
  rewrite Hrun1. cbn [fst snd]. split; [done |].
  destruct (complete_verification_tables cfg env user_id2 token2 m1
              user_info id_str n (Hme2 _) Hid Hint)
    as (r & m2 & evs & Hrun2 & _ & _ & _ & Hcase).
  rewrite Hpending1, lookup_delete_eq in Hcase. destruct Hcase as [-> Htables2].
  rewrite Hrun2. cbn [fst snd]. split; [done |].
  assert (tables m2
          = tables (set_tokens <[Py.str_of_int n := VStr token2]>
                      (set_pending (delete (Py.str_of_int n)) m))) as Htables.
  { rewrite Htables2.
    rewrite (tables_set_table _ _ _ _ Htables1), set_table_twice.
    f_equal. apply set_table_ext. intros d. apply insert_insert_eq. }
  split; [done |].
  rewrite !(tables_table _ _ _ Htables), table_set_same.
  split.
  - f_equal. apply table_set_separate; [done |]. by rewrite separate_sym.
  - rewrite table_set_separate;
      [by rewrite table_set_same | done | by rewrite separate_set_table].
Qed.

Lemma repeated_callback_last_token_wins_witness :
  let first := complete_verification Sample.cfg Sample.env 222 "tok" Sample.waiting in
  let second := complete_verification Sample.cfg Sample.env 222 "tok2" (snd first) in
  fst first = Ok true
  /\ fst second = Ok false
  /\ tables (snd second)
     = tables (set_tokens <["222" := VStr "tok2"]>
                 (set_pending (delete "222") Sample.waiting))
  /\ user_access_tokens (snd second)
     = <["222" := VStr "tok2"]> (user_access_tokens Sample.waiting)
  /\ pending_verifications (snd second)
     = delete "222" (pending_verifications Sample.waiting).
Proof.
  apply (repeated_callback_last_token_wins Sample.cfg Sample.env 222 222
           "tok" "tok2" Sample.waiting Sample.identity "222" 222 (VInt 5));
    reflexivity.
Defined.
(** ** Initiation: the button and [!verify] *)

Section Initiation.

Variable cfg : Config.
Variable env : Env.
Variable client : Client.

Ltac branch :=
  match goal with
  | |- context [if ?b then _ else _] => destruct b eqn:?
  | |- context [match ?x with Kicked => _ | _ => _ end] => destruct x eqn:?
  end.

(** The end of an initiation changes nothing in the machine; it tells
    [CheckDMs] or [EnableDMs], or raises when the last reply fails. *)
Lemma send_link_run (member_id : Z) (m : Machine) :
  exists r,
    send_link client member_id m = (r, m)
    /\ match r with
       | Ok CheckDMs | Ok EnableDMs | Raised _ => True
       | Ok _ => False
       end.
Proof.
  unfold send_link, try_except, bind, member_send, reply.
  repeat branch; by eexists.
Qed.

(** A run of the button: [stored] tells whether the pending record was
    written; the notice tells it too. *)
Lemma start_verify_run (member_id guild : Z) (m : Machine) :
  exists r evs (stored : bool),
    start_verify cfg env client member_id guild m
    = (r, after evs
            (if stored
             then set_pending <[Py.str_of_int member_id := VInt guild]> m
             else m))
    /\ match r with
       | Ok CheckDMs | Ok EnableDMs => stored = true
       | Ok _ => stored = false
       | Raised _ => True
       end.
Proof.
  unfold start_verify, store_pending, save_json_file, modify.
  unfold bind at 1, guild_get_role. unfold bind at 1.
  assert (forall m0 : Machine,
            exists r evs (stored : bool),
              bind (guild_get_role env guild (UNVERIFIED_ROLE_ID cfg))
                (fun unverified_role =>
                   if negb unverified_role then reply client NotConfigured
                   else
                     bind (role_in_member_roles env guild member_id
                             (UNVERIFIED_ROLE_ID cfg))
                       (fun worn =>
                          bind (if worn : bool then ret true
                                else try_except
                                       (bind (member_add_roles env guild member_id
                                                (UNVERIFIED_ROLE_ID cfg))
                                          (fun _ => ret true))
                                       (ret false))
                            (fun assigned =>
                               if negb assigned
                               then reply client CannotAssignRoles
                               else
                                 bind (bind (fun m1 =>
                                               (Ok tt,
                                                set_pending
                                                  <[Py.str_of_int member_id := VInt guild]> m1))
                                         (fun _ m1 =>
                                            (Ok tt, record (EvSave PENDING_FILE) m1)))
                                   (fun _ => send_link client member_id)))) m0
              = (r, after evs
                      (if stored
                       then set_pending <[Py.str_of_int member_id := VInt guild]> m0
                       else m0))
              /\ match r with
                 | Ok CheckDMs | Ok EnableDMs => stored = true
                 | Ok _ => stored = false
                 | Raised _ => True
                 end) as Hrest.
  { intros m0.
    unfold bind at 1, guild_get_role.
    destruct (role_cached env (history m0) guild (UNVERIFIED_ROLE_ID cfg));
      cbn [negb].
    2: { unfold reply. branch; eexists _, [], false; by rewrite after_nil. }
    unfold bind at 1, role_in_member_roles.
    destruct (member_has_role env (history m0) guild member_id
                (UNVERIFIED_ROLE_ID cfg)).
    - unfold bind at 1, ret at 1. cbn [negb].
      unfold bind at 1. unfold bind at 1. cbn beta iota.
      destruct (send_link_run member_id
                  (record (EvSave PENDING_FILE)
                     (set_pending <[Py.str_of_int member_id := VInt guild]> m0)))
        as (r & -> & Hr).
      exists r, [EvSave PENDING_FILE], true. split; [done |].
      by destruct r as [[] |].
    - unfold bind at 1, try_except, member_add_roles. unfold bind at 1.
      destruct (role_call_ok env (history m0) guild member_id
                  (UNVERIFIED_ROLE_ID cfg)).
      + unfold ret at 1. cbn [negb].
        unfold bind at 1. unfold bind at 1. cbn beta iota.
        destruct (send_link_run member_id
                    (record (EvSave PENDING_FILE)
                       (set_pending <[Py.str_of_int member_id := VInt guild]>
                          (record (EvAddRoles guild member_id
                                     (UNVERIFIED_ROLE_ID cfg)) m0))))
          as (r & -> & Hr).
        exists r, [EvAddRoles guild member_id (UNVERIFIED_ROLE_ID cfg);
                   EvSave PENDING_FILE], true.
        split; [rewrite set_table_record; unfold after, record; cbn;
                by rewrite <- app_assoc |].
        by destruct r as [[] |].
      + unfold ret at 1. cbn [negb]. unfold reply.
        branch;
          eexists _, [EvAddRoles guild member_id (UNVERIFIED_ROLE_ID cfg)], false;
          done. }
  destruct (role_cached env (history m) guild (VERIFIED_ROLE_ID cfg)).
  - unfold role_in_member_roles.
    destruct (member_has_role env (history m) guild member_id
                (VERIFIED_ROLE_ID cfg)).
    + unfold reply. branch; eexists _, [], false; by rewrite after_nil.
    + apply Hrest.
  - unfold ret at 1. apply Hrest.
Qed.

Lemma verify_command_run (member_id guild : Z) (m : Machine) :
  exists r (stored : bool),
    verify_command cfg env client member_id guild m
    = (r, if stored
          then record (EvSave PENDING_FILE)
                 (set_pending <[Py.str_of_int member_id := VInt guild]> m)
          else m)
    /\ (stored = false ->
        exists h,
          role_cached env h guild (VERIFIED_ROLE_ID cfg) = true
          /\ member_has_role env h guild member_id (VERIFIED_ROLE_ID cfg) = true)
    /\ match r with
       | Ok CheckDMs | Ok EnableDMs => stored = true
       | Ok _ => stored = false
       | Raised _ => True
       end.
Proof.
  unfold verify_command, store_pending, save_json_file, modify.
  unfold bind at 1, guild_get_role. unfold bind at 1.
  assert (exists r,
            bind (bind (fun m1 =>
                          (Ok tt,
                           set_pending <[Py.str_of_int member_id := VInt guild]> m1))
                    (fun _ m1 => (Ok tt, record (EvSave PENDING_FILE) m1)))
              (fun _ => send_link client member_id) m
            = (r, record (EvSave PENDING_FILE)
                    (set_pending <[Py.str_of_int member_id := VInt guild]> m))
            /\ match r with
               | Ok CheckDMs | Ok EnableDMs => True
               | Ok _ => False
               | Raised _ => True
               end) as (r & Hrun & Hr).
  { unfold bind at 1. unfold bind at 1. cbn beta iota.
    destruct (send_link_run member_id
                (record (EvSave PENDING_FILE)
                   (set_pending <[Py.str_of_int member_id := VInt guild]> m)))
      as (r & -> & Hr). by exists r. }
  destruct (role_cached env (history m) guild (VERIFIED_ROLE_ID cfg)) eqn:Hrole.
  - unfold role_in_member_roles.
    destruct (member_has_role env (history m) guild member_id
                (VERIFIED_ROLE_ID cfg)) eqn:Hworn.
    + unfold reply. branch; eexists _, false; (split; [done |]);
        (split; [| done]); intros _; by exists (history m).
    + exists r, true. rewrite Hrun. split; [done |]. split; [done |].
      by destruct r as [[] |].
  - unfold ret at 1. exists r, true. rewrite Hrun. split; [done |].
    split; [done |]. by destruct r as [[] |].
Qed.

End Initiation.

(** The notice of the button tells what happened to the pending table: with
    "check your DMs" or "enable DMs" the record of the member was written
    to the guild of the click, through the name [pending_verifications],
    and that is the one write; with any other notice every table is as it
    was.  The record is written before the direct message is tried, so a
    member with closed DMs has it too. *)
Theorem button_notice_tells_pending
    (cfg : Config) (env : Env) (client : Client) (member_id guild : Z)
    (m : Machine) :
  let r := fst (start_verify cfg env client member_id guild m) in
  let m' := snd (start_verify cfg env client member_id guild m) in
  let written := set_pending <[Py.str_of_int member_id := VInt guild]> m in
  match r with
  | Ok CheckDMs | Ok EnableDMs =>
      tables m' = tables written
      /\ pending_verifications m'
         = <[Py.str_of_int member_id := VInt guild]> (pending_verifications m)
  | Ok _ => tables m' = tables m
  | Raised _ => tables m' = tables m \/ tables m' = tables written
  end.
Proof.
  destruct (start_verify_run cfg env client member_id guild m)
    as (r & evs & stored & -> & Hr).
  cbn [fst snd]. cbn zeta.
  change (tables (after evs ?m0)) with (tables m0).
  change (pending_verifications (after evs ?m0)) with (pending_verifications m0).
  destruct stored.
  - rewrite table_set_same. destruct r as [[] |]; try done. by right.
  - destruct r as [[] |]; try done. by left.
Qed.

(** Two initiations by a member who is not verified, from guild [guild1]
    and then from [guild2]: the second overwrites the first.  The pending
    table is the original one with the single record of the member, to
    [guild2], whatever became of the direct messages and replies. *)
Theorem initiation_overwrites
    (cfg : Config) (env : Env) (client : Client) (member_id guild1 guild2 : Z)
    (m : Machine) :
  (forall h guild,
     member_has_role env h guild member_id (VERIFIED_ROLE_ID cfg) = false) ->
  let m1 := snd (verify_command cfg env client member_id guild1 m) in
  let m2 := snd (verify_command cfg env client member_id guild2 m1) in
  pending_verifications m1
  = <[Py.str_of_int member_id := VInt guild1]> (pending_verifications m)
  /\ pending_verifications m2
     = <[Py.str_of_int member_id := VInt guild2]> (pending_verifications m)
  /\ size (pending_verifications m2) = size (pending_verifications m1).
Proof.
  intros Hnot m1 m2. subst m2 m1.
  destruct (verify_command_run cfg env client member_id guild1 m)
    as (r1 & stored1 & -> & Hwhy1 & _).
  destruct stored1.
  2: { destruct (Hwhy1 eq_refl) as (h & _ & Hworn). by rewrite Hnot in Hworn. }
  cbn [snd].
  destruct (verify_command_run cfg env client member_id guild2
              (record (EvSave PENDING_FILE)
                 (set_pending <[Py.str_of_int member_id := VInt guild1]> m)))
    as (r2 & stored2 & -> & Hwhy2 & _).
  destruct stored2.
  2: { destruct (Hwhy2 eq_refl) as (h & _ & Hworn). by rewrite Hnot in Hworn. }
  cbn [snd].
  change (pending_verifications (record ?e ?m0)) with (pending_verifications m0).
  rewrite set_table_record.
  change (pending_verifications (record ?e ?m0)) with (pending_verifications m0).
  rewrite !table_set_same.
  rewrite insert_insert_eq. split; [done |]. split; [done |].
  destruct (pending_verifications m !! Py.str_of_int member_id) eqn:Hold.
  - by rewrite !map_size_insert_Some.
  - by rewrite !map_size_insert_None.
Qed.

Lemma initiation_overwrites_witness :
  let m1 := snd (verify_command Sample.cfg Cases.env_newcomers Clients.dm_closed
                   222 5 Sample.idle) in
  let m2 := snd (verify_command Sample.cfg Cases.env_newcomers Clients.dm_closed
                   222 6 m1) in
  pending_verifications m1
  = <["222" := VInt 5]> (pending_verifications Sample.idle)
  /\ pending_verifications m2
     = <["222" := VInt 6]> (pending_verifications Sample.idle)
  /\ size (pending_verifications m2) = size (pending_verifications m1).
Proof.
  apply (initiation_overwrites Sample.cfg Cases.env_newcomers Clients.dm_closed
           222 5 6 Sample.idle).
  intros h guild. reflexivity.
Defined.

Lemma parse_state_of_state_data (member_id guild : Z) :
  parse_state (Some (state_data member_id guild)) = (Some member_id, Some guild).
Proof.
  unfold parse_state, Py.truthy_str.
  pose proof (state_data_has_colon member_id guild) as Hcolon.
  destruct (String.eqb_spec (state_data member_id guild) "") as [Hnil | _].
  { rewrite Hnil in Hcolon. discriminate. }
  rewrite Hcolon, state_data_parts. by rewrite !int_of_str_of_int.
Qed.

(** The whole flow for one member, where the token and pending tables are
    two dicts: the button is pressed and answers with one of its two link
    notices; the provider then calls back with the state of that click,
    grants a token and names the same member, and the role change works.
    After the callback the member has no pending record and the granted
    token is stored for them; apart from that the pending and token tables
    are as before the click, and the audit log, when it is a third dict,
    is untouched.  The member id must not be 0, which the callback takes
    for a missing id. *)
Theorem click_then_callback
    (cfg : Config) (env : Env) (client : Client) (member_id guild : Z)
    (m : Machine) (code access_token : string)
    (token_data user_info : gmap string string) :
  separate Tokens Pending m = true ->
  member_id <> 0 ->
  (fst (start_verify cfg env client member_id guild m) = Ok CheckDMs
   \/ fst (start_verify cfg env client member_id guild m) = Ok EnableDMs) ->
  let m1 := snd (start_verify cfg env client member_id guild m) in
  code <> "" ->
  post_token env (history m1) code = Resp 200 (Some token_data) ->
  token_data !! "access_token" = Some access_token ->
  get_me env (history m1 ++ [EvPostToken code]) access_token
  = Resp 200 (Some user_info) ->
  user_info !! "id" = Some (Py.str_of_int member_id) ->
  fst (verify_user_in_guild cfg env member_id (VInt guild)
         (record (EvGetMe access_token) (record (EvPostToken code) m1)))
  = Ok true ->
  exists m2,
    handle_callback cfg env
      {| web.code := Some code;
         web.state := Some (state_data member_id guild) |} m1
    = (Ok (web.mkResponse html (Some "text/html")), m2)
    /\ pending_verifications m2 !! Py.str_of_int member_id = None
    /\ pending_verifications m2
       = delete (Py.str_of_int member_id) (pending_verifications m)
    /\ user_access_tokens m2
       = <[Py.str_of_int member_id := VStr access_token]> (user_access_tokens m)
    /\ (separate Log Tokens m && separate Log Pending m = true ->
        oauth2_adds_log m2 = oauth2_adds_log m).
Proof.
  intros Hsep Hmember Hnotice m1 Hcode Hpost Htoken Hme Hid Hroles.
  subst m1.
  destruct (start_verify_run cfg env client member_id guild m)
    as (r & evs & stored & Hrun & Hr).
  rewrite Hrun in *. cbn [fst snd] in *.
  assert (stored = true) as ->.
  { destruct Hnotice as [-> | ->]; exact Hr. }
  set (key := Py.str_of_int member_id) in *.
  set (m1 := after evs (set_pending <[key := VInt guild]> m)) in *.
  unfold handle_callback. cbn [web.code web.state].
  rewrite (truthy_str_nonempty _ Hcode).
  unfold bind at 1. rewrite exchange_code_for_token_run, Hpost.
  cbn [Z.eqb Pos.eqb]. rewrite (truthy_dict_lookup _ _ _ Htoken).
  cbn [mbind option_bind]. rewrite Htoken.
  rewrite parse_state_of_state_data.
  assert (Py.truthy_int (Some member_id) = true) as ->.
  { cbn. by destruct (Z.eqb_spec member_id 0). }
  unfold bind at 1, ret at 1.
  destruct (Z.eqb_spec member_id 0) as [? | _]; [done |]. cbn [negb].
  unfold bind at 1. unfold bind at 1.
  assert (tables (record (EvPostToken code) m1)
          = tables (set_pending <[key := VInt guild]> m)) as Htables1 by done.
  assert (pending_verifications (record (EvPostToken code) m1) !! key
          = Some (VInt guild)) as Hpending.
  { rewrite (tables_table _ _ _ Htables1), table_set_same.
    by rewrite lookup_insert_eq. }
  destruct (reconciled_tables cfg env member_id access_token
              (record (EvPostToken code) m1) user_info key member_id
              (VInt guild) Hme Hid (int_of_str_of_int member_id)
              Hpending Hroles)
    as (m2 & -> & Htables2 & _ & _).
  fold key in Htables2.
  assert (tables m2
          = tables (set_tokens <[key := VStr access_token]>
                      (set_pending (delete key) m))) as Htables.
  { rewrite Htables2.
    apply tables_set_table.
    rewrite (tables_set_table _ _ _ _ Htables1), set_table_twice.
    f_equal. apply set_table_ext. intros d. apply delete_insert_eq. }
  exists m2. split; [done |].
  rewrite !(tables_table _ _ _ Htables), table_set_same.
  assert (pending_verifications
            (set_tokens <[key := VStr access_token]> (set_pending (delete key) m))
          = delete key (pending_verifications m)) as ->.
  { rewrite table_set_separate;
      [by rewrite table_set_same | done | by rewrite separate_set_table]. }
  split; [by rewrite lookup_delete_eq |]. split; [done |].
  split.
  - f_equal. apply table_set_separate; [done |]. by rewrite separate_sym.
  - intros [Hlt Hlp]%andb_true_iff.
    rewrite table_set_separate;
      [| done | by rewrite separate_set_table, separate_sym].
    apply table_set_separate; [done | by rewrite separate_sym].
Qed.

Lemma click_then_callback_witness :
  exists m2,
    handle_callback Sample.cfg Sample.env
      {| web.code := Some "c0de"; web.state := Some (state_data 222 5) |}
      (snd (start_verify Sample.cfg Sample.env Clients.obliging 222 5 Sample.idle))
    = (Ok (web.mkResponse html (Some "text/html")), m2)
    /\ pending_verifications m2 !! "222" = None
    /\ pending_verifications m2 = delete "222" (pending_verifications Sample.idle)
    /\ user_access_tokens m2
       = <["222" := VStr "tok"]> (user_access_tokens Sample.idle)
    /\ (separate Log Tokens Sample.idle && separate Log Pending Sample.idle = true ->
        oauth2_adds_log m2 = oauth2_adds_log Sample.idle).
Proof.
  apply (click_then_callback Sample.cfg Sample.env Clients.obliging 222 5
           Sample.idle "c0de" "tok" {[ "access_token" := "tok" ]}
           Sample.identity); try reflexivity.
  - lia.
  - left. reflexivity.
  - discriminate.
Defined.

(** ** The audit log and its counters *)

Lemma total_adds_grow (log : gmap string Value) (key : string)
    (entry : LogEntry) :
  (forall v, log !! key = Some v -> exists entries, v = VLog entries) ->
  total_adds (<[key := VLog (entries_of (log !! key) ++ [entry])]> log)
  = S <$> total_adds log.
Proof.
  intros Hlist. unfold total_adds.
  set (f := fun (_ : string) (v : Value) (acc : option nat) =>
              n ← value_len v; a ← acc; Some (n + a)%nat).
  assert (forall (j1 j2 : string) (z1 z2 : Value) (y : option nat),
            f j1 z1 (f j2 z2 y) = f j2 z2 (f j1 z1 y)) as Hcomm.
  { intros j1 j2 z1 z2 y. subst f. cbn.
    destruct (value_len z1) as [n1 |], (value_len z2) as [n2 |], y as [a |];
      cbn; try done. f_equal. lia. }
  destruct (log !! key) as [old |] eqn:Hold.
  - destruct (Hlist old eq_refl) as [entries ->]. cbn [entries_of].
    rewrite <- insert_delete_eq.
    rewrite map_fold_insert_L; [| intros; apply Hcomm | by rewrite lookup_delete_eq].
    rewrite (map_fold_delete_L f _ key (VLog entries) log);
      [| intros; apply Hcomm | done].
    subst f. cbn. rewrite length_app. cbn [length].
    destruct (map_fold _ _ (delete key log)) as [a |]; cbn; [| done].
    f_equal. lia.
  - cbn [entries_of app].
    rewrite map_fold_insert_L; [| intros; apply Hcomm | done].
    subst f. cbn. by destruct (map_fold _ _ log).
Qed.

Lemma entries_prefix_grow (log : gmap string Value) (key other : string)
    (entry : LogEntry) :
  entries_of (log !! other)
    `prefix_of`
  entries_of (<[key := VLog (entries_of (log !! key) ++ [entry])]> log !! other).
Proof.
  destruct (decide (key = other)) as [-> | Hne].
  - rewrite lookup_insert_eq. cbn. by apply prefix_app_r.
  - by rewrite lookup_insert_ne.
Qed.

(** The log after one redirection: as it was, or grown by one entry under
    the key of the user, which then held a list or nothing. *)
Lemma add_user_log (env : Env) (user_id : string) (access_token : Value)
    (guild : Z) (m : Machine) :
  exists success m' evs,
    add_user_to_guild_via_oauth2 env user_id access_token guild m
    = (Ok success, m')
    /\ history m' = (history m ++ evs)%list
    /\ List.filter is_kick evs = []
    /\ if success then
         exists entry,
           (forall v, oauth2_adds_log m !! user_id = Some v ->
                      exists entries, v = VLog entries)
           /\ sliceable access_token = true
           /\ match classify (put_member env (history m) guild user_id
                                access_token) with
              | Added | AlreadyMember => True
              | _ => False
              end
           /\ oauth2_adds_log m'
              = <[user_id :=
                    VLog (entries_of (oauth2_adds_log m !! user_id) ++ [entry])]>
                  (oauth2_adds_log m)
       else oauth2_adds_log m' = oauth2_adds_log m.
Proof.
  rewrite add_user_to_guild_via_oauth2_run.
  destruct (sliceable access_token); [| exists false, m, []; by rewrite app_nil_r].
  cbn zeta.
  set (m1 := record (EvPutMember guild user_id access_token) m).
  assert (forall entry,
            exists success m' evs,
              match oauth2_adds_log m !! user_id with
              | None =>
                  (Ok true,
                   record (EvSave OAUTH2_ADDS_FILE)
                     (set_log <[user_id := VLog [entry]]> m1))
              | Some (VLog entries) =>
                  (Ok true,
                   record (EvSave OAUTH2_ADDS_FILE)
                     (set_log <[user_id := VLog (entries ++ [entry])]> m1))
              | Some _ => (Ok false, m1)
              end = (Ok success, m')
              /\ history m' = (history m ++ evs)%list
              /\ List.filter is_kick evs = []
              /\ if success then
                   (forall v, oauth2_adds_log m !! user_id = Some v ->
                              exists entries, v = VLog entries)
                   /\ oauth2_adds_log m'
                      = <[user_id :=
                            VLog (entries_of (oauth2_adds_log m !! user_id)
                                    ++ [entry])]>
                          (oauth2_adds_log m)
                 else oauth2_adds_log m' = oauth2_adds_log m) as Hlogged.
  { intros entry. subst m1.
    destruct (oauth2_adds_log m !! user_id) as [[s | n | entries] |] eqn:Hlog.
    1, 2: by eexists false, _, [EvPutMember guild user_id access_token].
    all: eexists true, _,
           [EvPutMember guild user_id access_token; EvSave OAUTH2_ADDS_FILE];
      (split; [done |]);
      (split; [histories; by rewrite <- app_assoc |]);
      (split; [done |]);
      (split; [intros v [= <-]; by eexists || intros v [=] |]);
      change (oauth2_adds_log (record ?e ?m0)) with (oauth2_adds_log m0);
      rewrite set_table_record;
      change (oauth2_adds_log (record ?e ?m0)) with (oauth2_adds_log m0);
      by rewrite table_set_same. }
  destruct (classify _) eqn:Hclass.
  1: destruct (Hlogged {| timestamp := utcnow env (history m1); guild_id := guild;
                          method := "oauth2_guilds_join" |})
       as (success & m' & evs & Hrun & Hh & Hk & Hl).
  2: destruct (Hlogged {| timestamp := utcnow env (history m1); guild_id := guild;
                          method := "already_member" |})
       as (success & m' & evs & Hrun & Hh & Hk & Hl).
  1, 2: rewrite Hrun; exists success, m', evs;
    (split; [done |]); (split; [done |]); (split; [done |]);
    destruct success; [| done]; destruct Hl as [Hlist Hl];
    eexists; by rewrite ?Hclass.
  all: by exists false, m1, [EvPutMember guild user_id access_token].
Qed.

(** One redirection and the counters of [!tokenstatus], for a token that
    can be sent and a log that holds a list for the user or nothing: a
    success ([Added] or [AlreadyMember]) raises the count of the user and
    the total by one, and the number of users in the log by one when the
    user was not in it; a failure changes no counter.  The counts of the
    other users never change, and what was in the log of any user is still
    there, in front.  A counter is [None] where [len] raises on an [int]
    found in the log. *)
Theorem redirect_counters
    (env : Env) (member_id : Z) (access_token : Value) (guild : Z)
    (m : Machine) :
  let user_id := Py.str_of_int member_id in
  let log := oauth2_adds_log m in
  let log' :=
    oauth2_adds_log
      (snd (add_user_to_guild_via_oauth2 env user_id access_token guild m)) in
  let gained :=
    match classify (put_member env (history m) guild user_id access_token) with
    | Added | AlreadyMember => 1%nat
    | Forbidden | OtherError => 0%nat
    end in
  sliceable access_token = true ->
  (forall v, log !! user_id = Some v -> exists entries, v = VLog entries) ->
  redirect_count log' member_id
  = Some (length (entries_of (log !! user_id)) + gained)%nat
  /\ (forall other, other <> member_id ->
        redirect_count log' other = redirect_count log other)
  /\ total_adds log' = (fun total => (total + gained)%nat) <$> total_adds log
  /\ unique_redirected log'
     = (unique_redirected log
        + match log !! user_id with Some _ => 0 | None => gained end)%nat
  /\ forall other, entries_of (log !! other) `prefix_of` entries_of (log' !! other).
Proof.
  intros user_id log log' gained Hslice Hlist. subst log' gained.
  destruct (add_user_log env user_id access_token guild m)
    as (success & m' & evs & Hrun & _ & _ & Hlog).
  rewrite Hrun. cbn [snd]. fold log in Hlog, Hlist |- *.
  destruct success.
  - destruct Hlog as (entry & _ & _ & Hclass & ->).
    assert (match classify (put_member env (history m) guild user_id access_token)
            with Added | AlreadyMember => 1%nat | _ => 0%nat end = 1%nat) as ->.
    { by destruct (classify _). }
    split.
    { unfold redirect_count. fold user_id. rewrite lookup_insert_eq. cbn.
      by rewrite length_app. }
    split.
    { intros other Hother. unfold redirect_count.
      rewrite lookup_insert_ne; [done |].
      intros Heq. by apply str_of_int_inj in Heq. }
    split.
    { rewrite (total_adds_grow log user_id entry Hlist).
      destruct (total_adds log); cbn; [f_equal; lia | done]. }
    split.
    { unfold unique_redirected.
      destruct (log !! user_id) eqn:Hold.
      + rewrite map_size_insert_Some by done. lia.
      + rewrite map_size_insert_None by done. lia. }
    intros other. apply entries_prefix_grow.
  - rewrite Hlog.
    assert (match classify (put_member env (history m) guild user_id access_token)
            with Added | AlreadyMember => 1%nat | _ => 0%nat end = 0%nat) as ->.
    { destruct (redirect_one_logged env user_id access_token guild m
                  Hslice Hlist) as (r & m2 & evs2 & Hrun2 & _ & Hcase).
      rewrite Hrun in Hrun2. injection Hrun2 as <- <-.
      destruct (classify _); [by destruct Hcase | by destruct Hcase | done | done]. }
    split.
    { unfold redirect_count. fold user_id.
      destruct (log !! user_id) as [v |] eqn:Hold; [| done].
      destruct (Hlist v eq_refl) as [entries ->]. cbn. f_equal. lia. }
    split; [done |].
    split; [destruct (total_adds log); cbn; [f_equal; lia | done] |].
    split; [by destruct (log !! user_id); lia | done].
Qed.

Lemma redirect_counters_witness :
  let log := oauth2_adds_log Sample.ready in
  let log' :=
    oauth2_adds_log
      (snd (add_user_to_guild_via_oauth2 Sample.env "222" (VStr "tok") 900
              Sample.ready)) in
  redirect_count log' 222 = Some 1%nat
  /\ (forall other, other <> 222 ->
        redirect_count log' other = redirect_count log other)
  /\ total_adds log' = Some 1%nat
  /\ unique_redirected log' = 1%nat
  /\ forall other, entries_of (log !! other) `prefix_of` entries_of (log' !! other).
Proof.
  apply (redirect_counters Sample.env 222 (VStr "tok") 900 Sample.ready).
  - reflexivity.
  - intros v Hv. vm_compute in Hv. discriminate Hv.
Defined.

(** ** The batch: audit log, kicks, and a failing progress edit *)

Section BatchAudit.

Local Open Scope nat_scope.

Variable cfg : Config.
Variable env : Env.

Hypothesis Hchat : forall h msg, chat_ok env h msg = true.

Lemma add_user_audit (user_id : string) (access_token : Value) (guild : Z)
    (m : Machine) :
  exists b m' evs,
    add_user_to_guild_via_oauth2 env user_id access_token guild m = (Ok b, m')
    /\ history m' = (history m ++ evs)%list
    /\ List.filter is_kick evs = []
    /\ total_adds (oauth2_adds_log m')
       = (fun total => total + (if b then 1 else 0))
           <$> total_adds (oauth2_adds_log m)
    /\ forall other,
         entries_of (oauth2_adds_log m !! other)
           `prefix_of` entries_of (oauth2_adds_log m' !! other).
Proof.
  destruct (add_user_log env user_id access_token guild m)
    as (success & m' & evs & Hrun & Hh & Hk & Hlog).
  exists success, m', evs. split; [done |]. split; [done |]. split; [done |].
  destruct success.
  - destruct Hlog as (entry & Hlist & _ & _ & ->).
    rewrite (total_adds_grow _ user_id entry Hlist).
    split; [| intros other; apply entries_prefix_grow].
    destruct (total_adds (oauth2_adds_log m)); cbn; [f_equal; lia | done].
  - rewrite Hlog. split; [| done].
    destruct (total_adds (oauth2_adds_log m)); cbn; [f_equal; lia | done].
Qed.

Lemma add_all_loop_audit (total : nat) (members : list Z) :
  forall (i success_count fail_count no_token_count : nat) (m : Machine),
    exists success_count' fail_count' no_token_count' m' evs,
      add_all_loop cfg env total i members
        success_count fail_count no_token_count m
      = (Ok (success_count', fail_count', no_token_count'), m')
      /\ history m' = (history m ++ evs)%list
      /\ success_count <= success_count'
      /\ total_adds (oauth2_adds_log m')
         = (fun total => total + (success_count' - success_count))
             <$> total_adds (oauth2_adds_log m)
      /\ length (List.filter is_kick evs)
         = (if AUTO_KICK_AFTER_ADD cfg then success_count' - success_count else 0)
      /\ forall other,
           entries_of (oauth2_adds_log m !! other)
             `prefix_of` entries_of (oauth2_adds_log m' !! other).
Proof.
  induction members as [| member rest IH];
    intros i success_count fail_count no_token_count m.
  { exists success_count, fail_count, no_token_count, m, [].
    rewrite app_nil_r. split; [done |]. split; [done |]. split; [lia |].
    split.
    { destruct (total_adds (oauth2_adds_log m)); cbn; [f_equal; lia | done]. }
    split; [| done]. destruct (AUTO_KICK_AFTER_ADD cfg); cbn; lia. }
  cbn [add_all_loop]. unfold bind at 1, get.
  destruct (truthy_value _) as [access_token |]; [| apply IH].
  assert (exists m1 evs1,
            (if (i mod 3 =? 0)%nat
             then status_msg_edit env (MsgProcessing (i + 1) total)
             else ret tt) m = (Ok tt, m1)
            /\ history m1 = (history m ++ evs1)%list
            /\ oauth2_adds_log m1 = oauth2_adds_log m
            /\ List.filter is_kick evs1 = [])
    as (m1 & evs1 & Hedit & Hh1 & Hl1 & Hk1).
  { destruct (i mod 3 =? 0)%nat.
    - rewrite status_msg_edit_run by done. by eexists _, [_].
    - eexists m, []. by rewrite app_nil_r. }
  unfold bind at 1. rewrite Hedit.
  destruct (add_user_audit (Py.str_of_int member) access_token
              (TARGET_SERVER_ID cfg) m1)
    as (success & m2 & evs2 & Hadd & Hh2 & Hk2 & Ht2 & Hp2).
  unfold bind at 1. rewrite Hadd.
  assert (exists m3 evs3,
            (if success
             then bind (if AUTO_KICK_AFTER_ADD cfg
                        then try_pass (member_kick env member) else ret tt)
                    (fun _ => ret (S success_count, fail_count))
             else ret (success_count, S fail_count)) m2
            = (Ok (if success then (S success_count, fail_count)
                   else (success_count, S fail_count)), m3)
            /\ history m3 = (history m2 ++ evs3)%list
            /\ oauth2_adds_log m3 = oauth2_adds_log m2
            /\ length (List.filter is_kick evs3)
               = (if success then if AUTO_KICK_AFTER_ADD cfg then 1 else 0 else 0))
    as (m3 & evs3 & Hcount & Hh3 & Hl3 & Hk3).
  { destruct success.
    - destruct (AUTO_KICK_AFTER_ADD cfg).
      + eexists _, [EvKick member].
        unfold bind, try_pass, try_except, member_kick, ret.
        by destruct (kick_ok env (history m2) member).
      + eexists m2, []. by rewrite app_nil_r.
    - eexists m2, []. by rewrite app_nil_r. }
  unfold bind at 1. rewrite Hcount.
  unfold bind at 1, asyncio_sleep, modify.
  set (counts := if success then (S success_count, fail_count)
                 else (success_count, S fail_count)).
  destruct (IH (S i) (fst counts) (snd counts) no_token_count (record EvSleep m3))
    as (s' & f' & k' & m' & evs & Hrun & Hh & Hle & Ht & Hk & Hp).
  exists s', f', k', m', ((((evs1 ++ evs2) ++ evs3) ++ [EvSleep]) ++ evs)%list.
  split; [exact Hrun |].
  split.
  { rewrite Hh. cbn [history record]. rewrite Hh3, Hh2, Hh1.
    by rewrite <- !app_assoc. }
  change (oauth2_adds_log (record EvSleep m3)) with (oauth2_adds_log m3) in Ht, Hp.
  rewrite Hl3, Ht2, Hl1 in Ht.
  subst counts.
  split; [destruct success; cbn [fst] in Hle; lia |].
  split.
  { rewrite Ht. destruct (total_adds (oauth2_adds_log m)); cbn; [| done].
    f_equal. destruct success; cbn [fst] in Hle |- *; lia. }
  split.
  { rewrite !List.filter_app, !length_app, Hk1, Hk2, Hk.
    cbn [List.filter is_kick length]. rewrite Hk3.
    destruct success, (AUTO_KICK_AFTER_ADD cfg); cbn [fst] in Hle |- *; lia. }
  intros other. etrans; [| apply Hp]. rewrite Hl3. etrans; [| apply Hp2].
  by rewrite Hl1.
Qed.

End BatchAudit.

(** The batch and the audit log: provided the progress edits return, the
    total of the log grows by exactly the reported number of successes,
    what was in the log of any user is still there in front, and there are
    as many kicks as successes when [AUTO_KICK_AFTER_ADD] is set and none
    when it is not; a kick that fails changes no count.  The total is
    [None] where [len] raises on an [int] found in the log. *)
Theorem batch_audit
    (cfg : Config) (env : Env) (total : nat) (members : list Z) (m : Machine) :
  (forall h msg, chat_ok env h msg = true) ->
  exists success_count fail_count no_token_count m' evs,
    add_all_loop cfg env total 0 members 0 0 0 m
    = (Ok (success_count, fail_count, no_token_count), m')
    /\ history m' = (history m ++ evs)%list
    /\ total_adds (oauth2_adds_log m')
       = (fun total => (total + success_count)%nat)
           <$> total_adds (oauth2_adds_log m)
    /\ length (List.filter is_kick evs)
       = (if AUTO_KICK_AFTER_ADD cfg then success_count else 0%nat)
    /\ forall other,
         entries_of (oauth2_adds_log m !! other)
           `prefix_of` entries_of (oauth2_adds_log m' !! other).
Proof.
  intros Hchat.
  destruct (add_all_loop_audit cfg env Hchat total members 0%nat 0%nat 0%nat 0%nat m)
    as (s' & f' & k' & m' & evs & Hrun & Hh & _ & Ht & Hk & Hp).
  exists s', f', k', m', evs. rewrite Hrun.
  split; [done |]. split; [done |].
  split.
  { rewrite Ht. destruct (total_adds (oauth2_adds_log m)); cbn; [| done].
    f_equal. lia. }
  split; [| done].
  rewrite Hk. destruct (AUTO_KICK_AFTER_ADD cfg); lia.
Qed.

Lemma batch_audit_witness :
  exists success_count fail_count no_token_count m' evs,
    add_all_loop Cases.cfg_kicking Sample.env 4 0 [222; 333; 444; 555] 0 0 0
      Sample.stocked
    = (Ok (success_count, fail_count, no_token_count), m')
    /\ history m' = (history Sample.stocked ++ evs)%list
    /\ total_adds (oauth2_adds_log m')
       = (fun total => (total + success_count)%nat)
           <$> total_adds (oauth2_adds_log Sample.stocked)
    /\ length (List.filter is_kick evs)
       = (if AUTO_KICK_AFTER_ADD Cases.cfg_kicking then success_count else 0%nat)
    /\ forall other,
         entries_of (oauth2_adds_log Sample.stocked !! other)
           `prefix_of` entries_of (oauth2_adds_log m' !! other).
Proof.
  exact (batch_audit Cases.cfg_kicking Sample.env 4 [222; 333; 444; 555]
           Sample.stocked (fun _ _ => eq_refl)).
Defined.

(** A progress edit that raises, at a position where one is due: the loop
    stops before the request of that member. *)
Lemma add_all_loop_edit_raises
    (cfg : Config) (env : Env) (total i : nat) (member : Z) (rest : list Z)
    (success_count fail_count no_token_count : nat) (m : Machine) :
  has_token (user_access_tokens m) member = true ->
  (i mod 3 = 0)%nat ->
  chat_ok env (history m) (MsgProcessing (i + 1) total) = false ->
  add_all_loop cfg env total i (member :: rest)
    success_count fail_count no_token_count m
  = (Raised HTTPException, record (EvEdit (MsgProcessing (i + 1) total)) m).
Proof.
  intros Htoken Hi Hchat. cbn [add_all_loop]. unfold bind at 1, get.
  rewrite has_token_truthy in Htoken.
  destruct (truthy_value _) as [access_token |]; [| done].
  rewrite Hi. cbn [Nat.eqb]. unfold bind at 1, status_msg_edit.
  by rewrite Hchat.
Qed.

(** The edits of the status message are not guarded: when the start
    message goes out but the first progress edit raises (the message was
    deleted, say) and the first member of the batch has a usable token,
    [!addall] ends with that exception.  No membership request was sent,
    nobody was counted, no report is shown, and the tables are as before. *)
Theorem failing_edit_ends_batch
    (cfg : Config) (env : Env) (role_members : list Z) (member : Z)
    (rest : list Z) (m : Machine) :
  let tokens := user_access_tokens m in
  let total := length (member :: rest) in
  List.filter (has_key tokens) role_members = member :: rest ->
  has_token tokens member = true ->
  chat_ok env (history m) (MsgStarting total) = true ->
  chat_ok env (history m ++ [EvSend (MsgStarting total)])
    (MsgProcessing 1 total) = false ->
  exists m',
    add_all_command cfg env (Some role_members) m = (Raised HTTPException, m')
    /\ tables m' = tables m
    /\ history m'
       = (history m
            ++ [EvSend (MsgStarting total); EvEdit (MsgProcessing 1 total)])%list.
Proof.
  intros tokens total Hfilter Htoken Hstart Hedit.
  unfold add_all_command. unfold bind at 1, get.
  change (List.filter _ role_members)
    with (List.filter (has_key tokens) role_members).
  rewrite Hfilter. cbv iota. fold total.
  unfold bind at 1, ctx_send. rewrite Hstart.
  unfold bind at 1.
  rewrite (add_all_loop_edit_raises cfg env total 0 member rest 0 0 0
             (record (EvSend (MsgStarting total)) m)); try done.
  eexists. split; [done |]. split; [done |]. cbn. by rewrite <- app_assoc.
Qed.

Lemma failing_edit_ends_batch_witness :
  exists m',
    add_all_command Sample.cfg Cases.env_message_gone (Some [111; 222; 444])
      Sample.ready
    = (Raised HTTPException, m')
    /\ tables m' = tables Sample.ready
    /\ history m'
       = (history Sample.ready
            ++ [EvSend (MsgStarting (length [222; 444]));
                EvEdit (MsgProcessing 1 (length [222; 444]))])%list.
Proof.
  apply (failing_edit_ends_batch Sample.cfg Cases.env_message_gone
           [111; 222; 444] 222 [444] Sample.ready); reflexivity.
Defined.

(** ** [!add] *)

(** [!add] refuses with the notice of the cause, and does nothing else: no
    membership request, no table change, no effect.  Without the verified
    role in the guild it tells that the role was not found; with the role
    but not on the member, that the member is not verified; with the role
    on the member but no key for the member in the token table, that the
    member has not authorized.  The command raises only when that message
    cannot be sent. *)
Theorem add_command_refuses
    (cfg : Config) (env : Env) (client : Client) (guild member_id : Z)
    (m : Machine) :
  let run := add_user_command cfg env client guild member_id m in
  let refusal notice :=
    (if reply_ok client (history m) notice
     then Ok notice else Raised HTTPException, m) in
  (role_cached env (history m) guild (VERIFIED_ROLE_ID cfg) = false ->
   run = refusal RoleNotFound)
  /\ (role_cached env (history m) guild (VERIFIED_ROLE_ID cfg) = true ->
      member_has_role env (history m) guild member_id (VERIFIED_ROLE_ID cfg)
      = false ->
      run = refusal NotVerified)
  /\ (role_cached env (history m) guild (VERIFIED_ROLE_ID cfg) = true ->
      member_has_role env (history m) guild member_id (VERIFIED_ROLE_ID cfg)
      = true ->
      user_access_tokens m !! Py.str_of_int member_id = None ->
      run = refusal NotAuthorized).
Proof.
  cbn zeta. unfold add_user_command.
  split; [| split]; unfold bind at 1, guild_get_role.
  - by intros ->.
  - intros -> Hworn. cbn [negb].
    unfold bind at 1, role_in_member_roles. by rewrite Hworn.
  - intros -> Hworn Htoken. cbn [negb].
    unfold bind at 1, role_in_member_roles. rewrite Hworn. cbn [negb].
    unfold bind at 1, get. by rewrite Htoken.
Qed.

Lemma add_command_refuses_witness :
  add_user_command Sample.cfg Cases.env_all_verified Clients.obliging 5 111
    Sample.ready
  = (Ok NotAuthorized, Sample.ready).
Proof.
  destruct (add_command_refuses Sample.cfg Cases.env_all_verified
              Clients.obliging 5 111 Sample.ready) as (_ & _ & Hrefused).
  apply Hrefused; reflexivity.
Defined.

(** A stored token that is the empty string: the batch skips the member
    without any effect, while [!add] sends the membership request with
    that empty token, since it only tests that the key is there. *)
Theorem empty_token_skipped_by_batch_sent_by_add
    (cfg : Config) (env : Env) (client : Client) (guild member_id : Z)
    (total i success_count fail_count no_token_count : nat) (m : Machine) :
  user_access_tokens m !! Py.str_of_int member_id = Some (VStr "") ->
  role_cached env (history m) guild (VERIFIED_ROLE_ID cfg) = true ->
  member_has_role env (history m) guild member_id (VERIFIED_ROLE_ID cfg) = true ->
  reply_ok client (history m) Adding = true ->
  add_all_loop cfg env total i [member_id]
    success_count fail_count no_token_count m
  = (Ok (success_count, fail_count, S no_token_count), m)
  /\ exists evs,
       history (snd (add_user_command cfg env client guild member_id m))
       = (history m
            ++ EvPutMember (TARGET_SERVER_ID cfg) (Py.str_of_int member_id)
                 (VStr "")
                 :: evs)%list.
Proof.
  intros Htoken Hrole Hworn Hreply. split.
  - cbn [add_all_loop]. unfold bind at 1, get. by rewrite Htoken.
  - unfold add_user_command.
    unfold bind at 1, guild_get_role. rewrite Hrole. cbn [negb].
    unfold bind at 1, role_in_member_roles. rewrite Hworn. cbn [negb].
    unfold bind at 1, get. rewrite Htoken. cbn [sliceable].
    unfold bind at 1, ret at 1.
    unfold bind at 1, reply at 1. rewrite Hreply.
    destruct (add_user_log env (Py.str_of_int member_id) (VStr "")
                (TARGET_SERVER_ID cfg) m)
      as (success & m1 & evs & Hrun & Hh & _ & _).
    assert (exists evs1,
              evs = EvPutMember (TARGET_SERVER_ID cfg)
                      (Py.str_of_int member_id) (VStr "") :: evs1)
      as [evs1 ->].
    { rewrite add_user_to_guild_via_oauth2_run in Hrun. cbn [sliceable] in Hrun.
      cbn zeta in Hrun.
      assert (exists evs1,
                history m1
                = (history m
                     ++ EvPutMember (TARGET_SERVER_ID cfg)
                          (Py.str_of_int member_id) (VStr "") :: evs1)%list)
        as [evs1 Hh1].
      { destruct (classify _);
          [destruct (oauth2_adds_log m !! _) as [[| |] |] | 
           destruct (oauth2_adds_log m !! _) as [[| |] |] | |];
          injection Hrun as _ <-;
          first [ by exists [] | exists [EvSave OAUTH2_ADDS_FILE] ];
          histories; by rewrite <- ?app_assoc. }
      rewrite Hh in Hh1. apply app_inv_head in Hh1. by exists evs1. }
    unfold bind at 1. rewrite Hrun.
    assert (forall (r : Res Notice) (m2 : Machine) (c : M Notice),
              (exists evs2, history m2 = (history m1 ++ evs2)%list) ->
              (forall m3, exists r3 evs3,
                 c m3 = (r3, after evs3 m3)) ->
              exists evs4,
                history (snd (c m2))
                = (history m
                     ++ EvPutMember (TARGET_SERVER_ID cfg)
                          (Py.str_of_int member_id) (VStr "") :: evs4)%list)
      as Hrest.
    { intros r m2 c [evs2 Hh2] Hc. destruct (Hc m2) as (r3 & evs3 & ->).
      cbn [snd after history]. rewrite Hh2, Hh.
      exists (evs1 ++ evs2 ++ evs3)%list. by rewrite <- !app_assoc. }
    destruct success.
    + apply (Hrest (Ok AddSucceeded) m1); [exists []; by rewrite app_nil_r |].
      intros m3.
      unfold bind, reply, try_pass, try_except, member_send,
        member_kick_forbidden, ret.
      repeat match goal with
        | |- context [if ?b then _ else _] => destruct b
        | |- context [match ?x with Kicked => _ | _ => _ end] => destruct x
        end;
        first [ by eexists _, [EvKick member_id]
              | eexists _, []; by rewrite after_nil ].
    + apply (Hrest (Ok AddFailed) m1); [exists []; by rewrite app_nil_r |].
      intros m3. unfold reply.
      destruct (reply_ok client (history m3) AddFailed);
        eexists _, []; by rewrite after_nil.
Qed.

Lemma empty_token_skipped_by_batch_sent_by_add_witness :
  add_all_loop Sample.cfg Cases.env_all_verified 1 0 [333] 0 0 0 Sample.stocked
  = (Ok (0%nat, 0%nat, 1%nat), Sample.stocked)
  /\ exists evs,
       history (snd (add_user_command Sample.cfg Cases.env_all_verified
                       Clients.obliging 5 333 Sample.stocked))
       = (history Sample.stocked
            ++ EvPutMember (TARGET_SERVER_ID Sample.cfg) (Py.str_of_int 333)
                 (VStr "")
                 :: evs)%list.
Proof.
  apply (empty_token_skipped_by_batch_sent_by_add Sample.cfg
           Cases.env_all_verified Clients.obliging 5 333 1 0 0 0 0
           Sample.stocked); reflexivity.
Defined.
(** ** The tables at start-up *)

Module StartupFacts.

Import Startup.

Ltac cases fs :=
  unfold boot, load_json_file, readable;
  destruct (fs !! TOKENS_FILE) as [[| tokens] |];
  destruct (fs !! PENDING_FILE) as [[| pending] |];
  destruct (fs !! OAUTH2_ADDS_FILE) as [[| log] |];
  cbn.

(** Two of the three tables are one and the same dict exactly when neither
    of their files could be read at start-up: both names then hold the
    default object of [load_json_file]. *)
Theorem tables_alias_iff (fs : gmap string File) :
  let names := fst (boot fs) in
  (user_access_tokens_ref names = pending_verifications_ref names
   <-> readable fs TOKENS_FILE = false /\ readable fs PENDING_FILE = false)
  /\ (user_access_tokens_ref names = oauth2_adds_log_ref names
      <-> readable fs TOKENS_FILE = false /\ readable fs OAUTH2_ADDS_FILE = false)
  /\ (pending_verifications_ref names = oauth2_adds_log_ref names
      <-> readable fs PENDING_FILE = false /\ readable fs OAUTH2_ADDS_FILE = false).
Proof.
  cases fs; repeat split; try done; intros; try lia; by destruct_and?.
Qed.

(** On a start without readable files, a pending record written for a user
    ([pending_verifications[key] = guild]) is at once an entry of the token
    table and of the audit log under the same key, with the guild id as
    its value. *)
Theorem fresh_start_pending_is_token (fs : gmap string File)
    (key : string) (guild : Z) :
  readable fs TOKENS_FILE = false ->
  readable fs PENDING_FILE = false ->
  readable fs OAUTH2_ADDS_FILE = false ->
  let names := fst (boot fs) in
  let heap :=
    setitem (pending_verifications_ref names) key (VInt guild) (snd (boot fs)) in
  contains (user_access_tokens_ref names) key heap = true
  /\ getitem (user_access_tokens_ref names) key heap = Some (VInt guild)
  /\ getitem (oauth2_adds_log_ref names) key heap = Some (VInt guild).
Proof.
  revert key guild. cases fs; try done; intros key guild _ _ _;
    unfold contains, getitem, setitem; cbn; by rewrite lookup_insert_eq.
Qed.

Lemma fresh_start_pending_is_token_witness :
  let names := fst (boot ∅) in
  let heap :=
    setitem (pending_verifications_ref names) "222" (VInt 5) (snd (boot ∅)) in
  contains (user_access_tokens_ref names) "222" heap = true
  /\ getitem (user_access_tokens_ref names) "222" heap = Some (VInt 5)
  /\ getitem (oauth2_adds_log_ref names) "222" heap = Some (VInt 5).
Proof.
  apply (fresh_start_pending_is_token ∅ "222" 5); reflexivity.
Defined.

(** When the token file or the pending file was read at start-up, a write
    to the pending table is not seen through the token table. *)
Theorem read_tables_are_separate (fs : gmap string File)
    (key other : string) (value : Value) :
  readable fs TOKENS_FILE = true \/ readable fs PENDING_FILE = true ->
  let names := fst (boot fs) in
  getitem (user_access_tokens_ref names) other
    (setitem (pending_verifications_ref names) key value (snd (boot fs)))
  = getitem (user_access_tokens_ref names) other (snd (boot fs)).
Proof.
  revert key other value. cases fs; intros key other value [? | ?]; done.
Qed.

Lemma read_tables_are_separate_witness :
  let fs : gmap string File := {[ TOKENS_FILE := Holds {[ "444" := VStr "tok4" ]} ]} in
  let names := fst (boot fs) in
  getitem (user_access_tokens_ref names) "222"
    (setitem (pending_verifications_ref names) "222" (VInt 5) (snd (boot fs)))
  = getitem (user_access_tokens_ref names) "222" (snd (boot fs)).
Proof.
  apply (read_tables_are_separate
           {[ TOKENS_FILE := Holds {[ "444" := VStr "tok4" ]} ]} "222" "222" (VInt 5)).
  left. reflexivity.
Defined.

(** The state the handlers start from is the heap of [boot] seen through
    the three names: each table is the dict its name refers to, and two
    names are bound to one dict in the machine exactly when [boot] gives
    them the same reference. *)
Theorem machine_agrees_with_boot (fs : gmap string File) :
  let names := fst (boot fs) in
  let heap := snd (boot fs) in
  (forall t, heap !! ref_of t names = Some (table t (machine fs)))
  /\ (forall t, own (dict_of t (machine fs)) = readable fs
                  match t with
                  | Tokens => TOKENS_FILE
                  | Pending => PENDING_FILE
                  | Log => OAUTH2_ADDS_FILE
                  end)
  /\ forall t t', t <> t' ->
       (ref_of t names = ref_of t' names <-> separate t t' (machine fs) = false).
Proof.
  cbn zeta. split; [| split].
  - intros t. unfold machine, content, table.
    destruct t; cases fs; done.
  - intros t. unfold machine, content, readable.
    destruct t; cbn; by destruct (fs !! _) as [[| obj] |].
  - intros t t' Hne. unfold machine, content, separate.
    destruct t, t'; try done; cases fs; split; try done; intros; lia.
Qed.

End StartupFacts.
(** ** [!force_verify] *)

(** [!force_verify] works on roles only: the three tables are as before, so
    a pending record of the member stays and no token appears.  When it
    tells "force-verified", the verified role was added to the member as
    the last effect; when the role is missing in the guild nothing
    happened at all. *)
Theorem force_verify_roles_only
    (cfg : Config) (env : Env) (client : Client) (guild member_id : Z)
    (m : Machine) :
  let r := fst (force_verify_command cfg env client guild member_id m) in
  let m' := snd (force_verify_command cfg env client guild member_id m) in
  tables m' = tables m
  /\ match r with
     | Ok ForceVerified =>
         exists evs,
           history m'
           = (history m
                ++ evs ++ [EvAddRoles guild member_id (VERIFIED_ROLE_ID cfg)])%list
     | Ok RoleNotFound => m' = m
     | Ok ForceFailed | Raised _ => True
     | Ok _ => False
     end.
Proof.
  unfold force_verify_command, bind, guild_get_role, try_except,
    role_in_member_roles, member_remove_roles, member_add_roles, reply, ret.
  repeat match goal with
    | |- context [if ?b then _ else _] => destruct b
    end;
    cbn; (split; [done |]); try done;
    first [ by exists [] | by (eexists [_]; rewrite <- app_assoc) ].
Qed.

(** ** The role change *)

(** When [verify_user_in_guild] answers [True], what the pending table
    held for the user is the id of a guild; the guild and the member were
    found, the verified role exists and was added to that member as the
    last effect; the unverified role was removed first exactly when it
    exists and the member wore it; nothing else happened. *)
Theorem role_change_success
    (cfg : Config) (env : Env) (user_id : Z) (guild_id : Value) (m : Machine) :
  fst (verify_user_in_guild cfg env user_id guild_id m) = Ok true ->
  exists guild,
    guild_id = VInt guild
    /\ guild_cached env (history m) guild = true
    /\ member_cached env (history m) guild user_id = true
    /\ role_cached env (history m) guild (VERIFIED_ROLE_ID cfg) = true
    /\ exists evs,
         snd (verify_user_in_guild cfg env user_id guild_id m)
         = after (evs ++ [EvAddRoles guild user_id (VERIFIED_ROLE_ID cfg)]) m
         /\ evs
            = if role_cached env (history m) guild (UNVERIFIED_ROLE_ID cfg)
                 && member_has_role env (history m) guild user_id
                      (UNVERIFIED_ROLE_ID cfg)
              then [EvRemoveRoles guild user_id (UNVERIFIED_ROLE_ID cfg)]
              else [].
Proof.
  unfold verify_user_in_guild, bind, bot_get_guild, guild_get_member,
    guild_get_role, try_except, role_in_member_roles,
    member_remove_roles, member_add_roles, ret, raise.
  destruct guild_id as [s | guild | entries]; [done | | done].
  destruct (guild_cached env (history m) guild) eqn:Hguild; [| done].
  destruct (member_cached env (history m) guild user_id) eqn:Hmember;
    [| done]. cbn [negb].
  destruct (role_cached env (history m) guild (VERIFIED_ROLE_ID cfg))
    eqn:Hrole; [| done]. cbn [negb].
  destruct (role_cached env (history m) guild (UNVERIFIED_ROLE_ID cfg))
    eqn:Hunverified.
  - destruct (member_has_role env (history m) guild user_id (UNVERIFIED_ROLE_ID cfg))
      eqn:Hworn.
    + destruct (role_call_ok env (history m) guild user_id (UNVERIFIED_ROLE_ID cfg));
        [| done]. cbn [record history].
      destruct (role_call_ok env _ guild user_id (VERIFIED_ROLE_ID cfg)); [| done].
      intros _. exists guild. do 4 (split; [done |]).
      exists [EvRemoveRoles guild user_id (UNVERIFIED_ROLE_ID cfg)].
      rewrite Hunverified, Hworn.
      split; [| done]. unfold after, record. cbn. by rewrite <- app_assoc.
    + destruct (role_call_ok env (history m) guild user_id (VERIFIED_ROLE_ID cfg));
        [| done].
      intros _. exists guild. do 4 (split; [done |]). exists [].
      by rewrite Hunverified, Hworn.
  - destruct (role_call_ok env (history m) guild user_id (VERIFIED_ROLE_ID cfg));
      [| done].
    intros _. exists guild. do 4 (split; [done |]). exists [].
    by rewrite Hunverified.
Qed.

Lemma role_change_success_witness :
  exists guild,
    VInt 5 = VInt guild
    /\ guild_cached Sample.env (history Sample.idle) guild = true
    /\ member_cached Sample.env (history Sample.idle) guild 222 = true
    /\ role_cached Sample.env (history Sample.idle) guild
         (VERIFIED_ROLE_ID Sample.cfg)
       = true
    /\ exists evs,
         snd (verify_user_in_guild Sample.cfg Sample.env 222 (VInt 5) Sample.idle)
         = after (evs ++ [EvAddRoles guild 222 (VERIFIED_ROLE_ID Sample.cfg)])
             Sample.idle
         /\ evs
            = if role_cached Sample.env (history Sample.idle) guild
                   (UNVERIFIED_ROLE_ID Sample.cfg)
                 && member_has_role Sample.env (history Sample.idle) guild 222
                      (UNVERIFIED_ROLE_ID Sample.cfg)
              then [EvRemoveRoles guild 222 (UNVERIFIED_ROLE_ID Sample.cfg)]
              else [].
Proof.
  apply (role_change_success Sample.cfg Sample.env 222 (VInt 5) Sample.idle).
  reflexivity.
Defined.
(** ** Settings *)

Module SettingsFacts.

Import Settings.

Lemma lower_char_idem (c : ascii) : lower_char (lower_char c) = lower_char c.
Proof.
  unfold lower_char.
  destruct ((65 <=? nat_of_ascii c)%nat && (nat_of_ascii c <=? 90)%nat) eqn:Hup;
    [| by rewrite Hup].
  apply andb_true_iff in Hup as [Hlo Hhi].
  apply Nat.leb_le in Hlo, Hhi.
  rewrite nat_ascii_embedding by lia.
  assert ((nat_of_ascii c + 32 <=? 90)%nat = false) as ->
    by (apply Nat.leb_gt; lia).
  by rewrite andb_false_r.
Qed.

Lemma lower_idem (s : string) : lower (lower s) = lower s.
Proof.
  induction s as [| c s IH]; [done |]. cbn. by rewrite lower_char_idem, IH.
Qed.

(** [get_env_bool] on a variable that is set looks at neither the default
    nor the letter case of the value; on a variable that is not set it is
    the default. *)
Theorem env_bool_case_and_default
    (environ : gmap string string) (name value : string) (d d' : bool) :
  get_env_bool (<[name := value]> environ) name d
  = get_env_bool (<[name := lower value]> environ) name d'
  /\ get_env_bool (delete name environ) name d = d.
Proof.
  unfold get_env_bool. rewrite !lookup_insert_eq, lookup_delete_eq.
  by rewrite lower_idem.
Qed.


(** For settings that are ASCII within the digit limit of [int()]: the
    start-up reads succeed exactly when [PORT], if the environment has it,
    is a numeral, [TOKEN] is set, and the five ids are set to numerals,
    each in the environment or the [.env] file.  [CLIENT_ID],
    [CLIENT_SECRET] and [REDIRECT_URI] are not needed; and a [PORT] that is
    only in the [.env] file is not used: the port is then 3000. *)
Theorem start_up_succeeds_iff (environ dotenv : gmap string string) :
  let merged := environ ∪ dotenv in
  let numeral name :=
    exists value n, merged !! name = Some value /\ Py.int_of_str value = Some n in
  (forall name value, merged !! name = Some value -> Py.plain value = true) ->
  ((exists port cfg, load environ dotenv = Ok (port, cfg))
   <-> (forall value, environ !! "PORT" = Some value ->
          is_Some (Py.int_of_str value))
       /\ is_Some (merged !! "TOKEN")
       /\ numeral "GUILD_ID" /\ numeral "UNVERIFIED_ROLE_ID"
       /\ numeral "VERIFIED_ROLE_ID" /\ numeral "LOG_CHANNEL_ID"
       /\ numeral "TARGET_SERVER_ID")
  /\ forall port cfg,
       load environ dotenv = Ok (port, cfg) ->
       environ !! "PORT" = None -> port = 3000.
Proof.
  intros merged numeral _. subst numeral. unfold load, get_env_int. fold merged.
  split.
  - split.
    + intros (port & cfg & Hload).
      destruct (environ !! "PORT") as [pv |] eqn:Hport.
      * destruct (Py.int_of_str pv) as [p |] eqn:Hpv; [| done].
        destruct (merged !! "TOKEN") as [tk |]; [| done].
        destruct (merged !! "GUILD_ID") as [v1 |]; [| done].
        destruct (Py.int_of_str v1) as [n1 |] eqn:H1; [| done].
        destruct (merged !! "UNVERIFIED_ROLE_ID") as [v2 |]; [| done].
        destruct (Py.int_of_str v2) as [n2 |] eqn:H2; [| done].
        destruct (merged !! "VERIFIED_ROLE_ID") as [v3 |]; [| done].
        destruct (Py.int_of_str v3) as [n3 |] eqn:H3; [| done].
        destruct (merged !! "LOG_CHANNEL_ID") as [v4 |]; [| done].
        destruct (Py.int_of_str v4) as [n4 |] eqn:H4; [| done].
        destruct (merged !! "TARGET_SERVER_ID") as [v5 |]; [| done].
        destruct (Py.int_of_str v5) as [n5 |] eqn:H5; [| done].
        repeat split; eauto. intros ? [= <-]. by rewrite Hpv.
      * destruct (merged !! "TOKEN") as [tk |]; [| done].
        destruct (merged !! "GUILD_ID") as [v1 |]; [| done].
        destruct (Py.int_of_str v1) as [n1 |] eqn:H1; [| done].
        destruct (merged !! "UNVERIFIED_ROLE_ID") as [v2 |]; [| done].
        destruct (Py.int_of_str v2) as [n2 |] eqn:H2; [| done].
        destruct (merged !! "VERIFIED_ROLE_ID") as [v3 |]; [| done].
        destruct (Py.int_of_str v3) as [n3 |] eqn:H3; [| done].
        destruct (merged !! "LOG_CHANNEL_ID") as [v4 |]; [| done].
        destruct (Py.int_of_str v4) as [n4 |] eqn:H4; [| done].
        destruct (merged !! "TARGET_SERVER_ID") as [v5 |]; [| done].
        destruct (Py.int_of_str v5) as [n5 |] eqn:H5; [| done].
        repeat split; eauto. done.
    + intros (Hport & [tk ->] & (v1 & n1 & -> & ->) & (v2 & n2 & -> & ->)
              & (v3 & n3 & -> & ->) & (v4 & n4 & -> & ->) & (v5 & n5 & -> & ->)).
      destruct (environ !! "PORT") as [pv |]; [| by eexists _, _].
      destruct (Hport pv eq_refl) as [p ->]. by eexists _, _.
  - intros port cfg Hload Hport. rewrite Hport in Hload.
    destruct (merged !! "TOKEN") as [tk |]; [| done].
    destruct (merged !! "GUILD_ID") as [v1 |]; [| done].
    destruct (Py.int_of_str v1) as [n1 |]; [| done].
    destruct (merged !! "UNVERIFIED_ROLE_ID") as [v2 |]; [| done].
    destruct (Py.int_of_str v2) as [n2 |]; [| done].
    destruct (merged !! "VERIFIED_ROLE_ID") as [v3 |]; [| done].
    destruct (Py.int_of_str v3) as [n3 |]; [| done].
    destruct (merged !! "LOG_CHANNEL_ID") as [v4 |]; [| done].
    destruct (Py.int_of_str v4) as [n4 |]; [| done].
    destruct (merged !! "TARGET_SERVER_ID") as [v5 |]; [| done].
    destruct (Py.int_of_str v5) as [n5 |]; [| done].
    by injection Hload as <- _.
Qed.

Lemma start_up_succeeds_iff_witness :
  let environ : gmap string string :=
    {[ "TOKEN" := "bot-token"; "GUILD_ID" := "5";
       "UNVERIFIED_ROLE_ID" := "70"; "VERIFIED_ROLE_ID" := " 71";
       "LOG_CHANNEL_ID" := "8"; "TARGET_SERVER_ID" := "9_00" ]} in
  let dotenv : gmap string string := {[ "PORT" := "8080" ]} in
  exists cfg,
    load environ dotenv = Ok (3000, cfg)
    /\ VERIFIED_ROLE_ID cfg = 71 /\ TARGET_SERVER_ID cfg = 900.
Proof.
  intros environ dotenv.
  destruct (start_up_succeeds_iff environ dotenv) as [[_ Hload] Hport].
  { change (map_Forall (fun (_ : string) value => Py.plain value = true)
              (environ ∪ dotenv)).
    apply (bool_decide_unpack _). by vm_compute. }
  destruct Hload as (port & cfg & Hrun).
  { split; [intros value Hvalue; by vm_compute in Hvalue |].
    split; [by eexists |].
    repeat split; by eexists _, _. }
  rewrite (Hport port cfg Hrun eq_refl) in Hrun.
  exists cfg. split; [exact Hrun |].
  vm_compute in Hrun. by injection Hrun as <-.
Defined.

End SettingsFacts.

(** ** The claimed effects, where each table is a dict of its own *)

(** Where the token and pending tables are two dicts: with a pending
    record for the user and the role change succeeding, the reconciliation
    ends in [Reconciled]; the pending record of the user is deleted, the
    token is stored for the user, and the log, when it is a third dict, is
    as it was. *)
Theorem reconciled_on_separate_dicts
    (cfg : Config) (env : Env) (user_id : Z) (access_token : string)
    (m : Machine) (user_info : gmap string string) (id_str : string)
    (n : Z) (guild_id : Value) :
  separate Tokens Pending m = true ->
  get_me env (history m) access_token = Resp 200 (Some user_info) ->
  user_info !! "id" = Some id_str ->
  Py.int_of_str id_str = Some n ->
  pending_verifications m !! Py.str_of_int n = Some guild_id ->
  fst (verify_user_in_guild cfg env n guild_id (record (EvGetMe access_token) m))
  = Ok true ->
  exists r m',
    complete_verification cfg env user_id access_token m = (r, m')
    /\ r = Ok true
    /\ terminal r = Reconciled
    /\ pending_verifications m'
       = delete (Py.str_of_int n) (pending_verifications m)
    /\ user_access_tokens m'
       = <[Py.str_of_int n := VStr access_token]> (user_access_tokens m)
    /\ (separate Log Tokens m && separate Log Pending m = true ->
        oauth2_adds_log m' = oauth2_adds_log m).
Proof.
  intros Hsep Hme Hid Hint Hpending Hroles.
  destruct (reconciled_tables cfg env user_id _ _ _ _ _ _
              Hme Hid Hint Hpending Hroles)
    as (m' & Hrun & Htables & _ & Hsplit).
  destruct (Hsplit Hsep) as [Hp Ht].
  exists (Ok true), m'. split; [done |]. split; [done |]. split; [done |].
  split; [done |]. split; [done |].
  intros [Hlt Hlp]%andb_true_iff.
  rewrite (tables_table _ _ _ Htables).
  rewrite table_set_separate;
    [| done | by rewrite separate_set_table, separate_sym].
  apply table_set_separate; [done | by rewrite separate_sym].
Qed.

Lemma reconciled_on_separate_dicts_witness :
  exists r m',
    complete_verification Sample.cfg Sample.env 222 "tok" Sample.waiting = (r, m')
    /\ r = Ok true
    /\ terminal r = Reconciled
    /\ pending_verifications m' = delete "222" (pending_verifications Sample.waiting)
    /\ user_access_tokens m'
       = <["222" := VStr "tok"]> (user_access_tokens Sample.waiting)
    /\ (separate Log Tokens Sample.waiting && separate Log Pending Sample.waiting
        = true ->
        oauth2_adds_log m' = oauth2_adds_log Sample.waiting).
Proof.
  apply (reconciled_on_separate_dicts Sample.cfg Sample.env 222 "tok"
           Sample.waiting Sample.identity "222" 222 (VInt 5)); reflexivity.
Defined.

(** The status of the membership request decides the branch: 200 and 201
    are [Added], 204 is [AlreadyMember], 403 is [Forbidden], any other
    status or an exception is [OtherError].  For a token that can be sent,
    and where the log holds a list for the user or nothing, the branch
    decides the result and the audit log: [Added] and [AlreadyMember]
    succeed and append exactly one entry to the log of the user, tagged
    ["oauth2_guilds_join"] resp. ["already_member"]; [Forbidden] and
    [OtherError] fail and leave every table as it was. *)
Theorem redirect_one_classified :
  (classify (Some 200) = Added
   /\ classify (Some 201) = Added
   /\ classify (Some 204) = AlreadyMember
   /\ classify (Some 403) = Forbidden
   /\ classify None = OtherError
   /\ forall status,
        status <> 200 -> status <> 201 -> status <> 204 -> status <> 403 ->
        classify (Some status) = OtherError)
  /\ forall (env : Env) (user_id : string) (access_token : Value) (guild : Z)
       (m : Machine),
       sliceable access_token = true ->
       (forall v, oauth2_adds_log m !! user_id = Some v ->
                  exists entries, v = VLog entries) ->
       let reply := put_member env (history m) guild user_id access_token in
       let before := entries_of (oauth2_adds_log m !! user_id) in
       exists r m',
         add_user_to_guild_via_oauth2 env user_id access_token guild m = (r, m')
         /\ match classify reply with
            | Added =>
                r = Ok true
                /\ exists entry,
                     oauth2_adds_log m'
                     = <[user_id := VLog (before ++ [entry])]> (oauth2_adds_log m)
                     /\ method entry = "oauth2_guilds_join"
                     /\ guild_id entry = guild
            | AlreadyMember =>
                r = Ok true
                /\ exists entry,
                     oauth2_adds_log m'
                     = <[user_id := VLog (before ++ [entry])]> (oauth2_adds_log m)
                     /\ method entry = "already_member"
                     /\ guild_id entry = guild
            | Forbidden => r = Ok false /\ tables m' = tables m
            | OtherError => r = Ok false /\ tables m' = tables m
            end.
Proof.
  split.
  - repeat split; try reflexivity.
    intros status H200 H201 H204 H403. unfold classify.
    destruct (Z.eqb_spec status 200); [done |].
    destruct (Z.eqb_spec status 201); [done |].
    destruct (Z.eqb_spec status 204); [done |].
    by destruct (Z.eqb_spec status 403).
  - intros env user_id access_token guild m Hslice Hlist reply before.
    destruct (redirect_one_logged env user_id access_token guild m Hslice Hlist)
      as (r & m' & evs & Hrun & _ & Hcase).
    fold reply before in Hcase.
    exists r, m'. split; [done |].
    destruct (classify reply).
    + destruct Hcase as (-> & _ & entry & Htables & Hmethod & Hguild).
      split; [done |]. exists entry.
      by rewrite (tables_table _ _ _ Htables), table_set_same.
    + destruct Hcase as (-> & _ & entry & Htables & Hmethod & Hguild).
      split; [done |]. exists entry.
      by rewrite (tables_table _ _ _ Htables), table_set_same.
    + by destruct Hcase as (-> & _ & ->).
    + by destruct Hcase as (-> & _ & ->).
Qed.

Lemma redirect_one_classified_witness :
  exists m' entry,
    add_user_to_guild_via_oauth2 Sample.env "222" (VStr "tok") 900 Sample.ready
    = (Ok true, m')
    /\ oauth2_adds_log m'
       = <["222" := VLog [entry]]> (oauth2_adds_log Sample.ready)
    /\ method entry = "oauth2_guilds_join"
    /\ guild_id entry = 900.
Proof.
  destruct redirect_one_classified as [_ Hrun].
  destruct (Hrun Sample.env "222" (VStr "tok") 900 Sample.ready)
    as (r & m' & Hadd & Hcase).
  - reflexivity.
  - intros v Hv. vm_compute in Hv. discriminate Hv.
  - change (classify (put_member Sample.env (history Sample.ready) 900 "222"
                        (VStr "tok"))) with Added in Hcase.
    destruct Hcase as (-> & entry & Hlog & Hmethod & Hguild).
    by exists m', entry.
Defined.

(** ** A guild id in the place of a token *)



(** ** A list in the place of a guild id *)

(** When what the pending table holds for the user of a callback is a list
    (the log entries of the user, where the pending table and the audit
    log are one dict), the callback raises [TypeError] out of the guild
    lookup, right after the identity lookup: no page is returned and no
    table has changed. *)
Theorem callback_raises_on_logged_user
    (cfg : Config) (env : Env) (m : Machine) (code access_token : string)
    (token_data user_info : gmap string string) (n guild : Z)
    (entries : list LogEntry) :
  code <> "" ->
  post_token env (history m) code = Resp 200 (Some token_data) ->
  token_data !! "access_token" = Some access_token ->
  n <> 0 ->
  get_me env (history m ++ [EvPostToken code]) access_token
  = Resp 200 (Some user_info) ->
  user_info !! "id" = Some (Py.str_of_int n) ->
  pending_verifications m !! Py.str_of_int n = Some (VLog entries) ->
  exists m',
    handle_callback cfg env
      {| web.code := Some code; web.state := Some (state_data n guild) |} m
    = (Raised TypeError, m')
    /\ tables m' = tables m
    /\ history m'
       = (history m ++ [EvPostToken code; EvGetMe access_token])%list.
Proof.
  intros Hcode Hpost Htoken Hn Hme Hid Hpending.
  unfold handle_callback. cbn [web.code web.state].
  rewrite (truthy_str_nonempty _ Hcode).
  unfold bind at 1. rewrite exchange_code_for_token_run, Hpost.
  cbn [Z.eqb Pos.eqb]. rewrite (truthy_dict_lookup _ _ _ Htoken).
  cbn [mbind option_bind]. rewrite Htoken.
  rewrite parse_state_of_state_data.
  assert (Py.truthy_int (Some n) = true) as ->.
  { cbn. by destruct (Z.eqb_spec n 0). }
  unfold bind at 1, ret at 1.
  destruct (Z.eqb_spec n 0) as [? | _]; [done |]. cbn [negb].
  unfold bind at 1. unfold bind at 1.
  rewrite (complete_verification_run cfg env n access_token
             (record (EvPostToken code) m) user_info
             (Py.str_of_int n) n Hme Hid (int_of_str_of_int n)).
  cbn zeta.
  change (pending_verifications (record ?e m)) with (pending_verifications m).
  rewrite Hpending.
  eexists. split; [done |]. split; [done |].
  cbn. by rewrite <- app_assoc.
Qed.

Lemma callback_raises_on_logged_user_witness :
  let redirected :=
    add_user_to_guild_via_oauth2 Sample.env "222" (VStr "tok") 900
      Cases.tokens_only in
  fst redirected = Ok true
  /\ exists m',
       handle_callback Sample.cfg Sample.env
         {| web.code := Some "c0de"; web.state := Some (state_data 222 5) |}
         (snd redirected)
       = (Raised TypeError, m')
       /\ tables m' = tables (snd redirected)
       /\ history m'
          = (history (snd redirected) ++ [EvPostToken "c0de"; EvGetMe "tok"])%list.
Proof.
  split; [reflexivity |].
  apply (callback_raises_on_logged_user Sample.cfg Sample.env _ "c0de" "tok"
           {[ "access_token" := "tok" ]} Sample.identity 222 5
           [{| timestamp := "2024-05-01T12:00:00"; guild_id := 900;
               method := "oauth2_guilds_join" |}]);
    try reflexivity; [discriminate | lia].
Defined.
